(** * helius-cli: the webhook commands and the API client

    A shallow embedding of [src/commands/webhooks.ts] (the current version,
    the one with the [--collection] option), of the API client that goes
    with it ([getNftAddressesFromCollection], [request], [createWebhook],
    [deleteWebhook]) and of [ensureConfig] from [src/config.ts].

    The commands are sequential programs that talk to a terminal, to the
    user and to two HTTP services.  They are embedded as functions into a
    small monad that records what the program does (a trace of [event]s)
    and how it ends (an [outcome]); what the outside answers is read from a
    [World] (the services, the stored configuration) and a [User] (what is
    typed at each prompt).

    Two things the sources leave to the platform are parameters of the last
    definitions ([PromptOrder], [Platform]): whether the prompt library
    validates an entry before or after filtering it, and what
    [t.trim().toUpperCase()] returns outside the ASCII range. *)

From Stdlib Require Import String Ascii List Bool Arith Lia DecimalString.
Import ListNotations.
Local Open Scope string_scope.
Local Open Scope nat_scope.
Local Open Scope list_scope.

(** ** JavaScript strings

    Strings are sequences of characters below 256; the functions below are
    the ECMAScript ones on the ASCII range (a character above 127 is neither
    white space nor a letter here). *)
Module JS.

(** White space removed by [String.prototype.trim]: TAB, LF, VT, FF, CR
    and SPACE. *)
Definition isWhiteSpace (c : ascii) : bool :=
  let n := nat_of_ascii c in
  ((9 <=? n) && (n <=? 13)) || (n =? 32).

Definition isLower (c : ascii) : bool :=
  let n := nat_of_ascii c in (97 <=? n) && (n <=? 122).

Definition upperChar (c : ascii) : ascii :=
  if isLower c then ascii_of_nat (nat_of_ascii c - 32) else c.

(** [s.toUpperCase()] *)
Fixpoint toUpperCase (s : string) : string :=
  match s with
  | EmptyString => EmptyString
  | String c r => String (upperChar c) (toUpperCase r)
  end.

Fixpoint trimStart (s : string) : string :=
  match s with
  | EmptyString => EmptyString
  | String c r => if isWhiteSpace c then trimStart r else s
  end.

Fixpoint trimEnd (s : string) : string :=
  match s with
  | EmptyString => EmptyString
  | String c r =>
      match trimEnd r with
      | EmptyString => if isWhiteSpace c then EmptyString else String c EmptyString
      | r' => String c r'
      end
  end.

(** [s.trim()] *)
Definition trim (s : string) : string := trimEnd (trimStart s).

Definition comma : ascii := ","%char.

(** [s.split(",")]: never empty, the empty string gives one empty token. *)
Fixpoint split (s : string) : list string :=
  match s with
  | EmptyString => [EmptyString]
  | String c r =>
      if Ascii.eqb c comma then EmptyString :: split r
      else match split r with
           | tok :: toks => String c tok :: toks
           | [] => [String c EmptyString]
           end
  end.

(** [xs.join(sep)] *)
Definition join (sep : string) (xs : list string) : string := String.concat sep xs.

(** [xs.includes(x)] on an array of strings. *)
Definition includes (xs : list string) (x : string) : bool :=
  existsb (String.eqb x) xs.

(** Truthiness of a string, and of a possibly undefined string. *)
Definition truthy (s : string) : bool := negb (String.eqb s EmptyString).

Definition truthy_opt (o : option string) : bool :=
  match o with Some s => truthy s | None => false end.

(** A number inside a template literal. *)
Definition ofNat (n : nat) : string := NilEmpty.string_of_uint (Nat.to_uint n).

(** Predicates on the characters of a string. *)
Fixpoint allChars (p : ascii -> bool) (s : string) : bool :=
  match s with
  | EmptyString => true
  | String c r => p c && allChars p r
  end.

Fixpoint countChar (a : ascii) (s : string) : nat :=
  match s with
  | EmptyString => 0
  | String c r => (if Ascii.eqb c a then 1 else 0) + countChar a r
  end.

End JS.

Infix "+++" := String.append (right associativity, at level 60).

(** The newline of the template literals. *)
Definition nl : string := String (ascii_of_nat 10) EmptyString.

(** ** Data model *)

(** [webhooks.ts], lines 409-443: the fixed enumerations. *)
Definition TRANSACTION_TYPES : list string :=
  [ "ANY"; "NFT_SALE"; "NFT_LISTING"; "NFT_CANCEL_LISTING"; "NFT_MINT";
    "NFT_AUCTION_CREATED"; "NFT_BID"; "NFT_AUCTION_COMPLETE"; "SWAP";
    "SWAP_SOL"; "SWAP_TOKEN"; "TOKEN_MINT"; "TOKEN_BURN"; "TRANSFER";
    "SOL_TRANSFER"; "STAKE"; "STAKE_DELEGATION"; "UNSTAKE"; "VOTE";
    "UNKNOWN" ].

Definition WEBHOOK_TYPES : list string :=
  [ "raw"; "rawDevnet"; "enhanced"; "enhancedDevnet"; "discord";
    "discordDevnet" ].

Definition TXN_STATUS_OPTIONS : list string := [ "all"; "success"; "failed" ].

Definition SKIP_STATUS : string := "Skip (don't filter by status)".

Record EncodingConfig : Type := mkEncodingConfig
  { format : string; compression : string }.

(** [Omit<Webhook, "webhookID">]: what a creation request carries.  An
    optional field that is absent (or [undefined]) is [None]. *)
Record WebhookData : Type := mkWebhookData
  { webhookURL : string;
    webhookType : string;
    transactionTypes : list string;
    accountAddresses : list string;
    authHeader : option string;
    txnStatus : option string;
    encoding : option string;
    encoding_config : option EncodingConfig }.

(** [Webhook]: the record the service returns. *)
Record Webhook : Type := mkWebhook
  { webhookID : string; fields : WebhookData }.

(** One item of a [getAssetsByGroup] page and the [result] of a page. *)
Record Asset : Type := mkAsset { id : string }.

Record DasResult : Type := mkDasResult { items : option (list Asset) }.

(** The options commander hands to the [create] action. *)
Record CreateOptions : Type := mkCreateOptions
  { opt_url : option string;
    opt_type : option string;
    opt_authHeader : option string;
    opt_status : option string;
    opt_types : option string;
    opt_addresses : option string;
    opt_collection : option string;
    opt_interactive : bool }.

(** ** The outside: services, configuration, user *)

(** What a call of [axios] comes to: a response with its [data], or one of
    the three ways an [AxiosError] looks ([error.response] set, only
    [error.request] set, neither). *)
Inductive AxiosResult (T : Type) : Type :=
| Response (data : T)
| ErrorResponse (status : nat) (data : string)
| ErrorRequest
| ErrorSetup (message : string).
Arguments Response {T} data.
Arguments ErrorResponse {T} status data.
Arguments ErrorRequest {T}.
Arguments ErrorSetup {T} message.

(** The stored configuration and the two services.  An answer of a service
    carries a body of the expected shape; a successful answer with another
    body, on which the code would throw, is not among the answers. *)
Record World : Type := mkWorld
  { config_apiKey : string;
    config_baseUrl : string;
    (** POST /webhooks *)
    createWebhookReply : WebhookData -> AxiosResult Webhook;
    (** DELETE /webhooks/:id, the [success] field of the body *)
    deleteWebhookReply : string -> AxiosResult bool;
    (** [getAssetsByGroup] for a collection and a page: [response.data.result],
        which may be missing *)
    getAssetsByGroupReply : string -> nat -> AxiosResult (option DasResult) }.

(** What the user does at each prompt.  A prompt with a [validate] function
    is given the successive entries the user submits; a confirmation is
    given the answer; a list prompt the position of the chosen entry; a
    checkbox prompt the values checked at each submission. *)
Record User : Type := mkUser
  { (* ensureConfig *)
    in_apiKey : list string;
    (* create action, lines 605-612 *)
    create_confirm : bool;
    (* promptForWebhookData *)
    in_webhookURL : list string;
    in_webhookType : nat;
    in_authHeader : string;
    in_txnStatus : nat;
    in_transactionTypes : list (list string);
    in_useCollection : bool;
    in_collectionAddress : list string;
    in_confirm : bool;
    in_accountAddresses : list string;
    in_additionalAddresses : list string;
    (* delete action, lines 774-781 *)
    delete_confirm : bool }.

(** ** Effects *)

Inductive Body : Type :=
| NoBody
| WebhookBody (webhook : WebhookData)
| AssetsByGroupBody (groupValue : string) (page limit : nat).

Inductive event : Type :=
| ConsoleLog (text : string)
| ConsoleError (text : string)
| SpinnerStart (text : string)
| SpinnerSucceed (text : string)
| SpinnerFail (text : string)
| PromptAsk (name message : string)
| PromptInvalid (name message : string)
| ConfigSaved (apiKey : string)
| HttpRequest (method url : string) (body : Body).

(** How a computation ends: with a value, with an [Error] thrown (its
    message), with [process.exit], or never ([Pending]: a prompt that is
    never answered with a valid entry, a loop that has not finished within
    the fuel). *)
Inductive outcome (A : Type) : Type :=
| Return (a : A)
| Throw (message : string)
| Exit (code : nat)
| Pending.
Arguments Return {A} a.
Arguments Throw {A} message.
Arguments Exit {A} code.
Arguments Pending {A}.

Definition IO (A : Type) : Type := (list event * outcome A)%type.

Definition ret {A} (a : A) : IO A := ([], Return a).

Definition bind {A B} (m : IO A) (k : A -> IO B) : IO B :=
  match m with
  | (t, Return a) => let r := k a in (t ++ fst r, snd r)
  | (t, Throw e) => (t, Throw e)
  | (t, Exit c) => (t, Exit c)
  | (t, Pending) => (t, Pending)
  end.

Notation "x <- m ;; k" := (bind m (fun x => k))
  (at level 61, m at next level, right associativity).
Notation "m ;; k" := (bind m (fun _ => k))
  (at level 61, right associativity).

Definition emit (e : event) : IO unit := ([e], Return tt).
Definition throw {A} (message : string) : IO A := ([], Throw message).
Definition exit {A} (code : nat) : IO A := ([], Exit code).
Definition pending {A} : IO A := ([], Pending).

(** [try { m } catch (error) { handler(error.message) }]; [process.exit]
    is not an exception and is not caught. *)
Definition tryCatch {A} (m : IO A) (handler : string -> IO A) : IO A :=
  match m with
  | (t, Throw e) => let r := handler e in (t ++ fst r, snd r)
  | _ => m
  end.

Definition trace {A} (m : IO A) : list event := fst m.
Definition result {A} (m : IO A) : outcome A := snd m.

(** ** Prompts (inquirer)

    A prompt shows its message and takes what the user submits.  With a
    [validate] function an entry is accepted when [validate] returns [true]
    on the text as typed ([None] below; otherwise the error text is shown
    and the prompt waits for the next entry); the answer is the accepted
    entry passed through [filter].  This is the order of inquirer from
    version 10 on; [promptValidatedIn] below has the order of the earlier
    versions too. *)
Fixpoint submitUntilValid {I} (name : string) (validate : I -> option string)
    (entries : list I) : IO I :=
  match entries with
  | [] => pending
  | entry :: later =>
      match validate entry with
      | None => ret entry
      | Some message =>
          emit (PromptInvalid name message) ;;
          submitUntilValid name validate later
      end
  end.

Definition promptValidated {I A} (name message : string)
    (validate : I -> option string) (filter : I -> A) (entries : list I) : IO A :=
  emit (PromptAsk name message) ;;
  entry <- submitUntilValid name validate entries ;;
  ret (filter entry).

(** [type: "input"] without [validate]. *)
Definition promptInput (name message : string) (entry : string) : IO string :=
  emit (PromptAsk name message) ;; ret entry.

(** [type: "confirm"] *)
Definition promptConfirm (name message : string) (answer : bool) : IO bool :=
  emit (PromptAsk name message) ;; ret answer.

(** [type: "list"]: the answer is one of the choices. *)
Definition promptList (name message : string) (choices : list string)
    (position : nat) : IO string :=
  emit (PromptAsk name message) ;;
  match nth_error choices position with
  | Some choice => ret choice
  | None => pending
  end.

(** [type: "checkbox"]: the answer is the checked choices, in the order of
    the choices. *)
Definition promptCheckbox (name message : string) (choices : list string)
    (validate : list string -> option string)
    (submissions : list (list string)) : IO (list string) :=
  promptValidated name message validate (fun checked => checked)
    (map (fun checked => List.filter (JS.includes checked) choices) submissions).

(** The [validate] functions of the source: [input.trim() !== "" ? true : message]. *)
Definition notBlank (message : string) (input : string) : option string :=
  if String.eqb (JS.trim input) "" then Some message else None.

(** ** config.ts *)

(** [ensureConfig], lines 61-103, with a configuration file that can be
    written: the [catch] of [saveConfig] is part of [Config.saveConfig] and
    [Config.ensureConfig] below. *)
Definition ensureConfig (w : World) (u : User) : IO bool :=
  let missingValues :=
    if negb (JS.truthy (config_apiKey w)) then ["apiKey"] else [] in
  if length missingValues =? 0 then ret true
  else
    emit (ConsoleLog "Some configuration values are missing. Let's set them up:") ;;
    apiKey <- promptValidated "apiKey" "Enter your Helius API key:"
                (notBlank "API key cannot be empty") (fun s => s) (in_apiKey u) ;;
    emit (ConfigSaved apiKey) ;;
    emit (ConsoleLog "Configuration updated successfully!") ;;
    ret true.

(** ** The API client *)

(** The message of the [Error] that [request] throws for a failed call
    (lines 216-229); [getNftAddressesFromCollection] differs in the last
    case only (lines 339-352). *)
Definition errorMessage {T} (setupPrefix : string) (r : AxiosResult T) : string :=
  match r with
  | Response _ => ""
  | ErrorResponse status data => "API Error: " +++ JS.ofNat status +++ " - " +++ data
  | ErrorRequest => "No response received from API"
  | ErrorSetup message => setupPrefix +++ message
  end.

(** [request], lines 191-230: the body is sent for POST and PUT only. *)
Definition request {T} (w : World) (method endpoint : string) (data : Body)
    (reply : AxiosResult T) : IO T :=
  let url := config_baseUrl w +++ endpoint in
  let sent :=
    if String.eqb method "POST" || String.eqb method "PUT" then data else NoBody in
  emit (HttpRequest method url sent) ;;
  match reply with
  | Response d => ret d
  | failure => throw (errorMessage "Error setting up request: " failure)
  end.

(** [createWebhook], lines 254-256. *)
Definition createWebhook (w : World) (webhook : WebhookData) : IO Webhook :=
  request w "POST" "/webhooks" (WebhookBody webhook) (createWebhookReply w webhook).

(** [deleteWebhook], lines 276-278: the [success] flag of the reply. *)
Definition deleteWebhook (w : World) (webhookID : string) : IO bool :=
  request w "DELETE" ("/webhooks/" +++ webhookID) NoBody (deleteWebhookReply w webhookID).

Definition dasApiUrl : string := "https://mainnet.helius-rpc.com/".

Definition pageLimit : nat := 1000.

(** The [while (hasMorePages)] loop of [getNftAddressesFromCollection]
    (lines 297-336), entered with [hasMorePages = true]; the loop state is
    [page] and [nftAddresses], [fuel] bounds the number of iterations. *)
Fixpoint fetchPages (fuel : nat) (w : World) (collectionAddress : string)
    (page : nat) (nftAddresses : list string) : IO (list string) :=
  match fuel with
  | 0 => pending
  | S fuel' =>
      emit (HttpRequest "POST" dasApiUrl
              (AssetsByGroupBody collectionAddress page pageLimit)) ;;
      match getAssetsByGroupReply w collectionAddress page with
      | Response result =>
          match result with
          | Some {| items := Some its |} =>
              if length its =? 0 then ret nftAddresses
              else
                let addresses := map id its in
                let nftAddresses := nftAddresses ++ addresses in
                if length its <? pageLimit then ret nftAddresses
                else fetchPages fuel' w collectionAddress (page + 1) nftAddresses
          | _ => ret nftAddresses
          end
      | failure => throw (errorMessage "Error fetching NFT addresses: " failure)
      end
  end.

(** [getNftAddressesFromCollection], lines 285-353. *)
Definition getNftAddressesFromCollection (fuel : nat) (w : World)
    (collectionAddress : string) : IO (list string) :=
  fetchPages fuel w collectionAddress 1 [].

(** ** commands/webhooks.ts *)

(** [formatWebhook], lines 450-480 (chalk only colours the text). *)
Definition formatWebhook (webhook : Webhook) : string :=
  let f := fields webhook in
  nl +++ JS.join nl
    [ "ID: " +++ webhookID webhook;
      "URL: " +++ webhookURL f;
      "Type: " +++ webhookType f;
      "Transaction Types: " +++ JS.join ", " (transactionTypes f);
      "Account Addresses: " +++
        (if length (accountAddresses f) =? 0 then "None"
         else JS.join ", " (accountAddresses f));
      match txnStatus f with
      | Some st => if JS.truthy st then "Transaction Status: " +++ st else ""
      | None => ""
      end;
      match encoding f with
      | Some e => if JS.truthy e then "Encoding: " +++ e else ""
      | None => ""
      end;
      match encoding_config f with
      | Some c => "Encoding Config: Format: " +++ format c +++
                  ", Compression: " +++ compression c
      | None => ""
      end;
      match authHeader f with
      | Some h => if JS.truthy h then "Auth Header: " +++ h else ""
      | None => ""
      end ] +++ nl.

(** The guard [if (!option) { console.error(...); console.log(...);
    process.exit(1); }] of the command-line mode; past it the option is a
    non-empty string. *)
Definition required (option : option string) (error hint : string) : IO string :=
  match option with
  | Some value =>
      if JS.truthy value then ret value
      else emit (ConsoleError error) ;; emit (ConsoleLog hint) ;; exit 1
  | None => emit (ConsoleError error) ;; emit (ConsoleLog hint) ;; exit 1
  end.

(** Lines 583-633 of the [create] action: the [--collection] option.
    [accountAddresses] is the variable of line 581; the block returns its
    value at line 633. *)
Definition processCollectionOption (fuel : nat) (w : World) (u : User)
    (collection : string) (accountAddresses : list string) : IO (list string) :=
  emit (SpinnerStart ("Fetching NFTs from collection " +++ collection +++ "...")) ;;
  tryCatch
    (nftAddresses <- getNftAddressesFromCollection fuel w collection ;;
     emit (SpinnerSucceed ("Found " +++ JS.ofNat (length nftAddresses) +++
                           " NFTs in collection " +++ collection)) ;;
     if length nftAddresses =? 0 then
       emit (ConsoleLog "No NFTs found in the collection. Please check the collection address.") ;;
       ret accountAddresses
     else
       confirm <- promptConfirm "confirm"
                    ("Do you want to add " +++ JS.ofNat (length nftAddresses) +++
                     " NFT addresses from this collection to your webhook?")
                    (create_confirm u) ;;
       if confirm then
         emit (ConsoleLog ("Added " +++ JS.ofNat (length nftAddresses) +++
                           " NFT addresses to the webhook.")) ;;
         ret nftAddresses
       else
         emit (ConsoleLog "NFT addresses not added.") ;;
         ret accountAddresses)
    (fun message =>
       emit (SpinnerFail ("Failed to fetch NFTs from collection: " +++ message)) ;;
       emit (ConsoleLog "Continuing without collection NFTs...") ;;
       ret accountAddresses).

(** Lines 675-684: the loop over the parsed transaction types. *)
Fixpoint validateTransactionTypes (types : list string) : IO unit :=
  match types with
  | [] => ret tt
  | type :: rest =>
      if negb (JS.includes TRANSACTION_TYPES type) then
        emit (ConsoleError ("Error: Invalid transaction type: " +++ type)) ;;
        emit (ConsoleLog ("Valid types are: " +++ JS.join ", " TRANSACTION_TYPES)) ;;
        exit 1
      else validateTransactionTypes rest
  end.

(** [options.types.split(",").map(t => t.trim().toUpperCase())] *)
Definition parseTransactionTypes (types : string) : list string :=
  map (fun t => JS.toUpperCase (JS.trim t)) (JS.split types).

(** [options.addresses.split(",").map(a => a.trim())] *)
Definition parseAddresses (addresses : string) : list string :=
  map JS.trim (JS.split addresses).

(** Lines 686-717: the addresses of the command-line mode. *)
Definition commandLineAddresses (options : CreateOptions)
    (accountAddresses : list string) : IO (list string) :=
  if length accountAddresses =? 0 then
    addresses <- required (opt_addresses options)
                   "Error: Account addresses are required for non-interactive mode"
                   "Use --addresses option, --collection option, or --interactive mode" ;;
    ret (parseAddresses addresses)
  else if JS.truthy_opt (opt_addresses options) then
    let additionalAddresses :=
      match opt_addresses options with
      | Some addresses => parseAddresses addresses
      | None => []
      end in
    emit (ConsoleLog ("Added " +++ JS.ofNat (length additionalAddresses) +++
                      " additional addresses from command line.")) ;;
    ret (accountAddresses ++ additionalAddresses)
  else ret accountAddresses.

(** Lines 639-745: the command-line mode of the [create] action. *)
Definition commandLineWebhookData (options : CreateOptions)
    (accountAddresses : list string) : IO WebhookData :=
  url <- required (opt_url options)
           "Error: Webhook URL is required for non-interactive mode"
           "Use --url option or --interactive mode" ;;
  type <- required (opt_type options)
            "Error: Webhook type is required for non-interactive mode"
            "Use --type option or --interactive mode" ;;
  types <- required (opt_types options)
             "Error: Transaction types are required for non-interactive mode"
             "Use --types option or --interactive mode" ;;
  let transactionTypes := parseTransactionTypes types in
  validateTransactionTypes transactionTypes ;;
  accountAddresses <- commandLineAddresses options accountAddresses ;;
  (if negb (JS.includes WEBHOOK_TYPES type) then
     emit (ConsoleError ("Error: Invalid webhook type: " +++ type)) ;;
     emit (ConsoleLog ("Valid types are: " +++ JS.join ", " WEBHOOK_TYPES)) ;;
     exit 1
   else ret tt) ;;
  (match opt_status options with
   | Some status =>
       if JS.truthy status && negb (JS.includes TXN_STATUS_OPTIONS status) then
         emit (ConsoleError ("Error: Invalid transaction status: " +++ status)) ;;
         emit (ConsoleLog ("Valid options are: " +++ JS.join ", " TXN_STATUS_OPTIONS)) ;;
         exit 1
       else ret tt
   | None => ret tt
   end) ;;
  ret {| webhookURL := url;
         webhookType := type;
         transactionTypes := transactionTypes;
         accountAddresses := accountAddresses;
         authHeader := opt_authHeader options;
         txnStatus := if JS.truthy_opt (opt_status options)
                      then opt_status options else None;
         encoding := None;
         encoding_config := None |}.

(** The answers to [basicQuestions] (lines 819-856). *)
Record BasicAnswers : Type := mkBasicAnswers
  { ans_webhookURL : string;
    ans_webhookType : string;
    ans_authHeader : string;
    ans_txnStatus : string;
    ans_transactionTypes : list string }.

Definition askBasicQuestions (u : User) : IO BasicAnswers :=
  webhookURL <- promptValidated "webhookURL" "Enter the webhook URL:"
                  (notBlank "Webhook URL is required") (fun s => s)
                  (in_webhookURL u) ;;
  webhookType <- promptList "webhookType" "Select the webhook type:"
                   WEBHOOK_TYPES (in_webhookType u) ;;
  authHeader <- promptInput "authHeader" "Enter an authorization header (optional):"
                  (in_authHeader u) ;;
  txnStatus <- promptList "txnStatus" "Select transaction status to monitor:"
                 (TXN_STATUS_OPTIONS ++ [SKIP_STATUS]) (in_txnStatus u) ;;
  transactionTypes <- promptCheckbox "transactionTypes"
                        "Select transaction types to monitor:" TRANSACTION_TYPES
                        (fun input => if 0 <? length input then None
                                      else Some "At least one transaction type is required")
                        (in_transactionTypes u) ;;
  ret {| ans_webhookURL := webhookURL;
         ans_webhookType := webhookType;
         ans_authHeader := authHeader;
         ans_txnStatus := txnStatus;
         ans_transactionTypes := transactionTypes |}.

(** Lines 858-887: whether to track a collection, asked only when nothing
    is prefilled.  Returns [useCollection] and [collectionAddress]. *)
Definition askCollection (u : User) (prefilledAddresses : list string)
    : IO (bool * string) :=
  if length prefilledAddresses =? 0 then
    useCollection <- promptConfirm "useCollection"
                       "Do you want to track NFTs from a collection?"
                       (in_useCollection u) ;;
    if useCollection then
      collectionAddress <- promptValidated "collectionAddress"
                             "Enter the collection address:"
                             (notBlank "Collection address is required")
                             (fun s => s) (in_collectionAddress u) ;;
      ret (useCollection, collectionAddress)
    else ret (useCollection, "")
  else ret (false, "").

(** Lines 889-942: the collection is resolved and, when the user confirms,
    appended.  Returns [accountAddresses] and [collectionAddressesAdded]. *)
Definition addCollectionAddresses (fuel : nat) (w : World) (u : User)
    (useCollection : bool) (collectionAddress : string)
    (accountAddresses : list string) : IO (list string * bool) :=
  if useCollection && JS.truthy collectionAddress then
    emit (SpinnerStart ("Fetching NFTs from collection " +++ collectionAddress +++ "...")) ;;
    tryCatch
      (nftAddresses <- getNftAddressesFromCollection fuel w collectionAddress ;;
       emit (SpinnerSucceed ("Found " +++ JS.ofNat (length nftAddresses) +++
                             " NFTs in collection " +++ collectionAddress)) ;;
       if length nftAddresses =? 0 then
         emit (ConsoleLog "No NFTs found in the collection. Please check the collection address.") ;;
         ret (accountAddresses, false)
       else
         confirm <- promptConfirm "confirm"
                      ("Do you want to add " +++ JS.ofNat (length nftAddresses) +++
                       " NFT addresses from this collection to your webhook?")
                      (in_confirm u) ;;
         if confirm then
           emit (ConsoleLog ("Added " +++ JS.ofNat (length nftAddresses) +++
                             " NFT addresses from collection to the webhook.")) ;;
           ret (accountAddresses ++ nftAddresses, true)
         else
           emit (ConsoleLog "NFT addresses from collection not added.") ;;
           ret (accountAddresses, false))
      (fun message =>
         emit (SpinnerFail ("Failed to fetch NFTs from collection: " +++ message)) ;;
         ret (accountAddresses, false))
  else ret (accountAddresses, false).

(** The [filter] of the address prompt, line 969:
    [input ? input.split(",").map(a => a.trim()) : []]. *)
Definition filterAddresses (input : string) : list string :=
  if JS.truthy input then map JS.trim (JS.split input) else [].

(** The constant [addressRequired] of lines 952-954. *)
Definition addressRequired (prefilledAddresses : list string)
    (collectionAddressesAdded : bool) : bool :=
  negb ((0 <? length prefilledAddresses) || collectionAddressesAdded).

(** The [validate] of the address prompt, lines 961-968. *)
Definition validateAddresses (addressRequired : bool) (input : string)
    : option string :=
  if negb addressRequired then None
  else notBlank "At least one account address is required" input.

(** Lines 944-988: the prompt for (additional) addresses. *)
Definition askAddresses (u : User) (prefilledAddresses : list string)
    (collectionAddressesAdded : bool) (accountAddresses : list string)
    : IO (list string) :=
  let addressPromptMessage :=
    if 0 <? length prefilledAddresses then
      "Enter additional account addresses to monitor (comma-separated, optional):"
    else if collectionAddressesAdded then
      "Enter additional account addresses to monitor (comma-separated, optional):"
    else "Enter account addresses to monitor (comma-separated):" in
  entered <- promptValidated "accountAddresses" addressPromptMessage
               (validateAddresses
                  (addressRequired prefilledAddresses collectionAddressesAdded))
               filterAddresses (in_accountAddresses u) ;;
  if 0 <? length entered then
    emit (ConsoleLog ("Added " +++ JS.ofNat (length entered) +++
                      " additional addresses from input.")) ;;
    ret (accountAddresses ++ entered)
  else ret accountAddresses.

(** Lines 990-1007: with no address so far, ask again. *)
Definition requireAddresses (u : User) (accountAddresses : list string)
    : IO (list string) :=
  if length accountAddresses =? 0 then
    emit (ConsoleLog "Error: At least one account address is required.") ;;
    additionalAddresses <- promptValidated "additionalAddresses"
                             "Enter account addresses to monitor (comma-separated):"
                             (notBlank "At least one account address is required")
                             (fun input => map JS.trim (JS.split input))
                             (in_additionalAddresses u) ;;
    ret additionalAddresses
  else ret accountAddresses.

(** [promptForWebhookData], lines 813-1023.  The constant [txnStatus] of
    lines 1010-1013 is computed and not used: the object returned takes
    [basicAnswers.txnStatus]. *)
Definition promptForWebhookData (fuel : nat) (w : World) (u : User)
    (prefilledAddresses : list string) : IO WebhookData :=
  emit (ConsoleLog (nl +++ "Create a new webhook:")) ;;
  basicAnswers <- askBasicQuestions u ;;
  collection <- askCollection u prefilledAddresses ;;
  let useCollection := fst collection in
  let collectionAddress := snd collection in
  let accountAddresses := prefilledAddresses in
  added <- addCollectionAddresses fuel w u useCollection collectionAddress
             accountAddresses ;;
  let accountAddresses := fst added in
  let collectionAddressesAdded := snd added in
  accountAddresses <- askAddresses u prefilledAddresses collectionAddressesAdded
                        accountAddresses ;;
  accountAddresses <- requireAddresses u accountAddresses ;;
  let txnStatus : option (list string) :=
    if String.eqb (ans_txnStatus basicAnswers) SKIP_STATUS then None
    else Some [ans_txnStatus basicAnswers] in
  ret {| webhookURL := ans_webhookURL basicAnswers;
         webhookType := ans_webhookType basicAnswers;
         authHeader := if JS.truthy (ans_authHeader basicAnswers)
                       then Some (ans_authHeader basicAnswers) else None;
         txnStatus := Some (ans_txnStatus basicAnswers);
         transactionTypes := ans_transactionTypes basicAnswers;
         accountAddresses := accountAddresses;
         encoding := None;
         encoding_config := None |}.

(** Lines 583-584: [if (options.collection) { ... }]. *)
Definition collectionStage (fuel : nat) (w : World) (u : User)
    (options : CreateOptions) (accountAddresses : list string) : IO (list string) :=
  match opt_collection options with
  | Some collection =>
      if JS.truthy collection
      then processCollectionOption fuel w u collection accountAddresses
      else ret accountAddresses
  | None => ret accountAddresses
  end.

(** Lines 577-745 of the [create] action: everything up to the value of
    [webhookData]. *)
Definition gatherWebhookData (fuel : nat) (w : World) (u : User)
    (options : CreateOptions) : IO WebhookData :=
  ensureConfig w u ;;
  let accountAddresses : list string := [] in
  accountAddresses <- collectionStage fuel w u options accountAddresses ;;
  if opt_interactive options
  then promptForWebhookData fuel w u accountAddresses
  else commandLineWebhookData options accountAddresses.

(** The [create] action, lines 575-760. *)
Definition createAction (fuel : nat) (w : World) (u : User)
    (options : CreateOptions) : IO unit :=
  tryCatch
    (webhookData <- gatherWebhookData fuel w u options ;;
     emit (SpinnerStart "Creating webhook...") ;;
     webhook <- createWebhook w webhookData ;;
     emit (SpinnerSucceed "Webhook created successfully") ;;
     emit (ConsoleLog (formatWebhook webhook)))
    (fun message =>
       emit (ConsoleError ("Error creating webhook: " +++ message)) ;;
       exit 1).

(** The [delete] action, lines 767-805. *)
Definition deleteAction (w : World) (u : User) (webhookID : string)
    (force : bool) : IO unit :=
  tryCatch
    (ensureConfig w u ;;
     confirmed <-
       (if negb force then
          promptConfirm "confirm"
            ("Are you sure you want to delete webhook " +++ webhookID +++ "?")
            (delete_confirm u)
        else ret true) ;;
     if negb confirmed then emit (ConsoleLog "Deletion cancelled")
     else
       emit (SpinnerStart ("Deleting webhook " +++ webhookID +++ "...")) ;;
       success <- deleteWebhook w webhookID ;;
       if success then
         emit (SpinnerSucceed ("Successfully deleted webhook " +++ webhookID))
       else
         emit (SpinnerFail ("Failed to delete webhook " +++ webhookID)))
    (fun message =>
       emit (ConsoleError ("Error deleting webhook: " +++ message)) ;;
       exit 1).

(** ** Observations on traces *)

(** The drafts submitted by [createWebhook] calls, in order. *)
Fixpoint submittedDrafts (t : list event) : list WebhookData :=
  match t with
  | [] => []
  | HttpRequest _ _ (WebhookBody d) :: rest => d :: submittedDrafts rest
  | _ :: rest => submittedDrafts rest
  end.

(** The pages asked of the collection lookup, in order. *)
Fixpoint requestedPages (t : list event) : list nat :=
  match t with
  | [] => []
  | HttpRequest _ _ (AssetsByGroupBody _ page _) :: rest => page :: requestedPages rest
  | _ :: rest => requestedPages rest
  end.

(** The entry a validated prompt accepts: the first one [validate] lets
    through. *)
Definition accepted {I} (validate : I -> option string) (entries : list I) : option I :=
  find (fun entry => match validate entry with None => true | Some _ => false end) entries.

(** A page of the collection lookup that ends the pagination: fewer than
    [pageLimit] items, or no [result] or no [items] at all. *)
Definition shortPage (w : World) (collection : string) (page : nat)
    (its : list Asset) : Prop :=
  (getAssetsByGroupReply w collection page = Response (Some (mkDasResult (Some its)))
   /\ length its < pageLimit)
  \/ (its = [] /\ (getAssetsByGroupReply w collection page = Response None
                   \/ getAssetsByGroupReply w collection page = Response (Some (mkDasResult None)))).

(** A page that returned exactly [pageLimit] items. *)
Definition fullPage (w : World) (collection : string) (page : nat)
    (its : list Asset) : Prop :=
  getAssetsByGroupReply w collection page = Response (Some (mkDasResult (Some its)))
  /\ length its = pageLimit.

(** The request for one page. *)
Definition pageRequest (collection : string) (page : nat) : event :=
  HttpRequest "POST" dasApiUrl (AssetsByGroupBody collection page pageLimit).

(** The three messages for a required option that is missing (lines
    640-668). *)
Definition presenceErrors : list string :=
  [ "Error: Webhook URL is required for non-interactive mode";
    "Error: Webhook type is required for non-interactive mode";
    "Error: Transaction types are required for non-interactive mode" ].

(** Every event of a computation satisfies [P]. *)
Definition traceAll {A} (P : event -> bool) (m : IO A) : Prop :=
  forallb P (trace m) = true.

(** Events that are not a request carrying a webhook, and events that are
    not written with [console.error]. *)
Definition notWebhookRequest (e : event) : bool :=
  match e with HttpRequest _ _ (WebhookBody _) => false | _ => true end.

Definition notConsoleError (e : event) : bool :=
  match e with ConsoleError _ => false | _ => true end.

(** The addresses given with [--addresses], parsed; none when the option
    is absent or empty. *)
Definition explicitAddresses (options : CreateOptions) : list string :=
  match opt_addresses options with
  | Some addresses => if JS.truthy addresses then parseAddresses addresses else []
  | None => []
  end.

(** Membership in the transaction-type enumeration. *)
Definition isTransactionType (token : string) : bool :=
  JS.includes TRANSACTION_TYPES token.

(** The [--status] value is given and is not one of the status options
    (line 729). *)
Definition invalidStatus (options : CreateOptions) : bool :=
  match opt_status options with
  | Some status => JS.truthy status && negb (JS.includes TXN_STATUS_OPTIONS status)
  | None => false
  end.

(** What the [delete] action shows before it calls the service: the
    confirmation, unless [--force] is given (lines 773-787). *)
Definition deleteConfirmation (webhookID : string) (force : bool) : list event :=
  if negb force then
    [PromptAsk "confirm" ("Are you sure you want to delete webhook " +++ webhookID +++ "?")]
  else [].

(** The request of [deleteWebhook]. *)
Definition deleteRequest (w : World) (webhookID : string) : event :=
  HttpRequest "DELETE" (config_baseUrl w +++ "/webhooks/" +++ webhookID) NoBody.


(** ** Sample runs *)

Definition sampleAsset : Asset := mkAsset "nft".

(** A service with two collections: COL has the two assets B and C, BIG
    has 2010 assets, served in pages of at most 1000.  Created webhooks are
    echoed with the id wh-1 and deletions answer [success: false]. *)
Definition sampleWorld : World :=
  {| config_apiKey := "key";
     config_baseUrl := "https://api.helius.xyz/v0";
     createWebhookReply := fun draft => Response (mkWebhook "wh-1" draft);
     deleteWebhookReply := fun _ => Response false;
     getAssetsByGroupReply := fun collection page =>
       if String.eqb collection "COL" then
         match page with
         | 1 => Response (Some (mkDasResult (Some [mkAsset "B"; mkAsset "C"])))
         | _ => Response None
         end
       else if String.eqb collection "BIG" then
         match page with
         | 1 | 2 => Response (Some (mkDasResult (Some (repeat sampleAsset 1000))))
         | 3 => Response (Some (mkDasResult (Some (repeat sampleAsset 10))))
         | _ => Response (Some (mkDasResult (Some [])))
         end
       else ErrorRequest |}.

(** A user who enters a URL, picks [enhanced] and the position of the skip
    entry, checks SWAP, wants the collection COL, confirms every question
    and types the addresses D and E. *)
Definition sampleUser : User :=
  {| in_apiKey := [];
     create_confirm := true;
     in_webhookURL := ["https://example.org/hook"];
     in_webhookType := 2;
     in_authHeader := "";
     in_txnStatus := 3;
     in_transactionTypes := [["SWAP"]];
     in_useCollection := true;
     in_collectionAddress := ["COL"];
     in_confirm := true;
     in_accountAddresses := ["D,E"];
     in_additionalAddresses := [];
     delete_confirm := true |}.

(** [u] with other answers to the two collection confirmations. *)
Definition withConfirm (u : User) (action prompt : bool) : User :=
  {| in_apiKey := in_apiKey u;
     create_confirm := action;
     in_webhookURL := in_webhookURL u;
     in_webhookType := in_webhookType u;
     in_authHeader := in_authHeader u;
     in_txnStatus := in_txnStatus u;
     in_transactionTypes := in_transactionTypes u;
     in_useCollection := in_useCollection u;
     in_collectionAddress := in_collectionAddress u;
     in_confirm := prompt;
     in_accountAddresses := in_accountAddresses u;
     in_additionalAddresses := in_additionalAddresses u;
     delete_confirm := delete_confirm u |}.

(** [u] answering no to "Do you want to track NFTs from a collection?". *)
Definition withoutCollection (u : User) : User :=
  {| in_apiKey := in_apiKey u;
     create_confirm := create_confirm u;
     in_webhookURL := in_webhookURL u;
     in_webhookType := in_webhookType u;
     in_authHeader := in_authHeader u;
     in_txnStatus := in_txnStatus u;
     in_transactionTypes := in_transactionTypes u;
     in_useCollection := false;
     in_collectionAddress := in_collectionAddress u;
     in_confirm := in_confirm u;
     in_accountAddresses := in_accountAddresses u;
     in_additionalAddresses := in_additionalAddresses u;
     delete_confirm := delete_confirm u |}.

(** [u] typing [entries] at the address prompt. *)
Definition withAddresses (u : User) (entries : list string) : User :=
  {| in_apiKey := in_apiKey u;
     create_confirm := create_confirm u;
     in_webhookURL := in_webhookURL u;
     in_webhookType := in_webhookType u;
     in_authHeader := in_authHeader u;
     in_txnStatus := in_txnStatus u;
     in_transactionTypes := in_transactionTypes u;
     in_useCollection := in_useCollection u;
     in_collectionAddress := in_collectionAddress u;
     in_confirm := in_confirm u;
     in_accountAddresses := entries;
     in_additionalAddresses := in_additionalAddresses u;
     delete_confirm := delete_confirm u |}.

(** Command lines. *)
Definition commandLine (url type types addresses collection : option string)
    : CreateOptions :=
  {| opt_url := url; opt_type := type; opt_authHeader := None;
     opt_status := None; opt_types := types; opt_addresses := addresses;
     opt_collection := collection; opt_interactive := false |}.

Definition interactiveLine (collection : option string) : CreateOptions :=
  {| opt_url := None; opt_type := None; opt_authHeader := None;
     opt_status := None; opt_types := None; opt_addresses := None;
     opt_collection := collection; opt_interactive := true |}.

(** ** The read-only commands of commands/webhooks.ts *)

(** [getAllWebhooks], lines 236-238, and [getWebhook], lines 245-247 of the
    API client; the answer of the service is a parameter. *)
Definition getAllWebhooks (w : World) (reply : AxiosResult (list Webhook))
    : IO (list Webhook) :=
  request w "GET" "/webhooks" NoBody reply.

Definition getWebhook (w : World) (webhookID : string)
    (reply : AxiosResult Webhook) : IO Webhook :=
  request w "GET" ("/webhooks/" +++ webhookID) NoBody reply.

(** The heading of an entry of the list (line 512); [index] counts from 0. *)
Definition webhookHeading (index : nat) : string :=
  nl +++ "--- Webhook " +++ JS.ofNat (index + 1) +++ " ---".

(** [webhooks.forEach((webhook, index) => ...)], lines 511-514, from
    [index] on. *)
Fixpoint printWebhooks (index : nat) (webhooks : list Webhook) : IO unit :=
  match webhooks with
  | [] => ret tt
  | webhook :: rest =>
      emit (ConsoleLog (webhookHeading index)) ;;
      emit (ConsoleLog (formatWebhook webhook)) ;;
      printWebhooks (index + 1) rest
  end.

(** The [list] action, lines 495-522. *)
Definition listAction (w : World) (u : User) (reply : AxiosResult (list Webhook))
    : IO unit :=
  tryCatch
    (ensureConfig w u ;;
     emit (SpinnerStart "Fetching webhooks...") ;;
     webhooks <- getAllWebhooks w reply ;;
     emit (SpinnerSucceed ("Found " +++ JS.ofNat (length webhooks) +++ " webhooks")) ;;
     if length webhooks =? 0 then emit (ConsoleLog "No webhooks found.")
     else printWebhooks 0 webhooks)
    (fun message =>
       emit (ConsoleError ("Error fetching webhooks: " +++ message)) ;;
       exit 1).

(** The [get] action, lines 528-546. *)
Definition getAction (w : World) (u : User) (webhookID : string)
    (reply : AxiosResult Webhook) : IO unit :=
  tryCatch
    (ensureConfig w u ;;
     emit (SpinnerStart ("Fetching webhook " +++ webhookID +++ "...")) ;;
     webhook <- getWebhook w webhookID reply ;;
     emit (SpinnerSucceed ("Found webhook " +++ webhookID)) ;;
     emit (ConsoleLog (formatWebhook webhook)))
    (fun message =>
       emit (ConsoleError ("Error fetching webhook: " +++ message)) ;;
       exit 1).

(** ** More observations on traces *)

(** The texts written with [console.log], in order. *)
Fixpoint consoleLogs (t : list event) : list string :=
  match t with
  | [] => []
  | ConsoleLog text :: rest => text :: consoleLogs rest
  | _ :: rest => consoleLogs rest
  end.

(** The HTTP requests, in order. *)
Fixpoint httpRequests (t : list event) : list event :=
  match t with
  | [] => []
  | HttpRequest method url body :: rest => HttpRequest method url body :: httpRequests rest
  | _ :: rest => httpRequests rest
  end.

Definition notPrompt (e : event) : bool :=
  match e with PromptAsk _ _ => false | PromptInvalid _ _ => false | _ => true end.

Definition notHttpRequest (e : event) : bool :=
  match e with HttpRequest _ _ _ => false | _ => true end.

(** A page of the collection lookup whose request fails. *)
Definition failedPage (w : World) (collection : string) (page : nat) : Prop :=
  forall result, getAssetsByGroupReply w collection page <> Response result.

(** The service of [sampleWorld] with the lookup of every collection
    failing at page [bad]. *)
Definition failingWorld (bad : nat) : World :=
  {| config_apiKey := config_apiKey sampleWorld;
     config_baseUrl := config_baseUrl sampleWorld;
     createWebhookReply := createWebhookReply sampleWorld;
     deleteWebhookReply := deleteWebhookReply sampleWorld;
     getAssetsByGroupReply := fun collection page =>
       if page =? bad then ErrorResponse 429 "{}"
       else getAssetsByGroupReply sampleWorld collection page |}.

(** A service that rejects every creation. *)
Definition rejectingWorld : World :=
  {| config_apiKey := config_apiKey sampleWorld;
     config_baseUrl := config_baseUrl sampleWorld;
     createWebhookReply := fun _ => ErrorResponse 400 "{}";
     deleteWebhookReply := deleteWebhookReply sampleWorld;
     getAssetsByGroupReply := getAssetsByGroupReply sampleWorld |}.

(** A first run: no API key is configured yet. *)
Definition freshWorld : World :=
  {| config_apiKey := "";
     config_baseUrl := config_baseUrl sampleWorld;
     createWebhookReply := createWebhookReply sampleWorld;
     deleteWebhookReply := deleteWebhookReply sampleWorld;
     getAssetsByGroupReply := getAssetsByGroupReply sampleWorld |}.

(** [u] typing [entries] when asked for the API key. *)
Definition withApiKey (u : User) (entries : list string) : User :=
  {| in_apiKey := entries;
     create_confirm := create_confirm u;
     in_webhookURL := in_webhookURL u;
     in_webhookType := in_webhookType u;
     in_authHeader := in_authHeader u;
     in_txnStatus := in_txnStatus u;
     in_transactionTypes := in_transactionTypes u;
     in_useCollection := in_useCollection u;
     in_collectionAddress := in_collectionAddress u;
     in_confirm := in_confirm u;
     in_accountAddresses := in_accountAddresses u;
     in_additionalAddresses := in_additionalAddresses u;
     delete_confirm := delete_confirm u |}.

(** [u] answering [answer] to the confirmation of the [delete] action. *)
Definition withDeleteConfirm (u : User) (answer : bool) : User :=
  {| in_apiKey := in_apiKey u;
     create_confirm := create_confirm u;
     in_webhookURL := in_webhookURL u;
     in_webhookType := in_webhookType u;
     in_authHeader := in_authHeader u;
     in_txnStatus := in_txnStatus u;
     in_transactionTypes := in_transactionTypes u;
     in_useCollection := in_useCollection u;
     in_collectionAddress := in_collectionAddress u;
     in_confirm := in_confirm u;
     in_accountAddresses := in_accountAddresses u;
     in_additionalAddresses := in_additionalAddresses u;
     delete_confirm := answer |}.

(** Two webhooks as the service returns them. *)
Definition sampleWebhook (webhookID : string) : Webhook :=
  {| webhookID := webhookID;
     fields := {| webhookURL := "https://example.org/hook";
                  webhookType := "raw";
                  transactionTypes := ["SWAP"];
                  accountAddresses := [];
                  authHeader := None;
                  txnStatus := None;
                  encoding := None;
                  encoding_config := None |} |}.

(** The texts written with [console.error], in order. *)
Fixpoint consoleErrors (t : list event) : list string :=
  match t with
  | [] => []
  | ConsoleError text :: rest => text :: consoleErrors rest
  | _ :: rest => consoleErrors rest
  end.

(** A computation that either returns without a word on [console.error],
    or writes one error there and exits with status 1; it neither throws
    nor waits. *)
Definition oneVerdict {A} (m : IO A) : Prop :=
  match result m with
  | Return _ => consoleErrors (trace m) = []
  | Exit code => code = 1 /\ length (consoleErrors (trace m)) = 1
  | Throw _ => False
  | Pending => False
  end.

(** The two lines of the address check of the command-line mode (lines
    689-699). *)
Definition addressesRequired : list event :=
  [ ConsoleError "Error: Account addresses are required for non-interactive mode";
    ConsoleLog "Use --addresses option, --collection option, or --interactive mode" ].

(** The confirmation asked before the addresses of a collection are added
    (lines 605-612 and 914-921). *)
Definition collectionConfirmation (nftAddresses : list string) : event :=
  PromptAsk "confirm"
    ("Do you want to add " +++ JS.ofNat (length nftAddresses) +++
     " NFT addresses from this collection to your webhook?").

Definition notConfigSaved (e : event) : bool :=
  match e with ConfigSaved _ => false | _ => true end.

(** Events that are not the question of a prompt, unless it is the prompt
    named [name]. *)
Definition asksOnlyFor (name : string) (e : event) : bool :=
  match e with PromptAsk n _ => String.eqb n name | _ => true end.

(** The lines the [list] action prints for the webhooks, numbered from
    [index] on. *)
Definition webhookLines (index : nat) (webhooks : list Webhook) : list string :=
  flat_map (fun entry => [webhookHeading (fst entry); formatWebhook (snd entry)])
    (combine (seq index (length webhooks)) webhooks).

(** ** config.ts with its state

    The module keeps the configuration in the variable [currentConfig] and
    in the file [~/.helius-cli/config.json].  A file that parses is taken
    to hold an object whose [apiKey] and [baseUrl], when present, are
    strings, which is what [saveConfig] writes. *)
Module Config.

Record ConfigType : Type := mkConfigType { apiKey : string; baseUrl : string }.

(** The two environment variables read at line 19 and 20. *)
Record Environment : Type := mkEnvironment
  { HELIUS_API_KEY : option string; HELIUS_BASE_URL : option string }.

(** [value || fallback] *)
Definition orElse (value : option string) (fallback : string) : string :=
  match value with
  | Some v => if JS.truthy v then v else fallback
  | None => fallback
  end.

(** [defaultConfig], lines 18-21. *)
Definition defaultConfig (env : Environment) : ConfigType :=
  {| apiKey := orElse (HELIUS_API_KEY env) "";
     baseUrl := orElse (HELIUS_BASE_URL env) "https://api.helius.xyz/v0" |}.

(** What is found at [CONFIG_PATH]: nothing, something that cannot be read
    or parsed (with the text of the error), or an object. *)
Inductive ConfigFile : Type :=
| Missing
| Unparsable (error : string)
| Parsed (storedApiKey storedBaseUrl : option string).

(** [{ ...base, ...parsed }] *)
Definition spread (base : ConfigType) (storedApiKey storedBaseUrl : option string)
    : ConfigType :=
  {| apiKey := match storedApiKey with Some v => v | None => apiKey base end;
     baseUrl := match storedBaseUrl with Some v => v | None => baseUrl base end |}.

(** [loadConfig], lines 33-43. *)
Definition loadConfig (defaults : ConfigType) (file : ConfigFile) : IO ConfigType :=
  match file with
  | Parsed storedApiKey storedBaseUrl => ret (spread defaults storedApiKey storedBaseUrl)
  | Unparsable error =>
      emit (ConsoleError ("Error loading config: " +++ error)) ;;
      ret defaults
  | Missing => ret defaults
  end.

(** The state of the module: the constant [defaultConfig], the variable
    [currentConfig], the file, and whether writing the file fails (with the
    text of the error). *)
Record State : Type := mkState
  { defaults : ConfigType;
    currentConfig : ConfigType;
    file : ConfigFile;
    writeError : option string }.

(** The module when it has been loaded (lines 18-21 and 56). *)
Definition start (env : Environment) (file : ConfigFile) (writeError : option string)
    : IO State :=
  current <- loadConfig (defaultConfig env) file ;;
  ret {| defaults := defaultConfig env;
         currentConfig := current;
         file := file;
         writeError := writeError |}.

Definition withFile (st : State) (f : ConfigFile) : State :=
  {| defaults := defaults st; currentConfig := currentConfig st;
     file := f; writeError := writeError st |}.

Definition withCurrent (st : State) (config : ConfigType) : State :=
  {| defaults := defaults st; currentConfig := config;
     file := file st; writeError := writeError st |}.

(** [saveConfig], lines 46-52; [ConfigSaved] records that the file has
    been written. *)
Definition saveConfig (config : ConfigType) (st : State) : IO State :=
  match writeError st with
  | None =>
      emit (ConfigSaved (apiKey config)) ;;
      ret (withFile st (Parsed (Some (apiKey config)) (Some (baseUrl config))))
  | Some error =>
      emit (ConsoleError ("Error saving config: " +++ error)) ;;
      ret st
  end.

(** [ensureConfig], lines 61-103. *)
Definition ensureConfig (entries : list string) (st : State) : IO (bool * State) :=
  let missingValues :=
    if negb (JS.truthy (apiKey (currentConfig st))) then ["apiKey"] else [] in
  if length missingValues =? 0 then ret (true, st)
  else
    emit (ConsoleLog "Some configuration values are missing. Let's set them up:") ;;
    answer <- promptValidated "apiKey" "Enter your Helius API key:"
                (notBlank "API key cannot be empty") (fun s => s) entries ;;
    let st := withCurrent st {| apiKey := answer;
                                baseUrl := baseUrl (currentConfig st) |} in
    st <- saveConfig (currentConfig st) st ;;
    emit (ConsoleLog "Configuration updated successfully!") ;;
    ret (true, st).

(** [getConfig], lines 109-111. *)
Definition getConfig (st : State) : ConfigType := currentConfig st.

(** [keyof ConfigType] *)
Inductive ConfigKey : Type := KeyApiKey | KeyBaseUrl.

Definition get (key : ConfigKey) (config : ConfigType) : string :=
  match key with KeyApiKey => apiKey config | KeyBaseUrl => baseUrl config end.

Definition set (key : ConfigKey) (value : string) (config : ConfigType) : ConfigType :=
  match key with
  | KeyApiKey => {| apiKey := value; baseUrl := baseUrl config |}
  | KeyBaseUrl => {| apiKey := apiKey config; baseUrl := value |}
  end.

(** [setConfig], lines 118-121. *)
Definition setConfig (key : ConfigKey) (value : string) (st : State) : IO State :=
  let st := withCurrent st (set key value (currentConfig st)) in
  saveConfig (currentConfig st) st.

(** [resetConfig], lines 126-129. *)
Definition resetConfig (st : State) : IO State :=
  let st := withCurrent st (defaults st) in
  saveConfig (currentConfig st) st.

(** The name of a key on the command line; [None] when
    [["apiKey", "baseUrl"].includes(key)] is false. *)
Definition keyOfName (key : string) : option ConfigKey :=
  if String.eqb key "apiKey" then Some KeyApiKey
  else if String.eqb key "baseUrl" then Some KeyBaseUrl
  else None.

(** What [config set] shows of the new value: the first five characters of
    an API key, the whole of a base URL.  Characters are those of the string
    model, so [value.substring(0, 5)] is what is computed for an ASCII
    value. *)
Definition shownValue (key : string) (value : string) : string :=
  if String.eqb key "apiKey" then String.substring 0 5 value +++ "..." else value.

(** The [config set <key> <value>] command. *)
Definition setCommand (key value : string) (st : State) : IO State :=
  match keyOfName key with
  | None =>
      emit (ConsoleError "Invalid configuration key. Valid keys are: apiKey, baseUrl") ;;
      exit 1
  | Some k =>
      st <- setConfig k value st ;;
      emit (ConsoleLog ("Configuration updated: " +++ key +++ " = " +++
                        shownValue key value)) ;;
      ret st
  end.

(** The [config reset] command. *)
Definition resetCommand (confirm : bool) (st : State) : IO State :=
  confirm <- promptConfirm "confirm"
               "Are you sure you want to reset all configuration to defaults?"
               confirm ;;
  if confirm then
    st <- resetConfig st ;;
    emit (ConsoleLog "Configuration reset to defaults") ;;
    ret st
  else
    emit (ConsoleLog "Reset cancelled") ;;
    ret st.

End Config.

(** ** The API client and its configuration *)
Module Api.

(** The fields of [HeliusApiClient]. *)
Record HeliusApiClient : Type := mkClient { baseUrl : string; apiKey : string }.

(** The constructor, lines 169-173, and [refreshConfig], lines 178-182: both
    copy the current configuration. *)
Definition construct (st : Config.State) : HeliusApiClient :=
  {| baseUrl := Config.baseUrl (Config.getConfig st);
     apiKey := Config.apiKey (Config.getConfig st) |}.

Definition refreshConfig (st : Config.State) (client : HeliusApiClient)
    : HeliusApiClient :=
  {| baseUrl := Config.baseUrl (Config.getConfig st);
     apiKey := Config.apiKey (Config.getConfig st) |}.

(** The [AxiosRequestConfig] that [request] builds (lines 196-211): the key
    goes into the [api-key] parameter, the body is set for POST and PUT. *)
Record AxiosRequestConfig : Type := mkRequestConfig
  { method : string; url : string; contentType : string;
    apiKeyParam : string; data : Body }.

Definition requestConfig (client : HeliusApiClient) (method endpoint : string)
    (data : Body) : AxiosRequestConfig :=
  {| method := method;
     url := baseUrl client +++ endpoint;
     contentType := "application/json";
     apiKeyParam := apiKey client;
     data := if String.eqb method "POST" || String.eqb method "PUT"
             then data else NoBody |}.

End Api.

(** The world a command of commands/webhooks.ts sees for a state of the
    configuration, and what the user types for the API key. *)
Definition worldOf (st : Config.State) (w : World) : World :=
  {| config_apiKey := Config.apiKey (Config.currentConfig st);
     config_baseUrl := config_baseUrl w;
     createWebhookReply := createWebhookReply w;
     deleteWebhookReply := deleteWebhookReply w;
     getAssetsByGroupReply := getAssetsByGroupReply w |}.

(** Sample states: nothing configured, and a key in the file. *)
Definition noEnvironment : Config.Environment :=
  {| Config.HELIUS_API_KEY := None; Config.HELIUS_BASE_URL := None |}.

Definition freshState : Config.State :=
  {| Config.defaults := Config.defaultConfig noEnvironment;
     Config.currentConfig := Config.defaultConfig noEnvironment;
     Config.file := Config.Missing;
     Config.writeError := None |}.

Definition readOnlyState : Config.State :=
  {| Config.defaults := Config.defaultConfig noEnvironment;
     Config.currentConfig := Config.defaultConfig noEnvironment;
     Config.file := Config.Missing;
     Config.writeError := Some "EACCES" |}.

(** A string that does not begin with white space. *)
Definition startsClean (s : string) : Prop :=
  match s with
  | EmptyString => True
  | String c _ => JS.isWhiteSpace c = false
  end.

(** ** The platform under the commands

    Two things are decided outside the sources: the order in which the
    prompt library applies [validate] and [filter], and what
    [t.trim().toUpperCase()] returns beyond the ASCII range.

    The prompts above apply [validate] to the text as typed and [filter] to
    the accepted entry, which is what inquirer does from version 10 on.  Up
    to version 9 inquirer passes every entry through [filter] first and
    hands the filtered value to [validate]; the entry is accepted when
    [validate] returns [true] on that value and refused otherwise, also when
    [validate] throws.  The sources name no version.  The two orders differ
    only where a question has both functions: the address prompt of lines
    956-972 and the one of lines 993-1004. *)
Inductive PromptOrder : Type :=
| ValidateTyped
| FilterFirst.

Definition promptValidatedIn {I A} (order : PromptOrder) (name message : string)
    (validate : I -> option string) (validateFiltered : A -> option string)
    (filter : I -> A) (entries : list I) : IO A :=
  match order with
  | ValidateTyped => promptValidated name message validate filter entries
  | FilterFirst =>
      promptValidated name message (fun entry => validateFiltered (filter entry))
        filter entries
  end.

(** [input.trim()] where [input] is an array: arrays have no [trim], the
    call throws. *)
Definition typeError : string := "TypeError: input.trim is not a function".

(** The [validate] of lines 961-968 on the array that [filter] returns:
    [true] when no address is required, otherwise [input.trim()] throws. *)
Definition validateFilteredAddresses (addressRequired : bool)
    (input : list string) : option string :=
  if negb addressRequired then None else Some typeError.

(** The [validate] of lines 998-1001 on the array that [filter] returns. *)
Definition validateFilteredAdditional (input : list string) : option string :=
  Some typeError.

(** Lines 944-988 under either order. *)
Definition askAddressesIn (order : PromptOrder) (u : User)
    (prefilledAddresses : list string) (collectionAddressesAdded : bool)
    (accountAddresses : list string) : IO (list string) :=
  let addressPromptMessage :=
    if 0 <? length prefilledAddresses then
      "Enter additional account addresses to monitor (comma-separated, optional):"
    else if collectionAddressesAdded then
      "Enter additional account addresses to monitor (comma-separated, optional):"
    else "Enter account addresses to monitor (comma-separated):" in
  entered <- promptValidatedIn order "accountAddresses" addressPromptMessage
               (validateAddresses
                  (addressRequired prefilledAddresses collectionAddressesAdded))
               (validateFilteredAddresses
                  (addressRequired prefilledAddresses collectionAddressesAdded))
               filterAddresses (in_accountAddresses u) ;;
  if 0 <? length entered then
    emit (ConsoleLog ("Added " +++ JS.ofNat (length entered) +++
                      " additional addresses from input.")) ;;
    ret (accountAddresses ++ entered)
  else ret accountAddresses.

(** Lines 990-1007 under either order. *)
Definition requireAddressesIn (order : PromptOrder) (u : User)
    (accountAddresses : list string) : IO (list string) :=
  if length accountAddresses =? 0 then
    emit (ConsoleLog "Error: At least one account address is required.") ;;
    additionalAddresses <- promptValidatedIn order "additionalAddresses"
                             "Enter account addresses to monitor (comma-separated):"
                             (notBlank "At least one account address is required")
                             validateFilteredAdditional
                             (fun input => map JS.trim (JS.split input))
                             (in_additionalAddresses u) ;;
    ret additionalAddresses
  else ret accountAddresses.

(** [promptForWebhookData], lines 813-1023, under either order. *)
Definition promptForWebhookDataIn (order : PromptOrder) (fuel : nat) (w : World)
    (u : User) (prefilledAddresses : list string) : IO WebhookData :=
  emit (ConsoleLog (nl +++ "Create a new webhook:")) ;;
  basicAnswers <- askBasicQuestions u ;;
  collection <- askCollection u prefilledAddresses ;;
  let useCollection := fst collection in
  let collectionAddress := snd collection in
  let accountAddresses := prefilledAddresses in
  added <- addCollectionAddresses fuel w u useCollection collectionAddress
             accountAddresses ;;
  let accountAddresses := fst added in
  let collectionAddressesAdded := snd added in
  accountAddresses <- askAddressesIn order u prefilledAddresses
                        collectionAddressesAdded accountAddresses ;;
  accountAddresses <- requireAddressesIn order u accountAddresses ;;
  let txnStatus : option (list string) :=
    if String.eqb (ans_txnStatus basicAnswers) SKIP_STATUS then None
    else Some [ans_txnStatus basicAnswers] in
  ret {| webhookURL := ans_webhookURL basicAnswers;
         webhookType := ans_webhookType basicAnswers;
         authHeader := if JS.truthy (ans_authHeader basicAnswers)
                       then Some (ans_authHeader basicAnswers) else None;
         txnStatus := Some (ans_txnStatus basicAnswers);
         transactionTypes := ans_transactionTypes basicAnswers;
         accountAddresses := accountAddresses;
         encoding := None;
         encoding_config := None |}.

(** [options.types.split(",").map(t => t.trim().toUpperCase())], where
    [trimUpper t] is the value of [t.trim().toUpperCase()]. *)
Definition parseTransactionTypesWith (trimUpper : string -> string)
    (types : string) : list string :=
  map trimUpper (JS.split types).

(** Lines 639-745 for any value of [t.trim().toUpperCase()]. *)
Definition commandLineWebhookDataWith (trimUpper : string -> string)
    (options : CreateOptions) (accountAddresses : list string) : IO WebhookData :=
  url <- required (opt_url options)
           "Error: Webhook URL is required for non-interactive mode"
           "Use --url option or --interactive mode" ;;
  type <- required (opt_type options)
            "Error: Webhook type is required for non-interactive mode"
            "Use --type option or --interactive mode" ;;
  types <- required (opt_types options)
             "Error: Transaction types are required for non-interactive mode"
             "Use --types option or --interactive mode" ;;
  let transactionTypes := parseTransactionTypesWith trimUpper types in
  validateTransactionTypes transactionTypes ;;
  accountAddresses <- commandLineAddresses options accountAddresses ;;
  (if negb (JS.includes WEBHOOK_TYPES type) then
     emit (ConsoleError ("Error: Invalid webhook type: " +++ type)) ;;
     emit (ConsoleLog ("Valid types are: " +++ JS.join ", " WEBHOOK_TYPES)) ;;
     exit 1
   else ret tt) ;;
  (match opt_status options with
   | Some status =>
       if JS.truthy status && negb (JS.includes TXN_STATUS_OPTIONS status) then
         emit (ConsoleError ("Error: Invalid transaction status: " +++ status)) ;;
         emit (ConsoleLog ("Valid options are: " +++ JS.join ", " TXN_STATUS_OPTIONS)) ;;
         exit 1
       else ret tt
   | None => ret tt
   end) ;;
  ret {| webhookURL := url;
         webhookType := type;
         transactionTypes := transactionTypes;
         accountAddresses := accountAddresses;
         authHeader := opt_authHeader options;
         txnStatus := if JS.truthy_opt (opt_status options)
                      then opt_status options else None;
         encoding := None;
         encoding_config := None |}.

Record Platform : Type := mkPlatform
  { promptOrder : PromptOrder;
    trimUpper : string -> string }.

(** The platform of the definitions above: the typed text is validated,
    strings are ASCII. *)
Definition asciiPlatform : Platform :=
  {| promptOrder := ValidateTyped;
     trimUpper := fun t => JS.toUpperCase (JS.trim t) |}.


(** Lines 577-745 of the [create] action on a platform. *)
Definition gatherWebhookDataOn (p : Platform) (fuel : nat) (w : World) (u : User)
    (options : CreateOptions) : IO WebhookData :=
  ensureConfig w u ;;
  let accountAddresses : list string := [] in
  accountAddresses <- collectionStage fuel w u options accountAddresses ;;
  if opt_interactive options
  then promptForWebhookDataIn (promptOrder p) fuel w u accountAddresses
  else commandLineWebhookDataWith (trimUpper p) options accountAddresses.

(** The [create] action, lines 575-760, on a platform. *)
Definition createActionOn (p : Platform) (fuel : nat) (w : World) (u : User)
    (options : CreateOptions) : IO unit :=
  tryCatch
    (webhookData <- gatherWebhookDataOn p fuel w u options ;;
     emit (SpinnerStart "Creating webhook...") ;;
     webhook <- createWebhook w webhookData ;;
     emit (SpinnerSucceed "Webhook created successfully") ;;
     emit (ConsoleLog (formatWebhook webhook)))
    (fun message =>
       emit (ConsoleError ("Error creating webhook: " +++ message)) ;;
       exit 1).

(** A string without a comma. *)
Definition commaFree (s : string) : bool :=
  JS.allChars (fun c => negb (Ascii.eqb c JS.comma)) s.

(** A value of the transaction-type enumeration. *)
Definition TransactionType (token : string) : Prop := In token TRANSACTION_TYPES.

(** The addresses a collection contributes once it has been resolved:
    those found when the user confirms, none when the user declines, none
    when the lookup fails. *)
Definition contributed (lookup : outcome (list string)) (confirmed : bool)
    (collectionAddresses : list string) : Prop :=
  match lookup with
  | Return nftAddresses =>
      collectionAddresses = if confirmed then nftAddresses else []
  | Throw _ => collectionAddresses = []
  | Exit _ | Pending => False
  end.

(** The sample user, tracking no collection, typing one entry at the
    address prompt. *)
Definition typing (entry : string) : User :=
  withoutCollection (withAddresses sampleUser [entry]).

(** How a sequence of two computations ends. *)
Definition andThen {A B} (first : outcome A) (next : A -> outcome B) : outcome B :=
  match first with
  | Return a => next a
  | Throw e => Throw e
  | Exit c => Exit c
  | Pending => Pending
  end.

(** * Properties *)

(** ** The monad *)

Section Monad.
Context {A B : Type}.

Lemma result_bind (m : IO A) (k : A -> IO B) :
  result (bind m k) =
  match result m with
  | Return a => result (k a)
  | Throw e => Throw e
  | Exit c => Exit c
  | Pending => Pending
  end.
Proof. destruct m as [t [a|e|c|]]; reflexivity. Qed.

Lemma trace_bind (m : IO A) (k : A -> IO B) :
  trace (bind m k) =
  trace m ++ match result m with Return a => trace (k a) | _ => [] end.
Proof.
  destruct m as [t [a|e|c|]]; cbn; rewrite ?app_nil_r; reflexivity.
Qed.

Lemma bind_Return (t : list event) (a : A) (k : A -> IO B) :
  bind (t, Return a) k = (t ++ trace (k a), result (k a)).
Proof. reflexivity. Qed.

Lemma result_bind_Return (m : IO A) (k : A -> IO B) (b : B) :
  result (bind m k) = Return b ->
  exists a, result m = Return a /\ result (k a) = Return b.
Proof.
  rewrite result_bind. destruct (result m) as [a|e|c|]; try discriminate.
  intros H. exists a. split; [reflexivity | exact H].
Qed.

End Monad.

Lemma result_tryCatch {A} (m : IO A) (h : string -> IO A) :
  result (tryCatch m h) =
  match result m with Throw e => result (h e) | o => o end.
Proof. destruct m as [t [a|e|c|]]; reflexivity. Qed.

Lemma trace_tryCatch {A} (m : IO A) (h : string -> IO A) :
  trace (tryCatch m h) =
  trace m ++ match result m with Throw e => trace (h e) | _ => [] end.
Proof. destruct m as [t [a|e|c|]]; cbn; rewrite ?app_nil_r; reflexivity. Qed.

Lemma io_eta {A} (m : IO A) : m = (trace m, result m).
Proof. destruct m; reflexivity. Qed.

Lemma submittedDrafts_app (t1 t2 : list event) :
  submittedDrafts (t1 ++ t2) = submittedDrafts t1 ++ submittedDrafts t2.
Proof.
  induction t1 as [|e t1 IH]; [reflexivity|].
  destruct e as [| | | | | | | |m u b]; cbn; try exact IH.
  destruct b; cbn; rewrite ?IH; reflexivity.
Qed.

Lemma requestedPages_app (t1 t2 : list event) :
  requestedPages (t1 ++ t2) = requestedPages t1 ++ requestedPages t2.
Proof.
  induction t1 as [|e t1 IH]; [reflexivity|].
  destruct e as [| | | | | | | |m u b]; cbn; try exact IH.
  destruct b; cbn; rewrite ?IH; reflexivity.
Qed.

(** ** Prompts *)

Lemma result_submitUntilValid {I} name (validate : I -> option string) entries :
  result (submitUntilValid name validate entries) =
  match accepted validate entries with
  | Some entry => Return entry
  | None => Pending
  end.
Proof.
  induction entries as [|e es IH]; [reflexivity|].
  cbn [submitUntilValid accepted find].
  destruct (validate e) as [msg|]; [|reflexivity].
  rewrite result_bind. cbn. exact IH.
Qed.

Lemma result_promptValidated {I A} name message (validate : I -> option string)
    (filter : I -> A) entries :
  result (promptValidated name message validate filter entries) =
  match accepted validate entries with
  | Some entry => Return (filter entry)
  | None => Pending
  end.
Proof.
  unfold promptValidated. rewrite !result_bind. cbn.
  rewrite result_submitUntilValid.
  destruct (accepted validate entries); reflexivity.
Qed.

Lemma accepted_In {I} (validate : I -> option string) entries entry :
  accepted validate entries = Some entry ->
  In entry entries /\ validate entry = None.
Proof.
  unfold accepted. intros H. apply find_some in H. destruct H as [Hin Hv].
  split; [exact Hin|]. destruct (validate entry); [discriminate|reflexivity].
Qed.

(** ** Pagination of the collection lookup *)

Lemma pageLimit_pos : 0 < pageLimit.
Proof. unfold pageLimit. lia. Qed.

Lemma requestedPages_pageRequests collection pages :
  requestedPages (map (pageRequest collection) pages) = pages.
Proof.
  induction pages as [|p ps IH]; [reflexivity|].
  cbn. rewrite IH. reflexivity.
Qed.

Lemma bind_emit {B} (e : event) (k : unit -> IO B) :
  bind (emit e) k = (e :: trace (k tt), result (k tt)).
Proof. reflexivity. Qed.

(** One iteration of the loop. *)
Lemma fetchPages_S fuel w collection page nftAddresses :
  fetchPages (S fuel) w collection page nftAddresses =
  (emit (pageRequest collection page) ;;
   match getAssetsByGroupReply w collection page with
   | Response result =>
       match result with
       | Some {| items := Some its |} =>
           if length its =? 0 then ret nftAddresses
           else
             if length its <? pageLimit then ret (nftAddresses ++ map id its)
             else fetchPages fuel w collection (page + 1) (nftAddresses ++ map id its)
       | _ => ret nftAddresses
       end
   | failure => throw (errorMessage "Error fetching NFT addresses: " failure)
   end).
Proof. reflexivity. Qed.

(** One iteration on a short page: the loop ends with what was gathered. *)
Lemma fetchPages_short fuel w collection page acc its :
  shortPage w collection page its ->
  fetchPages (S fuel) w collection page acc =
  ([pageRequest collection page], Return (acc ++ map id its)).
Proof.
  intros [[Hreply Hlen] | [Hnil [Hreply | Hreply]]];
    rewrite fetchPages_S, bind_emit, Hreply.
  - destruct (Nat.eqb_spec (length its) 0) as [H0|H0].
    + apply length_zero_iff_nil in H0. subst its.
      cbn [map]. rewrite app_nil_r. reflexivity.
    + apply Nat.ltb_lt in Hlen. rewrite Hlen. reflexivity.
  - subst its. cbn [map]. rewrite app_nil_r. reflexivity.
  - subst its. cbn [map]. rewrite app_nil_r. reflexivity.
Qed.

(** One iteration on a full page: the items are gathered and the next page
    is asked for. *)
Lemma fetchPages_full fuel w collection page acc its :
  fullPage w collection page its ->
  fetchPages (S fuel) w collection page acc =
  (pageRequest collection page
     :: trace (fetchPages fuel w collection (page + 1) (acc ++ map id its)),
   result (fetchPages fuel w collection (page + 1) (acc ++ map id its))).
Proof.
  intros [Hreply Hlen]. rewrite fetchPages_S, bind_emit, Hreply.
  pose proof pageLimit_pos as Hpos.
  destruct (Nat.eqb_spec (length its) 0) as [H0|H0]; [lia|].
  destruct (Nat.ltb_spec (length its) pageLimit) as [Hlt|Hge]; [lia|].
  reflexivity.
Qed.

(** Full pages followed by a short one: exactly these pages are requested,
    in order, and every item gives one address, in page order. *)
Lemma fetchPages_pages (full : list (list Asset)) :
  forall fuel w collection page acc last,
    (forall k its, nth_error full k = Some its ->
                   fullPage w collection (page + k) its) ->
    shortPage w collection (page + length full) last ->
    length full < fuel ->
    fetchPages fuel w collection page acc =
    (map (pageRequest collection) (seq page (S (length full))),
     Return (acc ++ map id (concat full ++ last))).
Proof.
  induction full as [|its full IH]; intros fuel w collection page acc last Hfull Hlast Hfuel.
  - destruct fuel as [|fuel]; [cbn in Hfuel; lia|].
    cbn [length] in Hlast. rewrite Nat.add_0_r in Hlast.
    rewrite (fetchPages_short _ _ _ _ _ _ Hlast). reflexivity.
  - destruct fuel as [|fuel]; [cbn in Hfuel; lia|].
    assert (Hfirst : fullPage w collection page its).
    { specialize (Hfull 0 its eq_refl). rewrite Nat.add_0_r in Hfull. exact Hfull. }
    rewrite (fetchPages_full _ _ _ _ _ _ Hfirst).
    rewrite (IH fuel w collection (page + 1) (acc ++ map id its) last).
    + cbn [trace result fst snd length seq map concat].
      rewrite Nat.add_1_r. f_equal. f_equal.
      rewrite !map_app, <- !app_assoc. reflexivity.
    + intros k its' Hk. specialize (Hfull (S k) its' Hk).
      replace (page + 1 + k) with (page + S k) by lia. exact Hfull.
    + cbn [length] in Hlast.
      replace (page + 1 + length full) with (page + S (length full)) by lia.
      exact Hlast.
    + cbn [length] in Hfuel. lia.
Qed.

(** C3: the lookup starts at page 1 with limit 1000; as long as the pages
    return exactly 1000 items the next page is requested, and the first page
    with fewer than 1000 items, or with an empty or missing result, is the
    last one requested; the addresses are the ids of the items, one per
    item, in page order.  In particular pages of 1000, 1000 and 10 items
    give exactly the requests for pages 1, 2, 3 and 2010 addresses, and a
    first page without items gives exactly one request. *)
Theorem C3_pagination :
  (forall fuel w collection (full : list (list Asset)) (last : list Asset),
      (forall k its, nth_error full k = Some its ->
                     fullPage w collection (1 + k) its) ->
      shortPage w collection (1 + length full) last ->
      length full < fuel ->
      trace (getNftAddressesFromCollection fuel w collection) =
        map (pageRequest collection) (seq 1 (S (length full)))
      /\ requestedPages (trace (getNftAddressesFromCollection fuel w collection)) =
           seq 1 (S (length full))
      /\ result (getNftAddressesFromCollection fuel w collection) =
           Return (map id (concat full ++ last))
      /\ length (map id (concat full ++ last)) =
           pageLimit * length full + length last)
  /\ (forall fuel w collection p1 p2 p3,
         getAssetsByGroupReply w collection 1 = Response (Some (mkDasResult (Some p1))) ->
         getAssetsByGroupReply w collection 2 = Response (Some (mkDasResult (Some p2))) ->
         getAssetsByGroupReply w collection 3 = Response (Some (mkDasResult (Some p3))) ->
         length p1 = 1000 -> length p2 = 1000 -> length p3 = 10 ->
         3 <= fuel ->
         requestedPages (trace (getNftAddressesFromCollection fuel w collection)) = [1; 2; 3]
         /\ exists addresses,
              result (getNftAddressesFromCollection fuel w collection) = Return addresses
              /\ addresses = map id p1 ++ map id p2 ++ map id p3
              /\ length addresses = 2010)
  /\ (forall fuel w collection,
         getAssetsByGroupReply w collection 1 = Response (Some (mkDasResult (Some []))) ->
         1 <= fuel ->
         trace (getNftAddressesFromCollection fuel w collection) = [pageRequest collection 1]
         /\ result (getNftAddressesFromCollection fuel w collection) = Return []).
Proof.
  assert (General :
    forall fuel w collection (full : list (list Asset)) (last : list Asset),
      (forall k its, nth_error full k = Some its ->
                     fullPage w collection (1 + k) its) ->
      shortPage w collection (1 + length full) last ->
      length full < fuel ->
      getNftAddressesFromCollection fuel w collection =
        (map (pageRequest collection) (seq 1 (S (length full))),
         Return (map id (concat full ++ last)))).
  { intros fuel w collection full last Hfull Hlast Hfuel.
    unfold getNftAddressesFromCollection.
    rewrite (fetchPages_pages full fuel w collection 1 [] last Hfull Hlast Hfuel).
    reflexivity. }
  split; [|split].
  - intros fuel w collection full last Hfull Hlast Hfuel.
    rewrite (General fuel w collection full last Hfull Hlast Hfuel).
    cbn [trace result fst snd].
    rewrite requestedPages_pageRequests.
    repeat split.
    rewrite length_map, length_app.
    assert (Hc : length (concat full) = pageLimit * length full).
    { clear - Hfull. revert Hfull. generalize 1 as page.
      induction full as [|its full IH]; intros page Hfull; [cbn; lia|].
      cbn [concat length]. rewrite length_app.
      rewrite (IH (S page)).
      - destruct (Hfull 0 its eq_refl) as [_ Hlen]. rewrite Hlen. lia.
      - intros k its' Hk. specialize (Hfull (S k) its' Hk).
        replace (S page + k) with (page + S k) by lia. exact Hfull. }
    rewrite Hc. reflexivity.
  - intros fuel w collection p1 p2 p3 H1 H2 H3 L1 L2 L3 Hfuel.
    rewrite (General fuel w collection [p1; p2] p3).
    + cbn [trace result fst snd length seq map concat].
      split; [reflexivity|].
      eexists. split; [reflexivity|]. split.
      * rewrite app_nil_r, <- app_assoc, !map_app. reflexivity.
      * rewrite length_map, !length_app, L1, L2, L3. cbn [length]. lia.
    + intros k its Hk. destruct k as [|[|k]]; cbn in Hk.
      * injection Hk as <-. split; [exact H1 | exact L1].
      * injection Hk as <-. split; [exact H2 | exact L2].
      * destruct k; discriminate.
    + left. split; [exact H3|]. rewrite L3. unfold pageLimit. lia.
    + cbn [length]. lia.
  - intros fuel w collection H1 Hfuel.
    rewrite (General fuel w collection [] []).
    + split; reflexivity.
    + intros k its Hk. destruct k; discriminate.
    + left. split; [exact H1|]. apply pageLimit_pos.
    + cbn [length]. lia.
Qed.

(** The lookup of the sample collection BIG: three requests, 2010
    addresses. *)
Lemma C3_pagination_witness :
  requestedPages (trace (getNftAddressesFromCollection 3 sampleWorld "BIG")) = [1; 2; 3]
  /\ exists addresses,
       result (getNftAddressesFromCollection 3 sampleWorld "BIG") = Return addresses
       /\ addresses = map id (repeat sampleAsset 1000) ++ map id (repeat sampleAsset 1000)
                      ++ map id (repeat sampleAsset 10)
       /\ length addresses = 2010.
Proof.
  destruct C3_pagination as [_ [H _]].
  apply (H 3 sampleWorld "BIG"); reflexivity.
Defined.

(** ** Strings *)

Example trim_example : JS.trim "  a b  " = "a b".
Proof. reflexivity. Qed.

Example split_example : JS.split "a,,b" = ["a"; ""; "b"].
Proof. reflexivity. Qed.

Example split_empty_example : JS.split "" = [""].
Proof. reflexivity. Qed.

Example toUpperCase_example : JS.toUpperCase "nft_sale" = "NFT_SALE".
Proof. reflexivity. Qed.

Example parseTransactionTypes_example :
  parseTransactionTypes " nft_sale , swap" = ["NFT_SALE"; "SWAP"].
Proof. reflexivity. Qed.


Lemma trim_empty : JS.trim "" = "".
Proof. reflexivity. Qed.

Lemma trim_not_blank s : JS.trim s <> "" -> JS.truthy s = true.
Proof.
  intros H. destruct s as [|c r]; [contradiction H; reflexivity | reflexivity].
Qed.


Lemma split_not_nil s : JS.split s <> [].
Proof.
  destruct s as [|c r]; cbn [JS.split]; [discriminate|].
  destruct (Ascii.eqb c JS.comma); [discriminate|].
  destruct (JS.split r); discriminate.
Qed.

(** [split] drops nothing: one token more than there are commas. *)
Lemma length_split s : length (JS.split s) = S (JS.countChar JS.comma s).
Proof.
  induction s as [|c r IH]; [reflexivity|].
  cbn [JS.split JS.countChar].
  destruct (Ascii.eqb c JS.comma).
  - cbn [length]. rewrite IH. reflexivity.
  - destruct (JS.split r) as [|tok toks] eqn:E; cbn [length] in *; lia.
Qed.





Lemma filterAddresses_not_blank input :
  JS.trim input <> "" ->
  filterAddresses input = map JS.trim (JS.split input)
  /\ filterAddresses input <> [].
Proof.
  intros H. unfold filterAddresses. rewrite (trim_not_blank input H).
  split; [reflexivity|].
  destruct (JS.split input) eqn:E;
    [exfalso; exact (split_not_nil input E) | discriminate].
Qed.

Lemma notBlank_None message input :
  notBlank message input = None <-> JS.trim input <> "".
Proof.
  unfold notBlank. destruct (String.eqb_spec (JS.trim input) "") as [E|E].
  - split; [discriminate | intros H; contradiction].
  - split; [intros _; exact E | reflexivity].
Qed.

(** ** Rewriting the result and the trace of a computation *)

Lemma result_ret {A} (a : A) : result (ret a) = Return a.
Proof. reflexivity. Qed.

Lemma trace_ret {A} (a : A) : trace (ret a) = [].
Proof. reflexivity. Qed.

Lemma result_emit e : result (emit e) = Return tt.
Proof. reflexivity. Qed.

Lemma trace_emit e : trace (emit e) = [e].
Proof. reflexivity. Qed.

Lemma result_exit {A} c : result (@exit A c) = Exit c.
Proof. reflexivity. Qed.

Lemma trace_exit {A} c : trace (@exit A c) = [].
Proof. reflexivity. Qed.

Lemma result_throw {A} e : result (@throw A e) = Throw e.
Proof. reflexivity. Qed.

Lemma trace_throw {A} e : trace (@throw A e) = [].
Proof. reflexivity. Qed.

Lemma result_pending {A} : result (@pending A) = Pending.
Proof. reflexivity. Qed.

Lemma result_promptConfirm name message answer :
  result (promptConfirm name message answer) = Return answer.
Proof. reflexivity. Qed.

Lemma trace_promptConfirm name message answer :
  trace (promptConfirm name message answer) = [PromptAsk name message].
Proof. reflexivity. Qed.

Lemma result_promptInput name message entry :
  result (promptInput name message entry) = Return entry.
Proof. reflexivity. Qed.

Create Rewrite HintDb io_result.

#[local] Hint Rewrite
  @result_bind @result_tryCatch @result_ret @result_emit @result_exit
  @result_throw @result_pending result_promptConfirm result_promptInput
  @result_promptValidated : io_result.

(** ** The stages of [promptForWebhookData] *)

Lemma askCollection_result u prefilled useCollection collectionAddress :
  result (askCollection u prefilled) = Return (useCollection, collectionAddress) ->
  (useCollection = false /\ collectionAddress = "")
  \/ (useCollection = true /\ prefilled = [] /\ in_useCollection u = true
      /\ accepted (notBlank "Collection address is required")
           (in_collectionAddress u) = Some collectionAddress).
Proof.
  unfold askCollection.
  destruct (Nat.eqb_spec (length prefilled) 0) as [E|E].
  - apply length_zero_iff_nil in E. autorewrite with io_result.
    destruct (in_useCollection u) eqn:Eu; autorewrite with io_result.
    + destruct (accepted _ (in_collectionAddress u)) as [c|] eqn:Ec;
        [|discriminate].
      intros H. injection H as <- <-. right. repeat split; assumption.
    + intros H. injection H as <- <-. left. split; reflexivity.
  - autorewrite with io_result. intros H. injection H as <- <-.
    left. split; reflexivity.
Qed.

Lemma addCollectionAddresses_result fuel w u useCollection collectionAddress
    accountAddresses accountAddresses' added :
  result (addCollectionAddresses fuel w u useCollection collectionAddress
            accountAddresses) = Return (accountAddresses', added) ->
  (accountAddresses' = accountAddresses /\ added = false)
  \/ (useCollection = true /\ JS.truthy collectionAddress = true
      /\ in_confirm u = true
      /\ exists nftAddresses,
           result (getNftAddressesFromCollection fuel w collectionAddress)
             = Return nftAddresses
           /\ nftAddresses <> []
           /\ accountAddresses' = accountAddresses ++ nftAddresses
           /\ added = true).
Proof.
  unfold addCollectionAddresses.
  destruct useCollection; cbn [andb];
    [|autorewrite with io_result; intros H; injection H as <- <-; left; split; reflexivity].
  destruct (JS.truthy collectionAddress) eqn:Et;
    [|autorewrite with io_result; intros H; injection H as <- <-; left; split; reflexivity].
  autorewrite with io_result.
  destruct (result (getNftAddressesFromCollection fuel w collectionAddress))
    as [nfts|e|c|] eqn:En; autorewrite with io_result; try discriminate.
  - destruct (Nat.eqb_spec (length nfts) 0) as [E0|E0]; autorewrite with io_result.
    + intros H; injection H as <- <-; left; split; reflexivity.
    + destruct (in_confirm u) eqn:Ec; autorewrite with io_result;
        intros H; injection H as <- <-.
      * right. repeat split; try reflexivity. exists nfts.
        repeat split; try reflexivity.
        intros ->. apply E0. reflexivity.
      * left; split; reflexivity.
  - intros H; injection H as <- <-; left; split; reflexivity.
Qed.

Lemma askAddresses_result u prefilled added accountAddresses accountAddresses' :
  result (askAddresses u prefilled added accountAddresses) = Return accountAddresses' ->
  exists input,
    accepted (validateAddresses (addressRequired prefilled added))
      (in_accountAddresses u) = Some input
    /\ accountAddresses' = accountAddresses ++ filterAddresses input.
Proof.
  unfold askAddresses. autorewrite with io_result.
  destruct (accepted _ (in_accountAddresses u)) as [input|] eqn:Ea; [|discriminate].
  intros H. exists input. split; [reflexivity|].
  destruct (Nat.ltb_spec 0 (length (filterAddresses input))) as [E|E];
    autorewrite with io_result in H; injection H as <-; [reflexivity|].
  destruct (filterAddresses input); [rewrite app_nil_r; reflexivity|].
  cbn [length] in E. lia.
Qed.

Lemma requireAddresses_not_nil u accountAddresses :
  accountAddresses <> [] -> requireAddresses u accountAddresses = ret accountAddresses.
Proof.
  intros H. unfold requireAddresses.
  destruct accountAddresses; [contradiction H; reflexivity | reflexivity].
Qed.

Lemma requireAddresses_nil u :
  result (requireAddresses u []) =
  match accepted (notBlank "At least one account address is required")
          (in_additionalAddresses u) with
  | Some input => Return (map JS.trim (JS.split input))
  | None => Pending
  end.
Proof.
  unfold requireAddresses. cbn [length Nat.eqb]. autorewrite with io_result.
  destruct (accepted _ (in_additionalAddresses u)); reflexivity.
Qed.

Lemma result_promptList name message choices position :
  result (promptList name message choices position) =
  match nth_error choices position with
  | Some choice => Return choice
  | None => Pending
  end.
Proof.
  unfold promptList. rewrite result_bind, result_emit.
  destruct (nth_error choices position); reflexivity.
Qed.

Lemma askBasicQuestions_result u basic :
  result (askBasicQuestions u) = Return basic ->
  nth_error WEBHOOK_TYPES (in_webhookType u) = Some (ans_webhookType basic)
  /\ nth_error (TXN_STATUS_OPTIONS ++ [SKIP_STATUS]) (in_txnStatus u)
     = Some (ans_txnStatus basic)
  /\ ans_authHeader basic = in_authHeader u.
Proof.
  unfold askBasicQuestions. intros H.
  apply result_bind_Return in H as [url [_ H]].
  apply result_bind_Return in H as [ty [Hty H]].
  apply result_bind_Return in H as [auth [Hauth H]].
  apply result_bind_Return in H as [st [Hst H]].
  apply result_bind_Return in H as [tys [_ H]].
  rewrite result_promptList in Hty, Hst. rewrite result_promptInput in Hauth.
  destruct (nth_error WEBHOOK_TYPES (in_webhookType u)) as [ty'|]; [|discriminate].
  destruct (nth_error (TXN_STATUS_OPTIONS ++ [SKIP_STATUS]) (in_txnStatus u)) as [st'|];
    [|discriminate].
  injection Hty as <-. injection Hst as <-. injection Hauth as <-.
  rewrite result_ret in H. injection H as <-.
  cbn [ans_webhookType ans_txnStatus ans_authHeader].
  repeat split; reflexivity.
Qed.

Lemma promptForWebhookData_result fuel w u prefilled d :
  result (promptForWebhookData fuel w u prefilled) = Return d ->
  exists basic useCollection collectionAddress acc1 added acc2 acc3,
    result (askBasicQuestions u) = Return basic
    /\ result (askCollection u prefilled) = Return (useCollection, collectionAddress)
    /\ result (addCollectionAddresses fuel w u useCollection collectionAddress prefilled)
       = Return (acc1, added)
    /\ result (askAddresses u prefilled added acc1) = Return acc2
    /\ result (requireAddresses u acc2) = Return acc3
    /\ d = {| webhookURL := ans_webhookURL basic;
              webhookType := ans_webhookType basic;
              transactionTypes := ans_transactionTypes basic;
              accountAddresses := acc3;
              authHeader := if JS.truthy (ans_authHeader basic)
                            then Some (ans_authHeader basic) else None;
              txnStatus := Some (ans_txnStatus basic);
              encoding := None;
              encoding_config := None |}.
Proof.
  unfold promptForWebhookData. intros H.
  apply result_bind_Return in H as [[] [_ H]].
  apply result_bind_Return in H as [basic [Hbasic H]].
  apply result_bind_Return in H as [[useCollection collectionAddress] [Hcoll H]].
  cbn [fst snd] in H.
  apply result_bind_Return in H as [[acc1 added] [Hadd H]].
  cbn [fst snd] in H.
  apply result_bind_Return in H as [acc2 [Hask H]].
  apply result_bind_Return in H as [acc3 [Hreq H]].
  rewrite result_ret in H. injection H as <-.
  exists basic, useCollection, collectionAddress, acc1, added, acc2, acc3.
  repeat split; assumption.
Qed.

(** The addresses of the draft: what was prefilled, then the addresses of
    the collection when they were added, then the entry accepted at the
    address prompt, split at the commas.  They are never empty, so the
    prompt of lines 990-1007 is not reached. *)
Lemma promptForWebhookData_addresses fuel w u prefilled d :
  result (promptForWebhookData fuel w u prefilled) = Return d ->
  exists collectionAddresses added input,
    accountAddresses d = prefilled ++ collectionAddresses ++ filterAddresses input
    /\ accepted (validateAddresses (addressRequired prefilled added))
         (in_accountAddresses u) = Some input
    /\ ((collectionAddresses = [] /\ added = false)
        \/ (added = true /\ prefilled = [] /\ collectionAddresses <> []
            /\ in_useCollection u = true /\ in_confirm u = true
            /\ exists collection,
                 accepted (notBlank "Collection address is required")
                   (in_collectionAddress u) = Some collection
                 /\ result (getNftAddressesFromCollection fuel w collection)
                    = Return collectionAddresses))
    /\ accountAddresses d <> [].
Proof.
  intros H.
  destruct (promptForWebhookData_result _ _ _ _ _ H)
    as (basic & uc & ca & acc1 & added & acc2 & acc3 & _ & Hcoll & Hadd & Hask & Hreq & ->).
  cbn [accountAddresses].
  apply askAddresses_result in Hask as (input & Hacc & ->).
  apply addCollectionAddresses_result in Hadd.
  assert (Hcases :
    exists coll, acc1 = prefilled ++ coll
      /\ ((coll = [] /\ added = false)
          \/ (added = true /\ prefilled = [] /\ coll <> []
              /\ in_useCollection u = true /\ in_confirm u = true
              /\ exists collection,
                   accepted (notBlank "Collection address is required")
                     (in_collectionAddress u) = Some collection
                   /\ result (getNftAddressesFromCollection fuel w collection)
                      = Return coll))).
  { destruct Hadd as [[-> ->] | (-> & Ht & Hc & nfts & Hn & Hne & -> & ->)].
    - exists []. rewrite app_nil_r. split; [reflexivity|]. left. split; reflexivity.
    - exists nfts. split; [reflexivity|]. right.
      apply askCollection_result in Hcoll as [[Hf _] | (_ & Hp & Hu & Ha)];
        [discriminate|].
      repeat split; try assumption. exists ca. split; assumption. }
  destruct Hcases as (coll & -> & Hcases).
  assert (Hne : (prefilled ++ coll) ++ filterAddresses input <> []).
  { destruct prefilled as [|p ps]; [|discriminate].
    destruct Hcases as [[-> ->] | (_ & _ & Hc & _)].
    - cbn [app]. apply accepted_In in Hacc as [_ Hv].
      unfold validateAddresses, addressRequired in Hv. cbn in Hv.
      apply notBlank_None in Hv. apply filterAddresses_not_blank. exact Hv.
    - destruct coll; [contradiction Hc; reflexivity | discriminate]. }
  rewrite (requireAddresses_not_nil u _ Hne), result_ret in Hreq.
  injection Hreq as <-.
  exists coll, added, input. rewrite <- app_assoc.
  repeat split; try assumption. rewrite app_assoc. exact Hne.
Qed.

(** ** What a computation never does *)

Section TraceAll.
Variable P : event -> bool.

Lemma traceAll_bind {A B} (m : IO A) (k : A -> IO B) :
  traceAll P m -> (forall a, traceAll P (k a)) -> traceAll P (bind m k).
Proof.
  unfold traceAll. intros Hm Hk. rewrite trace_bind, forallb_app, Hm.
  destruct (result m); [apply Hk | reflexivity..].
Qed.

Lemma traceAll_tryCatch {A} (m : IO A) (h : string -> IO A) :
  traceAll P m -> (forall e, traceAll P (h e)) -> traceAll P (tryCatch m h).
Proof.
  unfold traceAll. intros Hm Hh. rewrite trace_tryCatch, forallb_app, Hm.
  destruct (result m); [reflexivity | apply Hh | reflexivity..].
Qed.

Lemma traceAll_emit e : P e = true -> traceAll P (emit e).
Proof. unfold traceAll. cbn. intros ->. reflexivity. Qed.

Hypothesis P_ask : forall name message, P (PromptAsk name message) = true.
Hypothesis P_invalid : forall name message, P (PromptInvalid name message) = true.

Lemma traceAll_submitUntilValid {I} name (validate : I -> option string) entries :
  traceAll P (submitUntilValid name validate entries).
Proof.
  induction entries as [|e es IH]; [reflexivity|].
  cbn [submitUntilValid]. destruct (validate e); [|reflexivity].
  apply traceAll_bind; [apply traceAll_emit, P_invalid | intros _; exact IH].
Qed.

Lemma traceAll_promptValidated {I A} name message (validate : I -> option string)
    (filter : I -> A) entries :
  traceAll P (promptValidated name message validate filter entries).
Proof.
  unfold promptValidated.
  apply traceAll_bind; [apply traceAll_emit, P_ask | intros _].
  apply traceAll_bind; [apply traceAll_submitUntilValid | intros e; reflexivity].
Qed.

Lemma traceAll_promptConfirm name message answer :
  traceAll P (promptConfirm name message answer).
Proof. unfold traceAll. cbn. rewrite P_ask. reflexivity. Qed.

Lemma traceAll_promptInput name message entry :
  traceAll P (promptInput name message entry).
Proof. unfold traceAll. cbn. rewrite P_ask. reflexivity. Qed.

Lemma traceAll_promptList name message choices position :
  traceAll P (promptList name message choices position).
Proof.
  unfold promptList.
  apply traceAll_bind; [apply traceAll_emit, P_ask | intros _].
  destruct (nth_error choices position); reflexivity.
Qed.

Lemma traceAll_promptCheckbox name message choices validate submissions :
  traceAll P (promptCheckbox name message choices validate submissions).
Proof. apply traceAll_promptValidated. Qed.

Hypothesis P_log : forall text, P (ConsoleLog text) = true.
Hypothesis P_saved : forall key, P (ConfigSaved key) = true.

Lemma traceAll_ensureConfig w u : traceAll P (ensureConfig w u).
Proof.
  unfold ensureConfig. destruct (JS.truthy (config_apiKey w)); [reflexivity|].
  cbn [negb length Nat.eqb].
  apply traceAll_bind; [apply traceAll_emit, P_log | intros _].
  apply traceAll_bind; [apply traceAll_promptValidated | intros key].
  apply traceAll_bind; [apply traceAll_emit, P_saved | intros _].
  apply traceAll_bind; [apply traceAll_emit, P_log | intros _].
  reflexivity.
Qed.

End TraceAll.

Lemma submittedDrafts_nil t :
  forallb notWebhookRequest t = true -> submittedDrafts t = [].
Proof.
  induction t as [|e t IH]; [reflexivity|].
  cbn [forallb]. intros H. apply andb_true_iff in H. destruct H as [He Ht].
  destruct e as [| | | | | | | |m u b]; cbn; try exact (IH Ht).
  destruct b; try exact (IH Ht). discriminate He.
Qed.

Ltac trace_all :=
  repeat first
    [ reflexivity
    | assumption
    | apply traceAll_emit; reflexivity
    | apply traceAll_promptValidated; intros; reflexivity
    | apply traceAll_promptCheckbox; intros; reflexivity
    | apply traceAll_promptConfirm; intros; reflexivity
    | apply traceAll_promptInput; intros; reflexivity
    | apply traceAll_promptList; intros; reflexivity
    | apply traceAll_ensureConfig; intros; reflexivity
    | apply traceAll_bind; [|intros ?]
    | apply traceAll_tryCatch; [|intros ?]
    | match goal with
      | |- traceAll _ (if ?c then _ else _) => destruct c
      | |- traceAll _ (match ?x with _ => _ end) => destruct x
      end ].

Lemma fetchPages_noWebhook fuel w collection :
  forall page acc, traceAll notWebhookRequest (fetchPages fuel w collection page acc).
Proof.
  induction fuel as [|fuel IH]; intros page acc; [reflexivity|].
  rewrite fetchPages_S.
  apply traceAll_bind; [apply traceAll_emit; reflexivity | intros _].
  destruct (getAssetsByGroupReply w collection page) as [[[[its|]]|]| | |];
    try reflexivity.
  destruct (length its =? 0); [reflexivity|].
  destruct (length its <? pageLimit); [reflexivity | apply IH].
Qed.

Lemma getNftAddressesFromCollection_noWebhook fuel w collection :
  traceAll notWebhookRequest (getNftAddressesFromCollection fuel w collection).
Proof. apply fetchPages_noWebhook. Qed.

Lemma processCollectionOption_noWebhook fuel w u collection acc :
  traceAll notWebhookRequest (processCollectionOption fuel w u collection acc).
Proof.
  unfold processCollectionOption.
  pose proof (getNftAddressesFromCollection_noWebhook fuel w collection).
  trace_all.
Qed.

Lemma collectionStage_noWebhook fuel w u options acc :
  traceAll notWebhookRequest (collectionStage fuel w u options acc).
Proof.
  unfold collectionStage.
  destruct (opt_collection options) as [c|]; [|reflexivity].
  destruct (JS.truthy c); [apply processCollectionOption_noWebhook | reflexivity].
Qed.

Lemma required_noWebhook option error hint :
  traceAll notWebhookRequest (required option error hint).
Proof. unfold required. trace_all. Qed.

Lemma validateTransactionTypes_noWebhook types :
  traceAll notWebhookRequest (validateTransactionTypes types).
Proof.
  induction types as [|t ts IH]; [reflexivity|].
  cbn [validateTransactionTypes]. trace_all.
Qed.

Lemma commandLineAddresses_noWebhook options acc :
  traceAll notWebhookRequest (commandLineAddresses options acc).
Proof.
  unfold commandLineAddresses. destruct (length acc =? 0).
  - apply traceAll_bind; [apply required_noWebhook | intros a; reflexivity].
  - trace_all.
Qed.

Lemma commandLineWebhookData_noWebhook options acc :
  traceAll notWebhookRequest (commandLineWebhookData options acc).
Proof.
  unfold commandLineWebhookData.
  apply traceAll_bind; [apply required_noWebhook | intros url].
  apply traceAll_bind; [apply required_noWebhook | intros type].
  apply traceAll_bind; [apply required_noWebhook | intros types].
  apply traceAll_bind; [apply validateTransactionTypes_noWebhook | intros _].
  apply traceAll_bind; [apply commandLineAddresses_noWebhook | intros addresses].
  trace_all.
Qed.

Lemma promptForWebhookData_noWebhook fuel w u prefilled :
  traceAll notWebhookRequest (promptForWebhookData fuel w u prefilled).
Proof.
  unfold promptForWebhookData.
  apply traceAll_bind; [apply traceAll_emit; reflexivity | intros _].
  apply traceAll_bind; [unfold askBasicQuestions; trace_all | intros basic].
  apply traceAll_bind; [unfold askCollection; trace_all | intros collection].
  apply traceAll_bind; [| intros added].
  { unfold addCollectionAddresses.
    pose proof (getNftAddressesFromCollection_noWebhook fuel w (snd collection)).
    trace_all. }
  apply traceAll_bind; [unfold askAddresses; trace_all | intros addresses].
  apply traceAll_bind; [unfold requireAddresses; trace_all | intros addresses'].
  reflexivity.
Qed.

Lemma gatherWebhookData_noWebhook fuel w u options :
  traceAll notWebhookRequest (gatherWebhookData fuel w u options).
Proof.
  unfold gatherWebhookData.
  apply traceAll_bind; [apply traceAll_ensureConfig; intros; reflexivity | intros _].
  apply traceAll_bind; [apply collectionStage_noWebhook | intros acc].
  destruct (opt_interactive options);
    [apply promptForWebhookData_noWebhook | apply commandLineWebhookData_noWebhook].
Qed.

(** The [create] action submits at most one draft: the one gathered before
    line 747. *)
Lemma createAction_submitted fuel w u options :
  submittedDrafts (trace (createAction fuel w u options)) =
  match result (gatherWebhookData fuel w u options) with
  | Return webhookData => [webhookData]
  | _ => []
  end.
Proof.
  unfold createAction.
  pose proof (submittedDrafts_nil _ (gatherWebhookData_noWebhook fuel w u options)) as Hg.
  rewrite trace_tryCatch, submittedDrafts_app, trace_bind, submittedDrafts_app, Hg.
  rewrite result_bind.
  destruct (result (gatherWebhookData fuel w u options)) as [d|e|c|];
    try reflexivity.
  unfold createWebhook, request.
  destruct (createWebhookReply w d); reflexivity.
Qed.

(** ** The command-line mode *)

Lemma required_result option error hint :
  result (required option error hint) =
  match option with
  | Some value => if JS.truthy value then Return value else Exit 1
  | None => Exit 1
  end.
Proof.
  unfold required. destruct option as [value|]; [|reflexivity].
  destruct (JS.truthy value); reflexivity.
Qed.

Lemma trace_required option error hint :
  trace (required option error hint) =
  if JS.truthy_opt option then [] else [ConsoleError error; ConsoleLog hint].
Proof.
  unfold required. destruct option as [value|]; [|reflexivity].
  cbn [JS.truthy_opt]. destruct (JS.truthy value); reflexivity.
Qed.

Lemma validateTransactionTypes_result types :
  result (validateTransactionTypes types) =
  if forallb isTransactionType types then Return tt else Exit 1.
Proof.
  induction types as [|t ts IH]; [reflexivity|].
  cbn [validateTransactionTypes forallb]. unfold isTransactionType at 1.
  destruct (JS.includes TRANSACTION_TYPES t); cbn [negb andb]; [exact IH | reflexivity].
Qed.

Lemma commandLineAddresses_result options acc :
  result (commandLineAddresses options acc) =
  if (length acc =? 0) && negb (JS.truthy_opt (opt_addresses options)) then Exit 1
  else Return (acc ++ explicitAddresses options).
Proof.
  unfold commandLineAddresses, explicitAddresses.
  destruct (Nat.eqb_spec (length acc) 0) as [E|E]; cbn [andb].
  - apply length_zero_iff_nil in E. subst acc.
    rewrite result_bind, required_result.
    destruct (opt_addresses options) as [a|]; [|reflexivity].
    cbn [JS.truthy_opt]. destruct (JS.truthy a); reflexivity.
  - destruct (opt_addresses options) as [a|]; cbn [JS.truthy_opt].
    + destruct (JS.truthy a); [reflexivity | rewrite app_nil_r; reflexivity].
    + rewrite app_nil_r. reflexivity.
Qed.

(** A required option is missing: the command-line mode stops with one of
    the three messages and status 1. *)
Lemma commandLineWebhookData_missing options acc :
  JS.truthy_opt (opt_url options) && JS.truthy_opt (opt_type options)
    && JS.truthy_opt (opt_types options) = false ->
  result (commandLineWebhookData options acc) = Exit 1
  /\ exists error hint,
       In error presenceErrors
       /\ trace (commandLineWebhookData options acc) = [ConsoleError error; ConsoleLog hint].
Proof.
  unfold commandLineWebhookData. intros H.
  rewrite result_bind, trace_bind, required_result, trace_required.
  destruct (opt_url options) as [url|]; cbn [JS.truthy_opt andb] in *;
    [destruct (JS.truthy url); cbn [andb] in * |];
    try (split; [reflexivity|]; do 2 eexists; split; [left; reflexivity | reflexivity]).
  rewrite result_bind, trace_bind, required_result, trace_required.
  destruct (opt_type options) as [ty|]; cbn [JS.truthy_opt andb] in *;
    [destruct (JS.truthy ty); cbn [andb] in * |];
    try (split; [reflexivity|]; do 2 eexists;
         split; [right; left; reflexivity | reflexivity]).
  rewrite result_bind, trace_bind, required_result, trace_required.
  destruct (opt_types options) as [tys|]; cbn [JS.truthy_opt andb] in *;
    [destruct (JS.truthy tys); cbn [andb] in * |];
    try discriminate;
    try (split; [reflexivity|]; do 2 eexists;
         split; [right; right; left; reflexivity | reflexivity]).
Qed.

(** All three required options are given: the result of the command-line
    mode. *)
Lemma commandLineWebhookData_present options acc url type types :
  opt_url options = Some url -> JS.truthy url = true ->
  opt_type options = Some type -> JS.truthy type = true ->
  opt_types options = Some types -> JS.truthy types = true ->
  result (commandLineWebhookData options acc) =
  if negb (forallb isTransactionType (parseTransactionTypes types)) then Exit 1
  else if (length acc =? 0) && negb (JS.truthy_opt (opt_addresses options)) then Exit 1
  else if negb (JS.includes WEBHOOK_TYPES type) then Exit 1
  else if invalidStatus options then Exit 1
  else Return {| webhookURL := url;
                 webhookType := type;
                 transactionTypes := parseTransactionTypes types;
                 accountAddresses := acc ++ explicitAddresses options;
                 authHeader := opt_authHeader options;
                 txnStatus := if JS.truthy_opt (opt_status options)
                              then opt_status options else None;
                 encoding := None;
                 encoding_config := None |}.
Proof.
  intros Hu Tu Ht Tt Hs Ts. unfold commandLineWebhookData.
  rewrite result_bind, required_result, Hu, Tu.
  rewrite result_bind, required_result, Ht, Tt.
  rewrite result_bind, required_result, Hs, Ts.
  rewrite result_bind, validateTransactionTypes_result.
  destruct (forallb isTransactionType (parseTransactionTypes types)); cbn [negb];
    [|reflexivity].
  rewrite result_bind, commandLineAddresses_result.
  destruct ((length acc =? 0) && negb (JS.truthy_opt (opt_addresses options)));
    [reflexivity|].
  rewrite result_bind.
  destruct (JS.includes WEBHOOK_TYPES type); cbn [negb]; [|reflexivity].
  rewrite result_ret, result_bind. unfold invalidStatus.
  destruct (opt_status options) as [status|]; [|reflexivity].
  destruct (JS.truthy status && negb (JS.includes TXN_STATUS_OPTIONS status));
    reflexivity.
Qed.

(** ** The [create] action *)

Lemma gatherWebhookData_result fuel w u options :
  result (gatherWebhookData fuel w u options) =
  match result (ensureConfig w u) with
  | Return _ =>
      match result (collectionStage fuel w u options []) with
      | Return acc =>
          if opt_interactive options
          then result (promptForWebhookData fuel w u acc)
          else result (commandLineWebhookData options acc)
      | Throw e => Throw e
      | Exit c => Exit c
      | Pending => Pending
      end
  | Throw e => Throw e
  | Exit c => Exit c
  | Pending => Pending
  end.
Proof.
  unfold gatherWebhookData. rewrite result_bind.
  destruct (result (ensureConfig w u)); try reflexivity.
  rewrite result_bind.
  destruct (result (collectionStage fuel w u options [])); try reflexivity.
  destruct (opt_interactive options); reflexivity.
Qed.

Lemma createAction_result fuel w u options :
  result (createAction fuel w u options) =
  match result (gatherWebhookData fuel w u options) with
  | Return webhookData =>
      match createWebhookReply w webhookData with
      | Response _ => Return tt
      | _ => Exit 1
      end
  | Throw _ => Exit 1
  | Exit c => Exit c
  | Pending => Pending
  end.
Proof.
  unfold createAction. rewrite result_tryCatch, result_bind.
  destruct (result (gatherWebhookData fuel w u options)) as [d|e|c|];
    try reflexivity.
  unfold createWebhook, request.
  destruct (createWebhookReply w d); reflexivity.
Qed.

Lemma submitted_gathered fuel w u options d :
  In d (submittedDrafts (trace (createAction fuel w u options))) ->
  result (gatherWebhookData fuel w u options) = Return d.
Proof.
  rewrite createAction_submitted.
  destruct (result (gatherWebhookData fuel w u options)) as [d'|e|c|];
    cbn [In]; intros H; try contradiction.
  destruct H as [->|[]]. reflexivity.
Qed.

Lemma gathered_interactive fuel w u options d :
  opt_interactive options = true ->
  result (gatherWebhookData fuel w u options) = Return d ->
  exists prefilled,
    result (collectionStage fuel w u options []) = Return prefilled
    /\ result (promptForWebhookData fuel w u prefilled) = Return d.
Proof.
  intros Hi. rewrite gatherWebhookData_result, Hi.
  destruct (result (ensureConfig w u)); try discriminate.
  destruct (result (collectionStage fuel w u options [])) as [acc| | |];
    try discriminate.
  intros H. exists acc. split; [reflexivity | exact H].
Qed.

Lemma gathered_commandLine fuel w u options d :
  opt_interactive options = false ->
  result (gatherWebhookData fuel w u options) = Return d ->
  exists acc,
    result (collectionStage fuel w u options []) = Return acc
    /\ result (commandLineWebhookData options acc) = Return d.
Proof.
  intros Hi. rewrite gatherWebhookData_result, Hi.
  destruct (result (ensureConfig w u)); try discriminate.
  destruct (result (collectionStage fuel w u options [])) as [acc| | |];
    try discriminate.
  intros H. exists acc. split; [reflexivity | exact H].
Qed.

Lemma submittedDrafts_In method url d t :
  In (HttpRequest method url (WebhookBody d)) t -> In d (submittedDrafts t).
Proof.
  induction t as [|e t IH]; [intros []|].
  intros [-> | H].
  - left. reflexivity.
  - specialize (IH H). destruct e as [| | | | | | | |m' u' b]; cbn; try exact IH.
    destruct b; cbn; try exact IH. right. exact IH.
Qed.

(** C6: in command-line mode, when the url, the type or the types option
    is absent (or empty), no request carrying a webhook is sent: the command
    does not complete, and once the configuration check and the collection
    step are through it ends with status 1 before [createWebhook]. *)
Theorem C6_missing_option_no_create fuel w u options :
  opt_interactive options = false ->
  JS.truthy_opt (opt_url options) && JS.truthy_opt (opt_type options)
    && JS.truthy_opt (opt_types options) = false ->
  (forall method url d,
      ~ In (HttpRequest method url (WebhookBody d))
           (trace (createAction fuel w u options)))
  /\ submittedDrafts (trace (createAction fuel w u options)) = []
  /\ result (createAction fuel w u options) <> Return tt
  /\ (forall b acc,
         result (ensureConfig w u) = Return b ->
         result (collectionStage fuel w u options []) = Return acc ->
         result (createAction fuel w u options) = Exit 1).
Proof.
  intros Hi Hmissing.
  assert (Hg : forall d, result (gatherWebhookData fuel w u options) <> Return d).
  { intros d Hd. apply (gathered_commandLine _ _ _ _ _ Hi) in Hd as (acc & _ & Hd).
    destruct (commandLineWebhookData_missing options acc Hmissing) as [He _].
    rewrite He in Hd. discriminate Hd. }
  assert (Hnone : submittedDrafts (trace (createAction fuel w u options)) = []).
  { rewrite createAction_submitted.
    destruct (result (gatherWebhookData fuel w u options)) as [d| | |] eqn:E;
      try reflexivity.
    exfalso. exact (Hg d eq_refl). }
  repeat split.
  - intros method url d Hin. apply submittedDrafts_In in Hin.
    rewrite Hnone in Hin. exact Hin.
  - exact Hnone.
  - rewrite createAction_result.
    destruct (result (gatherWebhookData fuel w u options)) as [d| | |] eqn:E;
      try discriminate.
    exfalso. exact (Hg d eq_refl).
  - intros b acc Hb Hacc.
    rewrite createAction_result, gatherWebhookData_result, Hb, Hacc, Hi.
    destruct (commandLineWebhookData_missing options acc Hmissing) as [He _].
    rewrite He. reflexivity.
Qed.

(** The command line without [--url]: status 1 and nothing submitted. *)
Lemma C6_missing_option_no_create_witness :
  submittedDrafts
    (trace (createAction 1 sampleWorld sampleUser
              (commandLine None (Some "raw") (Some "SWAP") (Some "x") None))) = []
  /\ result (createAction 1 sampleWorld sampleUser
               (commandLine None (Some "raw") (Some "SWAP") (Some "x") None)) = Exit 1.
Proof.
  destruct (C6_missing_option_no_create 1 sampleWorld sampleUser
              (commandLine None (Some "raw") (Some "SWAP") (Some "x") None)
              eq_refl eq_refl) as (_ & Hnone & _ & Hexit).
  split; [exact Hnone | exact (Hexit true [] eq_refl eq_refl)].
Defined.

(** ** The interactive mode *)

(** C1 (what the code does): the draft submitted in interactive mode
    carries the entry picked at the status prompt as it is.  For all,
    success and failed that is the chosen value; for the fourth entry,
    the skip entry, the draft carries the text of that entry, not an absent
    filter. *)
Theorem C1_interactive_status_filter fuel w u options d :
  opt_interactive options = true ->
  In d (submittedDrafts (trace (createAction fuel w u options))) ->
  txnStatus d = nth_error (TXN_STATUS_OPTIONS ++ [SKIP_STATUS]) (in_txnStatus u)
  /\ (in_txnStatus u = 3 -> txnStatus d = Some SKIP_STATUS)
  /\ txnStatus d <> None.
Proof.
  intros Hi Hin. apply submitted_gathered in Hin.
  apply (gathered_interactive _ _ _ _ _ Hi) in Hin as (prefilled & _ & Hd).
  apply promptForWebhookData_result in Hd
    as (basic & uc & ca & acc1 & added & acc2 & acc3 & Hb & _ & _ & _ & _ & ->).
  apply askBasicQuestions_result in Hb as (_ & Hst & _).
  cbn [txnStatus]. rewrite Hst.
  repeat split; [| discriminate].
  intros H3. rewrite H3 in Hst. cbn in Hst. injection Hst as <-. reflexivity.
Qed.

(** The sample user picks the skip entry: the draft submitted carries it. *)
Lemma C1_interactive_status_filter_witness :
  exists d,
    In d (submittedDrafts
            (trace (createAction 1 sampleWorld sampleUser (interactiveLine None))))
    /\ txnStatus d = Some "Skip (don't filter by status)".
Proof.
  eexists. split; [left; reflexivity|].
  apply (C1_interactive_status_filter 1 sampleWorld sampleUser (interactiveLine None));
    [reflexivity | left; reflexivity | reflexivity].
Defined.

Lemma accepted_first {I} (validate : I -> option string) entry later :
  validate entry = None -> accepted validate (entry :: later) = Some entry.
Proof. intros H. unfold accepted. cbn [find]. rewrite H. reflexivity. Qed.

Lemma accepted_none {I} (validate : I -> option string) entries :
  (forall entry, In entry entries -> validate entry <> None) ->
  accepted validate entries = None.
Proof.
  intros H. unfold accepted. destruct (find _ entries) as [e|] eqn:E; [|reflexivity].
  apply find_some in E as [Hin Hv]. specialize (H e Hin).
  destruct (validate e); [discriminate Hv | contradiction H; reflexivity].
Qed.

Lemma accepted_some {I} (validate : I -> option string) entries entry :
  In entry entries -> validate entry = None ->
  exists entry', accepted validate entries = Some entry'.
Proof.
  intros Hin Hv. unfold accepted.
  destruct (find _ entries) as [e|] eqn:E; [exists e; reflexivity|].
  apply (find_none _ _ E) in Hin. rewrite Hv in Hin. discriminate Hin.
Qed.

(** C7: a draft submitted in interactive mode never has an empty address
    list.  The step of lines 990-1007, entered with no address, prints the
    error, asks again at least once, stays pending as long as only blank
    entries are supplied, and returns the tokens of the first entry that is
    not blank, which are never an empty sequence. *)
Theorem C7_interactive_addresses_not_empty :
  (forall fuel w u options d,
      opt_interactive options = true ->
      In d (submittedDrafts (trace (createAction fuel w u options))) ->
      accountAddresses d <> [])
  /\ (forall u,
         (exists rest,
             trace (requireAddresses u []) =
             ConsoleLog "Error: At least one account address is required."
               :: PromptAsk "additionalAddresses"
                    "Enter account addresses to monitor (comma-separated):"
               :: rest)
         /\ ((forall input, In input (in_additionalAddresses u) -> JS.trim input = "") ->
             result (requireAddresses u []) = Pending)
         /\ (forall input, In input (in_additionalAddresses u) -> JS.trim input <> "" ->
             exists addresses, result (requireAddresses u []) = Return addresses)
         /\ (forall addresses,
                result (requireAddresses u []) = Return addresses ->
                addresses <> []
                /\ exists input, In input (in_additionalAddresses u)
                                 /\ JS.trim input <> ""
                                 /\ addresses = map JS.trim (JS.split input))).
Proof.
  split.
  - intros fuel w u options d Hi Hin. apply submitted_gathered in Hin.
    apply (gathered_interactive _ _ _ _ _ Hi) in Hin as (prefilled & _ & Hd).
    apply promptForWebhookData_addresses in Hd as (coll & added & input & _ & _ & _ & Hne).
    exact Hne.
  - intros u. repeat split.
    + unfold requireAddresses, promptValidated. cbn [length Nat.eqb].
      rewrite bind_emit. cbn [trace fst]. rewrite trace_bind, bind_emit.
      cbn [trace fst app]. eexists. reflexivity.
    + intros Hblank. rewrite requireAddresses_nil, accepted_none; [reflexivity|].
      intros input Hin Hv. apply notBlank_None in Hv. exact (Hv (Hblank input Hin)).
    + intros input Hin Hnb. rewrite requireAddresses_nil.
      destruct (accepted_some (notBlank "At least one account address is required")
                  _ input Hin) as [input' ->].
      * apply notBlank_None. exact Hnb.
      * eexists. reflexivity.
    + rewrite requireAddresses_nil in H.
      destruct (accepted _ (in_additionalAddresses u)) as [input|]; [|discriminate].
      injection H as <-.
      destruct (JS.split input) eqn:E;
        [exfalso; exact (split_not_nil input E) | discriminate].
    + rewrite requireAddresses_nil in H.
      destruct (accepted _ (in_additionalAddresses u)) as [input|] eqn:E;
        [|discriminate].
      injection H as <-. apply accepted_In in E as [Hin Hv].
      exists input. repeat split; [exact Hin | apply notBlank_None in Hv; exact Hv].
Qed.

(** The draft of the sample interactive run has addresses. *)
Lemma C7_interactive_addresses_not_empty_witness :
  exists d,
    In d (submittedDrafts
            (trace (createAction 1 sampleWorld sampleUser (interactiveLine None))))
    /\ accountAddresses d <> [].
Proof.
  eexists. split; [left; reflexivity|].
  apply (proj1 C7_interactive_addresses_not_empty 1 sampleWorld sampleUser
           (interactiveLine None));
    [reflexivity | left; reflexivity].
Defined.

Lemma processCollectionOption_result fuel w u collection acc acc' :
  result (processCollectionOption fuel w u collection acc) = Return acc' ->
  acc' = acc
  \/ (create_confirm u = true /\ acc' <> []
      /\ result (getNftAddressesFromCollection fuel w collection) = Return acc').
Proof.
  unfold processCollectionOption. autorewrite with io_result.
  destruct (result (getNftAddressesFromCollection fuel w collection))
    as [nfts|e|c|] eqn:En; autorewrite with io_result; try discriminate.
  - destruct (Nat.eqb_spec (length nfts) 0) as [E0|E0]; autorewrite with io_result.
    + intros H; injection H as <-. left. reflexivity.
    + destruct (create_confirm u) eqn:Ec; autorewrite with io_result;
        intros H; injection H as <-.
      * right. repeat split. intros ->. apply E0. reflexivity.
      * left. reflexivity.
  - intros H; injection H as <-. left. reflexivity.
Qed.

Lemma collectionStage_result fuel w u options acc acc' :
  result (collectionStage fuel w u options acc) = Return acc' ->
  acc' = acc
  \/ (create_confirm u = true /\ acc' <> []
      /\ exists collection,
           opt_collection options = Some collection
           /\ result (getNftAddressesFromCollection fuel w collection) = Return acc').
Proof.
  unfold collectionStage.
  destruct (opt_collection options) as [c|];
    [|intros H; injection H as <-; left; reflexivity].
  destruct (JS.truthy c); [|intros H; injection H as <-; left; reflexivity].
  intros H. apply processCollectionOption_result in H as [-> | (Hc & Hne & Hn)].
  - left. reflexivity.
  - right. repeat split; try assumption. exists c. split; [reflexivity | exact Hn].
Qed.

(** C9: when the user declines to add the resolved collection, the
    addresses gathered so far are what they were before the collection was
    resolved.  In the interactive prompt the step returns its accumulator
    and the added flag stays false, so the draft is the one obtained without
    asking for a collection at all; in the action the accumulator keeps its
    value, the empty list. *)
Theorem C9_declined_collection :
  (forall fuel w u useCollection collectionAddress acc acc' added,
      in_confirm u = false ->
      result (addCollectionAddresses fuel w u useCollection collectionAddress acc)
        = Return (acc', added) ->
      acc' = acc /\ added = false)
  /\ (forall fuel w u prefilled d,
         in_confirm u = false ->
         result (promptForWebhookData fuel w u prefilled) = Return d ->
         result (promptForWebhookData fuel w (withoutCollection u) prefilled) = Return d)
  /\ (forall fuel w u options acc acc',
         create_confirm u = false ->
         result (collectionStage fuel w u options acc) = Return acc' ->
         acc' = acc).
Proof.
  assert (Stage : forall fuel w u useCollection collectionAddress acc acc' added,
      in_confirm u = false ->
      result (addCollectionAddresses fuel w u useCollection collectionAddress acc)
        = Return (acc', added) ->
      acc' = acc /\ added = false).
  { intros fuel w u uc ca acc acc' added Hc H.
    apply addCollectionAddresses_result in H as [H | (_ & _ & Hc' & _)];
      [exact H | rewrite Hc in Hc'; discriminate Hc']. }
  split; [exact Stage | split].
  - intros fuel w u prefilled d Hc H.
    apply promptForWebhookData_result in H
      as (basic & uc & ca & acc1 & added & acc2 & acc3
          & Hb & _ & Hadd & Hask & Hreq & ->).
    destruct (Stage _ _ _ _ _ _ _ _ Hc Hadd) as [-> ->].
    unfold promptForWebhookData. rewrite result_bind, result_emit.
    change (askBasicQuestions (withoutCollection u)) with (askBasicQuestions u).
    rewrite result_bind, Hb, result_bind.
    assert (Hcoll : result (askCollection (withoutCollection u) prefilled)
                    = Return (false, "")).
    { unfold askCollection. destruct (length prefilled =? 0); reflexivity. }
    rewrite Hcoll. cbn [fst snd].
    rewrite result_bind.
    change (result (addCollectionAddresses fuel w (withoutCollection u) false ""
                      prefilled))
      with (Return (A := list string * bool) (prefilled, false)).
    cbn [fst snd].
    change (askAddresses (withoutCollection u)) with (askAddresses u).
    rewrite result_bind, Hask, result_bind.
    change (requireAddresses (withoutCollection u)) with (requireAddresses u).
    rewrite Hreq. reflexivity.
  - intros fuel w u options acc acc' Hc H.
    apply collectionStage_result in H as [H | (Hc' & _)];
      [exact H | rewrite Hc in Hc'; discriminate Hc'].
Qed.

(** The sample user declining the two addresses of COL: the draft has the
    typed addresses only, as without a collection. *)
Lemma C9_declined_collection_witness :
  exists d,
    result (promptForWebhookData 1 sampleWorld (withConfirm sampleUser true false) [])
      = Return d
    /\ accountAddresses d = ["D"; "E"]
    /\ result (promptForWebhookData 1 sampleWorld
                 (withoutCollection (withConfirm sampleUser true false)) [])
       = Return d.
Proof.
  eexists. split; [reflexivity|]. split; [reflexivity|].
  apply (proj1 (proj2 C9_declined_collection) 1 sampleWorld
           (withConfirm sampleUser true false) []); reflexivity.
Defined.

(** ** The [delete] action *)

Lemma deleteAction_run w u webhookID force b :
  result (ensureConfig w u) = Return b ->
  force = true \/ delete_confirm u = true ->
  deleteAction w u webhookID force =
  (trace (ensureConfig w u) ++ deleteConfirmation webhookID force
     ++ SpinnerStart ("Deleting webhook " +++ webhookID +++ "...")
     :: deleteRequest w webhookID
     :: match deleteWebhookReply w webhookID with
        | Response true => [SpinnerSucceed ("Successfully deleted webhook " +++ webhookID)]
        | Response false => [SpinnerFail ("Failed to delete webhook " +++ webhookID)]
        | failure =>
            [ConsoleError ("Error deleting webhook: " +++
                           errorMessage "Error setting up request: " failure)]
        end,
   match deleteWebhookReply w webhookID with
   | Response _ => Return tt
   | _ => Exit 1
   end).
Proof.
  intros Hb Hgo.
  unfold deleteAction, deleteConfirmation, deleteWebhook, request, deleteRequest.
  destruct (ensureConfig w u) as [t0 r0]. cbn [result trace fst snd] in Hb |- *.
  subst r0.
  assert (Hconfirmed :
    (if negb force
     then promptConfirm "confirm"
            ("Are you sure you want to delete webhook " +++ webhookID +++ "?")
            (delete_confirm u)
     else ret true)
    = ((if negb force
        then [PromptAsk "confirm"
                ("Are you sure you want to delete webhook " +++ webhookID +++ "?")]
        else []), Return true)).
  { destruct Hgo as [-> | Hc]; [reflexivity|].
    destruct force; [reflexivity|]. cbn [negb]. unfold promptConfirm.
    rewrite Hc. reflexivity. }
  rewrite Hconfirmed.
  destruct (deleteWebhookReply w webhookID) as [[]| | |]; destruct force;
    cbn [bind tryCatch emit ret throw exit fst snd app negb errorMessage
         String.eqb Ascii.eqb Bool.eqb orb];
    rewrite ?app_nil_r, <- ?app_assoc; reflexivity.
Qed.

(** C8: when [deleteWebhook] answers with success false, the [delete] action
    completes normally: nothing is thrown, [console.error] is not used and
    the process does not exit; the last thing shown is the spinner failing
    with the text [Failed to delete webhook] and the id.  When the call
    fails instead, the action writes [Error deleting webhook:] and the error
    with [console.error] and exits with status 1.  The two texts differ. *)
Theorem C8_delete_failure_reported w u webhookID force b :
  result (ensureConfig w u) = Return b ->
  force = true \/ delete_confirm u = true ->
  (deleteWebhookReply w webhookID = Response false ->
     result (deleteAction w u webhookID force) = Return tt
     /\ trace (deleteAction w u webhookID force) =
          trace (ensureConfig w u) ++ deleteConfirmation webhookID force
          ++ [ SpinnerStart ("Deleting webhook " +++ webhookID +++ "...");
               deleteRequest w webhookID;
               SpinnerFail ("Failed to delete webhook " +++ webhookID) ]
     /\ traceAll notConsoleError (deleteAction w u webhookID force))
  /\ ((forall success, deleteWebhookReply w webhookID <> Response success) ->
      result (deleteAction w u webhookID force) = Exit 1
      /\ trace (deleteAction w u webhookID force) =
           trace (ensureConfig w u) ++ deleteConfirmation webhookID force
           ++ [ SpinnerStart ("Deleting webhook " +++ webhookID +++ "...");
                deleteRequest w webhookID;
                ConsoleError ("Error deleting webhook: " +++
                              errorMessage "Error setting up request: "
                                (deleteWebhookReply w webhookID)) ])
  /\ (forall message,
         "Failed to delete webhook " +++ webhookID
         <> "Error deleting webhook: " +++ message).
Proof.
  intros Hb Hgo. rewrite (deleteAction_run w u webhookID force b Hb Hgo).
  cbn [trace result fst snd]. split; [|split].
  - intros Hreply. rewrite Hreply. repeat split.
    unfold traceAll. cbn [trace fst]. rewrite !forallb_app.
    rewrite (traceAll_ensureConfig notConsoleError); try (intros; reflexivity).
    unfold deleteConfirmation. destruct force; reflexivity.
  - intros Hfail.
    destruct (deleteWebhookReply w webhookID) as [success| | |];
      [exfalso; exact (Hfail success eq_refl) | split; reflexivity ..].
  - intros message H. discriminate H.
Qed.

(** The sample service answers deletions with success false. *)
Lemma C8_delete_failure_reported_witness :
  result (deleteAction sampleWorld sampleUser "wh-1" true) = Return tt
  /\ trace (deleteAction sampleWorld sampleUser "wh-1" true) =
       [ SpinnerStart "Deleting webhook wh-1...";
         HttpRequest "DELETE" "https://api.helius.xyz/v0/webhooks/wh-1" NoBody;
         SpinnerFail "Failed to delete webhook wh-1" ].
Proof.
  destruct (C8_delete_failure_reported sampleWorld sampleUser "wh-1" true true
              eq_refl (or_introl eq_refl)) as [H _].
  destruct (H eq_refl) as (Hr & Ht & _).
  split; [exact Hr | exact Ht].
Defined.

(** ** Order of the collection lookup and the validation *)

Lemma trace_processCollectionOption fuel w u collection acc :
  exists rest,
    trace (processCollectionOption (S fuel) w u collection acc) =
    SpinnerStart ("Fetching NFTs from collection " +++ collection +++ "...")
      :: pageRequest collection 1 :: rest.
Proof.
  unfold processCollectionOption. rewrite bind_emit. cbn [trace fst].
  rewrite trace_tryCatch, trace_bind.
  unfold getNftAddressesFromCollection at 1. rewrite fetchPages_S, bind_emit.
  cbn [trace fst app]. eexists. reflexivity.
Qed.

Lemma In_trace_bind_l {A B} (m : IO A) (k : A -> IO B) e :
  In e (trace m) -> In e (trace (bind m k)).
Proof. intros H. rewrite trace_bind. apply in_or_app. left. exact H. Qed.

(** C2 as stated fails: on the command line with [--collection COL] and
    without [--url], the collection is looked up and its inclusion confirmed
    first; only then the missing URL is reported and the command exits. *)
Lemma C2_counterexample :
  createAction 1 sampleWorld sampleUser
    (commandLine None (Some "raw") (Some "SWAP") None (Some "COL"))
  = ([ SpinnerStart "Fetching NFTs from collection COL...";
       HttpRequest "POST" "https://mainnet.helius-rpc.com/"
         (AssetsByGroupBody "COL" 1 1000);
       SpinnerSucceed "Found 2 NFTs in collection COL";
       PromptAsk "confirm"
         "Do you want to add 2 NFT addresses from this collection to your webhook?";
       ConsoleLog "Added 2 NFT addresses to the webhook.";
       ConsoleError "Error: Webhook URL is required for non-interactive mode";
       ConsoleLog "Use --url option or --interactive mode" ],
     Exit 1).
Proof. reflexivity. Qed.

(** C2 (amended): in command-line mode with a collection address, once the
    configuration check is through, the collection is looked up first: the
    request for its first page precedes every message of [console.error],
    those of the presence checks of URL, type and types and the one of the
    address check included.  When URL, type or types is missing and the
    collection step is through, the command reports it after that request
    and exits with status 1. *)
Theorem C2_collection_before_validation fuel w u options collection b :
  opt_interactive options = false ->
  opt_collection options = Some collection ->
  JS.truthy collection = true ->
  result (ensureConfig w u) = Return b ->
  exists rest,
    trace (createAction (S fuel) w u options) =
      trace (ensureConfig w u)
      ++ SpinnerStart ("Fetching NFTs from collection " +++ collection +++ "...")
      :: pageRequest collection 1 :: rest
    /\ (forall message,
           In (ConsoleError message) (trace (createAction (S fuel) w u options)) ->
           In (ConsoleError message) rest)
    /\ (JS.truthy_opt (opt_url options) && JS.truthy_opt (opt_type options)
          && JS.truthy_opt (opt_types options) = false ->
        forall acc,
          result (collectionStage (S fuel) w u options []) = Return acc ->
          result (createAction (S fuel) w u options) = Exit 1
          /\ exists error,
               In error presenceErrors /\ In (ConsoleError error) rest).
Proof.
  intros Hi Hc Ht Hb.
  assert (Hshape : exists rest,
    trace (createAction (S fuel) w u options) =
      trace (ensureConfig w u)
      ++ SpinnerStart ("Fetching NFTs from collection " +++ collection +++ "...")
      :: pageRequest collection 1 :: rest).
  { unfold createAction. rewrite trace_tryCatch, trace_bind.
    unfold gatherWebhookData at 1. rewrite trace_bind, Hb, trace_bind.
    unfold collectionStage at 1. rewrite Hc, Ht.
    destruct (trace_processCollectionOption fuel w u collection []) as [r Hr].
    rewrite Hr. rewrite <- !app_assoc. cbn [app]. eexists. reflexivity. }
  destruct Hshape as [rest Hshape]. exists rest.
  assert (Herrors : forall message,
    In (ConsoleError message) (trace (createAction (S fuel) w u options)) ->
    In (ConsoleError message) rest).
  { intros message Hin. rewrite Hshape in Hin. apply in_app_or in Hin.
    destruct Hin as [Hin | [Hin | [Hin | Hin]]];
      [| discriminate Hin | discriminate Hin | exact Hin].
    exfalso.
    pose proof (traceAll_ensureConfig notConsoleError
                  (fun _ _ => eq_refl) (fun _ _ => eq_refl)
                  (fun _ => eq_refl) (fun _ => eq_refl) w u) as Hquiet.
    unfold traceAll in Hquiet. rewrite forallb_forall in Hquiet.
    specialize (Hquiet _ Hin). discriminate Hquiet. }
  split; [exact Hshape | split; [exact Herrors|]].
  intros Hmissing acc Hacc.
  destruct (commandLineWebhookData_missing options acc Hmissing)
    as (Hexit & error & hint & Herr & Htrace).
  split.
  - rewrite createAction_result, gatherWebhookData_result, Hb, Hacc, Hi, Hexit.
    reflexivity.
  - exists error. split; [exact Herr|]. apply Herrors.
    unfold createAction. rewrite trace_tryCatch. apply in_or_app. left.
    apply In_trace_bind_l. unfold gatherWebhookData.
    rewrite trace_bind, Hb. apply in_or_app. right.
    rewrite trace_bind, Hacc, Hi. apply in_or_app. right.
    rewrite Htrace. left. reflexivity.
Qed.

(** The command line with [--collection COL] and without [--url]. *)
Lemma C2_collection_before_validation_witness :
  exists rest,
    trace (createAction 1 sampleWorld sampleUser
             (commandLine None (Some "raw") (Some "SWAP") None (Some "COL")))
    = [] ++ SpinnerStart "Fetching NFTs from collection COL..."
         :: pageRequest "COL" 1 :: rest
    /\ exists error, In error presenceErrors /\ In (ConsoleError error) rest.
Proof.
  destruct (C2_collection_before_validation 0 sampleWorld sampleUser
              (commandLine None (Some "raw") (Some "SWAP") None (Some "COL"))
              "COL" true eq_refl eq_refl eq_refl eq_refl)
    as (rest & Hshape & _ & Hmissing).
  exists rest. split; [exact Hshape|].
  destruct (Hmissing eq_refl ["B"; "C"] eq_refl) as [_ Herror]. exact Herror.
Defined.

(** * Further properties *)

(** ** The collection lookup, whatever the service answers *)

Lemma fetchPages_requests fuel w collection :
  forall page acc,
  exists k, k <= fuel
    /\ trace (fetchPages fuel w collection page acc)
       = map (pageRequest collection) (seq page k)
    /\ (result (fetchPages fuel w collection page acc) <> Pending -> 1 <= k).
Proof.
  induction fuel as [|fuel IH]; intros page acc.
  - exists 0. repeat split; [lia | intros H; contradiction H; reflexivity].
  - rewrite fetchPages_S, bind_emit. cbn [trace result fst snd].
    assert (One : forall (r : IO (list string)),
               trace r = [] ->
               exists k, k <= S fuel
                 /\ pageRequest collection page :: trace r
                    = map (pageRequest collection) (seq page k)
                 /\ (result r <> Pending -> 1 <= k)).
    { intros r Hr. exists 1. rewrite Hr. repeat split; lia. }
    destruct (getAssetsByGroupReply w collection page) as [[[[its|]]|]| | |];
      try (apply One; reflexivity).
    destruct (length its =? 0); [apply One; reflexivity|].
    destruct (length its <? pageLimit); [apply One; reflexivity|].
    destruct (IH (page + 1) (acc ++ map id its)) as (k & Hk & Ht & _).
    exists (S k). rewrite Ht. repeat split; [lia | | lia].
    cbn [seq map]. rewrite Nat.add_1_r. reflexivity.
Qed.

(** X1: whatever the service answers, the lookup asks for the pages 1, 2,
    3, ... one after the other, each with limit 1000 and for the same
    collection, and does nothing else; at most [fuel] pages, and at least
    one when it comes to an end. *)
Theorem X1_pages_are_consecutive fuel w collection :
  exists k, k <= fuel
    /\ trace (getNftAddressesFromCollection fuel w collection)
       = map (pageRequest collection) (seq 1 k)
    /\ requestedPages (trace (getNftAddressesFromCollection fuel w collection))
       = seq 1 k
    /\ (result (getNftAddressesFromCollection fuel w collection) <> Pending -> 1 <= k).
Proof.
  destruct (fetchPages_requests fuel w collection 1 []) as (k & Hk & Ht & Hr).
  exists k. unfold getNftAddressesFromCollection. rewrite Ht.
  rewrite requestedPages_pageRequests. repeat split; assumption.
Qed.

Lemma fetchPages_gathers fuel w collection :
  forall page acc addresses,
    result (fetchPages fuel w collection page acc) = Return addresses ->
    exists more,
      addresses = acc ++ more
      /\ pageLimit * (length (trace (fetchPages fuel w collection page acc)) - 1)
         <= length more.
Proof.
  induction fuel as [|fuel IH]; intros page acc addresses; [discriminate|].
  rewrite fetchPages_S, bind_emit. cbn [trace result fst snd].
  assert (Last : forall more,
             result (ret (acc ++ more)) = Return addresses ->
             exists more',
               addresses = acc ++ more'
               /\ pageLimit * (length (pageRequest collection page
                                         :: trace (ret (acc ++ more))) - 1)
                  <= length more').
  { intros more H. injection H as <-. exists more.
    split; [reflexivity | cbn; lia]. }
  assert (Last0 : result (ret acc) = Return addresses ->
             exists more',
               addresses = acc ++ more'
               /\ pageLimit * (length (pageRequest collection page
                                         :: trace (ret acc)) - 1)
                  <= length more').
  { intros H. injection H as <-. exists [].
    split; [symmetry; apply app_nil_r | cbn; lia]. }
  destruct (getAssetsByGroupReply w collection page) as [[[[its|]]|]| | |];
    try discriminate; try exact Last0.
  destruct (length its =? 0); [exact Last0|].
  destruct (Nat.ltb_spec (length its) pageLimit) as [Hlt|Hge].
  - apply Last.
  - intros H. destruct (IH _ _ _ H) as (more & -> & Hmore).
    exists (map id its ++ more). rewrite <- app_assoc. split; [reflexivity|].
    rewrite length_app, length_map.
    cbn [length].
    destruct (length (trace (fetchPages fuel w collection (page + 1)
                               (acc ++ map id its)))) as [|n];
      cbn [Nat.sub] in *; nia.
Qed.

(** X2: when the lookup returns after k requests, it returns at least
    1000 (k - 1) addresses: every page but the last one gave its full
    thousand. *)
Theorem X2_addresses_lower_bound fuel w collection addresses :
  result (getNftAddressesFromCollection fuel w collection) = Return addresses ->
  pageLimit
    * (length (requestedPages (trace (getNftAddressesFromCollection fuel w collection))) - 1)
  <= length addresses.
Proof.
  intros H. unfold getNftAddressesFromCollection in *.
  destruct (fetchPages_gathers _ _ _ _ _ _ H) as (more & -> & Hmore).
  destruct (fetchPages_requests fuel w collection 1 []) as (k & _ & Ht & _).
  rewrite Ht in Hmore |- *. rewrite requestedPages_pageRequests.
  rewrite length_map in Hmore. cbn [app]. exact Hmore.
Qed.

(** The sample collection BIG: three requests, at least 2000 addresses. *)
Lemma X2_addresses_lower_bound_witness :
  pageLimit
    * (length (requestedPages
                 (trace (getNftAddressesFromCollection 5 sampleWorld "BIG"))) - 1)
  <= length (map id (repeat sampleAsset 1000 ++ repeat sampleAsset 1000
                     ++ repeat sampleAsset 10)).
Proof.
  apply (X2_addresses_lower_bound 5 sampleWorld "BIG"). reflexivity.
Defined.

Lemma fetchPages_failed fuel w collection page acc :
  failedPage w collection page ->
  fetchPages (S fuel) w collection page acc =
  ([pageRequest collection page],
   Throw (errorMessage "Error fetching NFT addresses: "
            (getAssetsByGroupReply w collection page))).
Proof.
  intros Hfail. rewrite fetchPages_S, bind_emit.
  destruct (getAssetsByGroupReply w collection page) as [r| | |] eqn:E;
    [exfalso; exact (Hfail r E) | reflexivity ..].
Qed.

Lemma fetchPages_full_then_failed (full : list (list Asset)) :
  forall fuel w collection page acc,
    (forall k its, nth_error full k = Some its ->
                   fullPage w collection (page + k) its) ->
    failedPage w collection (page + length full) ->
    length full < fuel ->
    fetchPages fuel w collection page acc =
    (map (pageRequest collection) (seq page (S (length full))),
     Throw (errorMessage "Error fetching NFT addresses: "
              (getAssetsByGroupReply w collection (page + length full)))).
Proof.
  induction full as [|its full IH]; intros fuel w collection page acc Hfull Hfail Hfuel.
  - destruct fuel as [|fuel]; [cbn in Hfuel; lia|].
    cbn [length] in *. rewrite Nat.add_0_r in *.
    rewrite (fetchPages_failed _ _ _ _ _ Hfail). reflexivity.
  - destruct fuel as [|fuel]; [cbn in Hfuel; lia|].
    assert (Hfirst : fullPage w collection page its).
    { specialize (Hfull 0 its eq_refl). rewrite Nat.add_0_r in Hfull. exact Hfull. }
    rewrite (fetchPages_full _ _ _ _ _ _ Hfirst).
    cbn [length] in *.
    rewrite (IH fuel w collection (page + 1) (acc ++ map id its)).
    + cbn [trace result fst snd seq map]. rewrite Nat.add_1_r.
      replace (S page + length full) with (page + S (length full)) by lia.
      reflexivity.
    + intros k its' Hk. specialize (Hfull (S k) its' Hk).
      replace (page + 1 + k) with (page + S k) by lia. exact Hfull.
    + replace (page + 1 + length full) with (page + S (length full)) by lia.
      exact Hfail.
    + lia.
Qed.

(** X3: when the request for a page fails after full pages, the lookup
    throws the error of that request (API error with status and body, no
    response, or the message of the request that could not be set up) and
    the addresses of the pages before it are lost; the pages up to the
    failing one have been requested and none after it. *)
Theorem X3_failed_page_loses_addresses fuel w collection (full : list (list Asset)) :
  (forall k its, nth_error full k = Some its ->
                 fullPage w collection (1 + k) its) ->
  failedPage w collection (1 + length full) ->
  length full < fuel ->
  result (getNftAddressesFromCollection fuel w collection) =
    Throw (errorMessage "Error fetching NFT addresses: "
             (getAssetsByGroupReply w collection (1 + length full)))
  /\ requestedPages (trace (getNftAddressesFromCollection fuel w collection))
     = seq 1 (S (length full))
  /\ (forall status data,
         getAssetsByGroupReply w collection (1 + length full)
           = ErrorResponse status data ->
         result (getNftAddressesFromCollection fuel w collection) =
           Throw ("API Error: " +++ JS.ofNat status +++ " - " +++ data)).
Proof.
  intros Hfull Hfail Hfuel. unfold getNftAddressesFromCollection.
  rewrite (fetchPages_full_then_failed full fuel w collection 1 [] Hfull Hfail Hfuel).
  cbn [trace result fst snd]. rewrite requestedPages_pageRequests.
  repeat split. intros status data ->. reflexivity.
Qed.

(** BIG with the third page failing with status 429: three requests, the
    2000 addresses of the first two pages are not returned. *)
Lemma X3_failed_page_loses_addresses_witness :
  result (getNftAddressesFromCollection 3 (failingWorld 3) "BIG")
    = Throw "API Error: 429 - {}"
  /\ requestedPages (trace (getNftAddressesFromCollection 3 (failingWorld 3) "BIG"))
     = [1; 2; 3].
Proof.
  destruct (X3_failed_page_loses_addresses 3 (failingWorld 3) "BIG"
              [repeat sampleAsset 1000; repeat sampleAsset 1000])
    as (Hr & Hp & _).
  - intros k its Hk. destruct k as [|[|k]]; cbn in Hk.
    + injection Hk as <-. split; reflexivity.
    + injection Hk as <-. split; reflexivity.
    + destruct k; discriminate Hk.
  - intros r H. discriminate H.
  - cbn. lia.
  - split; [exact Hr | exact Hp].
Defined.

(** ** Failures of the collection lookup in the [create] action *)

(** X4: a lookup of the collection that throws does not end the creation.
    In the action the spinner fails with the message, the command says
    that it continues without the collection and [accountAddresses] keeps
    its value; in the interactive prompt the spinner fails with the message,
    the addresses keep their value and count as not added. *)
Theorem X4_collection_failure_is_not_fatal fuel w u collection acc message :
  result (getNftAddressesFromCollection fuel w collection) = Throw message ->
  JS.truthy collection = true ->
  processCollectionOption fuel w u collection acc =
    (SpinnerStart ("Fetching NFTs from collection " +++ collection +++ "...")
       :: trace (getNftAddressesFromCollection fuel w collection)
       ++ [ SpinnerFail ("Failed to fetch NFTs from collection: " +++ message);
            ConsoleLog "Continuing without collection NFTs..." ],
     Return acc)
  /\ addCollectionAddresses fuel w u true collection acc =
       (SpinnerStart ("Fetching NFTs from collection " +++ collection +++ "...")
          :: trace (getNftAddressesFromCollection fuel w collection)
          ++ [ SpinnerFail ("Failed to fetch NFTs from collection: " +++ message) ],
        Return (acc, false)).
Proof.
  intros Hthrow Ht. unfold processCollectionOption, addCollectionAddresses.
  rewrite Ht. cbn [andb]. rewrite !bind_emit.
  destruct (getNftAddressesFromCollection fuel w collection) as [t r].
  cbn [result snd] in Hthrow. subst r.
  split; reflexivity.
Qed.

(** COL with its first page failing: the action goes on with no address
    from the collection. *)
Lemma X4_collection_failure_is_not_fatal_witness :
  processCollectionOption 1 (failingWorld 1) sampleUser "COL" [] =
    ([ SpinnerStart "Fetching NFTs from collection COL...";
       pageRequest "COL" 1;
       SpinnerFail "Failed to fetch NFTs from collection: API Error: 429 - {}";
       ConsoleLog "Continuing without collection NFTs..." ],
     Return []).
Proof.
  exact (proj1 (X4_collection_failure_is_not_fatal 1 (failingWorld 1) sampleUser
                  "COL" [] "API Error: 429 - {}" eq_refl eq_refl)).
Defined.

(** ** The outcome of the [create] action *)

Lemma createAction_run fuel w u options d :
  result (gatherWebhookData fuel w u options) = Return d ->
  createAction fuel w u options =
  (trace (gatherWebhookData fuel w u options)
     ++ SpinnerStart "Creating webhook..."
     :: HttpRequest "POST" (config_baseUrl w +++ "/webhooks") (WebhookBody d)
     :: match createWebhookReply w d with
        | Response webhook =>
            [ SpinnerSucceed "Webhook created successfully";
              ConsoleLog (formatWebhook webhook) ]
        | failure =>
            [ ConsoleError ("Error creating webhook: " +++
                            errorMessage "Error setting up request: " failure) ]
        end,
   match createWebhookReply w d with
   | Response _ => Return tt
   | _ => Exit 1
   end).
Proof.
  intros Hd. unfold createAction, createWebhook, request.
  destruct (gatherWebhookData fuel w u options) as [t r].
  cbn [result trace fst snd] in Hd |- *. subst r.
  cbn [bind emit fst snd app String.eqb Ascii.eqb Bool.eqb orb].
  destruct (createWebhookReply w d);
    cbn [bind tryCatch emit ret throw exit fst snd app errorMessage];
    rewrite ?app_nil_r, <- ?app_assoc; reflexivity.
Qed.

(** X5: the [create] action sends at most one creation request and never
    repeats it.  When the service does not accept it, the command writes
    [Error creating webhook:] and the error with [console.error] as its last
    output and exits with status 1; when it does, the command shows the
    webhook the service returned, not the draft, and returns. *)
Theorem X5_create_is_sent_once fuel w u options :
  length (submittedDrafts (trace (createAction fuel w u options))) <= 1
  /\ (forall d,
         In d (submittedDrafts (trace (createAction fuel w u options))) ->
         (forall webhook,
             createWebhookReply w d = Response webhook ->
             result (createAction fuel w u options) = Return tt
             /\ exists before,
                  trace (createAction fuel w u options) =
                  before ++ [ SpinnerSucceed "Webhook created successfully";
                              ConsoleLog (formatWebhook webhook) ])
         /\ ((forall webhook, createWebhookReply w d <> Response webhook) ->
             result (createAction fuel w u options) = Exit 1
             /\ exists before,
                  trace (createAction fuel w u options) =
                  before ++ [ ConsoleError
                                ("Error creating webhook: " +++
                                 errorMessage "Error setting up request: "
                                   (createWebhookReply w d)) ])).
Proof.
  split.
  - rewrite createAction_submitted.
    destruct (result (gatherWebhookData fuel w u options)); cbn; lia.
  - intros d Hin. apply submitted_gathered in Hin.
    rewrite (createAction_run fuel w u options d Hin). cbn [trace result fst snd].
    split.
    + intros webhook ->. split; [reflexivity|].
      exists (trace (gatherWebhookData fuel w u options)
              ++ [ SpinnerStart "Creating webhook...";
                   HttpRequest "POST" (config_baseUrl w +++ "/webhooks") (WebhookBody d) ]).
      rewrite <- app_assoc. reflexivity.
    + intros Hfail.
      destruct (createWebhookReply w d) as [webhook| | |];
        [exfalso; exact (Hfail webhook eq_refl) | ..];
        (split; [reflexivity|];
         exists (trace (gatherWebhookData fuel w u options)
                 ++ [ SpinnerStart "Creating webhook...";
                      HttpRequest "POST" (config_baseUrl w +++ "/webhooks")
                        (WebhookBody d) ]);
         rewrite <- app_assoc; reflexivity).
Qed.

(** A service that rejects the creation with status 400: one request,
    status 1. *)
Lemma X5_create_is_sent_once_witness :
  length (submittedDrafts
            (trace (createAction 1 rejectingWorld sampleUser
                      (commandLine (Some "https://example.org/hook") (Some "raw")
                         (Some "SWAP") (Some "A") None)))) = 1
  /\ result (createAction 1 rejectingWorld sampleUser
               (commandLine (Some "https://example.org/hook") (Some "raw")
                  (Some "SWAP") (Some "A") None)) = Exit 1.
Proof.
  split; [reflexivity|].
  destruct (X5_create_is_sent_once 1 rejectingWorld sampleUser
              (commandLine (Some "https://example.org/hook") (Some "raw")
                 (Some "SWAP") (Some "A") None)) as [_ H].
  refine (proj1 (proj2 (H _ (or_introl eq_refl)) _)).
  intros webhook Hw. discriminate Hw.
Defined.

(** ** The drafts of the command-line mode *)

Lemma truthy_opt_Some o :
  JS.truthy_opt o = true -> exists s, o = Some s /\ JS.truthy s = true.
Proof.
  destruct o as [s|]; [|discriminate]. intros H. exists s. split; [reflexivity | exact H].
Qed.

Lemma parseAddresses_not_nil addresses : parseAddresses addresses <> [].
Proof.
  unfold parseAddresses. destruct (JS.split addresses) eqn:E;
    [exfalso; exact (split_not_nil addresses E) | discriminate].
Qed.

Lemma parseTransactionTypes_not_nil types : parseTransactionTypes types <> [].
Proof.
  unfold parseTransactionTypes. destruct (JS.split types) eqn:E;
    [exfalso; exact (split_not_nil types E) | discriminate].
Qed.

Lemma commandLineWebhookData_Return options acc d :
  result (commandLineWebhookData options acc) = Return d ->
  exists url type types,
    opt_url options = Some url /\ JS.truthy url = true
    /\ opt_type options = Some type /\ JS.truthy type = true
    /\ opt_types options = Some types /\ JS.truthy types = true
    /\ forallb isTransactionType (parseTransactionTypes types) = true
    /\ ((length acc =? 0) && negb (JS.truthy_opt (opt_addresses options))) = false
    /\ JS.includes WEBHOOK_TYPES type = true
    /\ invalidStatus options = false
    /\ d = {| webhookURL := url;
              webhookType := type;
              transactionTypes := parseTransactionTypes types;
              accountAddresses := acc ++ explicitAddresses options;
              authHeader := opt_authHeader options;
              txnStatus := if JS.truthy_opt (opt_status options)
                           then opt_status options else None;
              encoding := None;
              encoding_config := None |}.
Proof.
  intros Hd.
  destruct (JS.truthy_opt (opt_url options) && JS.truthy_opt (opt_type options)
            && JS.truthy_opt (opt_types options)) eqn:Hp.
  - apply andb_true_iff in Hp as [Hp Hs]. apply andb_true_iff in Hp as [Hu Ht].
    apply truthy_opt_Some in Hu as (url & Hu & Tu).
    apply truthy_opt_Some in Ht as (type & Ht & Tt).
    apply truthy_opt_Some in Hs as (types & Hs & Ts).
    rewrite (commandLineWebhookData_present options acc url type types
               Hu Tu Ht Tt Hs Ts) in Hd.
    exists url, type, types.
    destruct (forallb isTransactionType (parseTransactionTypes types));
      cbn [negb] in Hd; [|discriminate Hd].
    destruct ((length acc =? 0) && negb (JS.truthy_opt (opt_addresses options)));
      [discriminate Hd|].
    destruct (JS.includes WEBHOOK_TYPES type); cbn [negb] in Hd; [|discriminate Hd].
    destruct (invalidStatus options); [discriminate Hd|].
    injection Hd as <-. repeat split; assumption.
  - destruct (commandLineWebhookData_missing options acc Hp) as [He _].
    rewrite He in Hd. discriminate Hd.
Qed.

(** X6: every draft the command-line mode submits has passed all the
    checks: the URL is the non-empty [--url]; the type is one of the six
    webhook types; the transaction types are the tokens of [--types], at
    least one and each in the enumeration; there is at least one address;
    the status filter is absent or one of all, success, failed; the
    authorization header is [--auth-header] as given; no encoding is set. *)
Theorem X6_command_line_draft_is_valid fuel w u options d :
  opt_interactive options = false ->
  In d (submittedDrafts (trace (createAction fuel w u options))) ->
  opt_url options = Some (webhookURL d) /\ webhookURL d <> ""
  /\ In (webhookType d) WEBHOOK_TYPES
  /\ transactionTypes d <> []
  /\ (forall type, In type (transactionTypes d) -> In type TRANSACTION_TYPES)
  /\ accountAddresses d <> []
  /\ (txnStatus d = None
      \/ exists status, txnStatus d = Some status /\ In status TXN_STATUS_OPTIONS)
  /\ authHeader d = opt_authHeader options
  /\ encoding d = None /\ encoding_config d = None.
Proof.
  intros Hi Hin. apply submitted_gathered in Hin.
  apply (gathered_commandLine _ _ _ _ _ Hi) in Hin as (acc & _ & Hd).
  apply commandLineWebhookData_Return in Hd
    as (url & type & types & Hu & Tu & Ht & Tt & Hs & Ts & Hall & Ha & Hty & Hst & ->).
  cbn [webhookURL webhookType transactionTypes accountAddresses authHeader
       txnStatus encoding encoding_config].
  assert (Hincl : forall xs x, JS.includes xs x = true -> In x xs).
  { intros xs x H. unfold JS.includes in H. apply existsb_exists in H as (y & Hy & E).
    apply String.eqb_eq in E. subst y. exact Hy. }
  repeat split.
  - exact Hu.
  - intros ->. discriminate Tu.
  - apply Hincl. exact Hty.
  - apply parseTransactionTypes_not_nil.
  - intros t Hin. rewrite forallb_forall in Hall. apply Hincl. exact (Hall t Hin).
  - unfold explicitAddresses.
    destruct acc as [|a acc]; [|discriminate]. cbn [length Nat.eqb andb app] in *.
    apply negb_false_iff in Ha. apply truthy_opt_Some in Ha as (s & -> & ->).
    apply parseAddresses_not_nil.
  - unfold invalidStatus in Hst. destruct (opt_status options) as [status|];
      cbn [JS.truthy_opt]; [|left; reflexivity].
    destruct (JS.truthy status); [|left; reflexivity].
    right. exists status. split; [reflexivity|]. apply Hincl.
    cbn [andb] in Hst. apply negb_false_iff in Hst. exact Hst.
Qed.

(** The draft of a complete command line. *)
Lemma X6_command_line_draft_is_valid_witness :
  exists d,
    In d (submittedDrafts
            (trace (createAction 1 sampleWorld sampleUser
                      (commandLine (Some "https://example.org/hook") (Some "raw")
                         (Some "swap, nft_sale") (Some "A") None))))
    /\ transactionTypes d = ["SWAP"; "NFT_SALE"]
    /\ In (webhookType d) WEBHOOK_TYPES
    /\ accountAddresses d <> [].
Proof.
  eexists. split; [left; reflexivity|]. split; [reflexivity|].
  destruct (X6_command_line_draft_is_valid 1 sampleWorld sampleUser
              (commandLine (Some "https://example.org/hook") (Some "raw")
                 (Some "swap, nft_sale") (Some "A") None) _
              eq_refl (or_introl eq_refl))
    as (_ & _ & Hty & _ & _ & Ha & _).
  split; [exact Hty | exact Ha].
Defined.

(** ** The drafts of the interactive mode *)

Lemma accepted_map {I J} (validate : J -> option string) (f : I -> J) entries x :
  accepted validate (map f entries) = Some x ->
  exists entry, In entry entries /\ x = f entry /\ validate x = None.
Proof.
  intros H. apply accepted_In in H as [Hin Hv].
  apply in_map_iff in Hin as (entry & <- & Hin).
  exists entry. repeat split; assumption.
Qed.

Lemma askBasicQuestions_valid u basic :
  result (askBasicQuestions u) = Return basic ->
  In (ans_webhookURL basic) (in_webhookURL u)
  /\ JS.trim (ans_webhookURL basic) <> ""
  /\ ans_transactionTypes basic <> []
  /\ exists checked,
       In checked (in_transactionTypes u)
       /\ ans_transactionTypes basic = List.filter (JS.includes checked) TRANSACTION_TYPES.
Proof.
  unfold askBasicQuestions. intros H.
  apply result_bind_Return in H as [url [Hurl H]].
  apply result_bind_Return in H as [ty [_ H]].
  apply result_bind_Return in H as [auth [_ H]].
  apply result_bind_Return in H as [st [_ H]].
  apply result_bind_Return in H as [tys [Htys H]].
  rewrite result_ret in H. injection H as <-.
  cbn [ans_webhookURL ans_transactionTypes].
  rewrite result_promptValidated in Hurl.
  destruct (accepted _ (in_webhookURL u)) as [url'|] eqn:Eu; [|discriminate].
  injection Hurl as <-. apply accepted_In in Eu as [Hin Hv].
  apply notBlank_None in Hv.
  unfold promptCheckbox in Htys. rewrite result_promptValidated in Htys.
  destruct (accepted _ (map _ (in_transactionTypes u))) as [tys'|] eqn:Et;
    [|discriminate].
  injection Htys as <-. apply accepted_map in Et as (checked & Hc & -> & Hlen).
  repeat split; try assumption.
  - intros E. rewrite E in Hlen. discriminate Hlen.
  - exists checked. split; [exact Hc | reflexivity].
Qed.

Lemma NoDup_TRANSACTION_TYPES : NoDup TRANSACTION_TYPES.
Proof.
  unfold TRANSACTION_TYPES.
  repeat (constructor; [cbn [In]; intuition discriminate|]). constructor.
Qed.

(** X7: every draft the interactive mode submits has a URL that is not
    blank, one of the six webhook types, and at least one transaction type;
    the transaction types are the checked entries of the enumeration in the
    order of the enumeration, each once, whatever the order in which they
    were checked; an authorization header left empty is absent from the
    draft, never an empty string; no encoding is set. *)
Theorem X7_interactive_draft_is_valid fuel w u options d :
  opt_interactive options = true ->
  In d (submittedDrafts (trace (createAction fuel w u options))) ->
  In (webhookURL d) (in_webhookURL u) /\ JS.trim (webhookURL d) <> ""
  /\ In (webhookType d) WEBHOOK_TYPES
  /\ transactionTypes d <> []
  /\ (exists checked,
         In checked (in_transactionTypes u)
         /\ transactionTypes d = List.filter (JS.includes checked) TRANSACTION_TYPES)
  /\ NoDup (transactionTypes d)
  /\ (forall type, In type (transactionTypes d) -> In type TRANSACTION_TYPES)
  /\ authHeader d = (if JS.truthy (in_authHeader u) then Some (in_authHeader u) else None)
  /\ authHeader d <> Some ""
  /\ encoding d = None /\ encoding_config d = None.
Proof.
  intros Hi Hin. apply submitted_gathered in Hin.
  apply (gathered_interactive _ _ _ _ _ Hi) in Hin as (prefilled & _ & Hd).
  apply promptForWebhookData_result in Hd
    as (basic & uc & ca & acc1 & added & acc2 & acc3 & Hb & _ & _ & _ & _ & ->).
  destruct (askBasicQuestions_valid u basic Hb) as (Hurl & Hnb & Hne & checked & Hc & Hf).
  destruct (askBasicQuestions_result u basic Hb) as (Hty & _ & Hauth).
  cbn [webhookURL webhookType transactionTypes authHeader encoding encoding_config].
  repeat split; try assumption.
  - apply nth_error_In in Hty. exact Hty.
  - exists checked. split; assumption.
  - rewrite Hf. apply NoDup_filter. exact NoDup_TRANSACTION_TYPES.
  - intros type Ht. rewrite Hf in Ht. apply filter_In in Ht as [Ht _]. exact Ht.
  - rewrite Hauth. reflexivity.
  - rewrite Hauth. destruct (in_authHeader u) as [|c r]; cbn; discriminate.
Qed.

(** The draft of the sample interactive run: SWAP only, no authorization
    header. *)
Lemma X7_interactive_draft_is_valid_witness :
  exists d,
    In d (submittedDrafts
            (trace (createAction 1 sampleWorld sampleUser (interactiveLine None))))
    /\ transactionTypes d = ["SWAP"]
    /\ NoDup (transactionTypes d)
    /\ authHeader d = None.
Proof.
  eexists. split; [left; reflexivity|]. split; [reflexivity|].
  destruct (X7_interactive_draft_is_valid 1 sampleWorld sampleUser
              (interactiveLine None) _ eq_refl (or_introl eq_refl))
    as (_ & _ & _ & _ & _ & Hnd & _ & Hauth & _).
  split; [exact Hnd | exact Hauth].
Defined.

(** ** The checks of the command-line mode *)

Lemma consoleErrors_app t1 t2 :
  consoleErrors (t1 ++ t2) = consoleErrors t1 ++ consoleErrors t2.
Proof.
  induction t1 as [|e t1 IH]; [reflexivity|].
  destruct e; cbn; rewrite ?IH; reflexivity.
Qed.

Lemma oneVerdict_bind {A B} (m : IO A) (k : A -> IO B) :
  oneVerdict m -> (forall a, oneVerdict (k a)) -> oneVerdict (bind m k).
Proof.
  unfold oneVerdict. intros Hm Hk.
  rewrite result_bind, trace_bind, consoleErrors_app.
  destruct (result m) as [a| |c|]; try contradiction.
  - specialize (Hk a). rewrite Hm. cbn [app]. exact Hk.
  - rewrite app_nil_r. exact Hm.
Qed.

Lemma oneVerdict_required option error hint :
  oneVerdict (required option error hint).
Proof.
  unfold required. destruct option as [value|]; [destruct (JS.truthy value)|];
    cbv [oneVerdict]; cbn; auto.
Qed.

Lemma oneVerdict_validateTransactionTypes types :
  oneVerdict (validateTransactionTypes types).
Proof.
  induction types as [|t ts IH]; [reflexivity|].
  cbn [validateTransactionTypes].
  destruct (JS.includes TRANSACTION_TYPES t); cbn [negb]; [exact IH|].
  unfold oneVerdict. cbn. auto.
Qed.

Lemma oneVerdict_commandLineAddresses options acc :
  oneVerdict (commandLineAddresses options acc).
Proof.
  unfold commandLineAddresses. destruct (length acc =? 0).
  - apply oneVerdict_bind; [apply oneVerdict_required | intros a; reflexivity].
  - destruct (JS.truthy_opt (opt_addresses options)); reflexivity.
Qed.

Lemma validateTransactionTypes_valid types :
  forallb isTransactionType types = true -> validateTransactionTypes types = ret tt.
Proof.
  induction types as [|t ts IH]; [reflexivity|].
  cbn [forallb validateTransactionTypes]. unfold isTransactionType at 1.
  intros H. apply andb_true_iff in H as [Ht Hts]. rewrite Ht. exact (IH Hts).
Qed.

(** X8: the command-line mode gives exactly one verdict.  Either it
    returns a draft and has written nothing with [console.error], or it has
    written exactly one error there and exits with status 1: it stops at the
    first check that fails, and it never throws and never waits for
    input. *)
Theorem X8_one_error_per_run options acc :
  oneVerdict (commandLineWebhookData options acc)
  /\ (forall d, result (commandLineWebhookData options acc) = Return d ->
                consoleErrors (trace (commandLineWebhookData options acc)) = [])
  /\ (result (commandLineWebhookData options acc) = Exit 1
      \/ exists d, result (commandLineWebhookData options acc) = Return d)
  /\ (result (commandLineWebhookData options acc) = Exit 1 ->
      length (consoleErrors (trace (commandLineWebhookData options acc))) = 1).
Proof.
  assert (H : oneVerdict (commandLineWebhookData options acc)).
  { unfold commandLineWebhookData.
    apply oneVerdict_bind; [apply oneVerdict_required | intros url].
    apply oneVerdict_bind; [apply oneVerdict_required | intros type].
    apply oneVerdict_bind; [apply oneVerdict_required | intros types].
    apply oneVerdict_bind; [apply oneVerdict_validateTransactionTypes | intros _].
    apply oneVerdict_bind; [apply oneVerdict_commandLineAddresses | intros addresses].
    apply oneVerdict_bind.
    { destruct (JS.includes WEBHOOK_TYPES type); cbn [negb];
        [reflexivity | unfold oneVerdict; cbn; auto]. }
    intros _. apply oneVerdict_bind; [|intros _; reflexivity].
    destruct (opt_status options) as [status|]; [|reflexivity].
    destruct (JS.truthy status && negb (JS.includes TXN_STATUS_OPTIONS status));
      [unfold oneVerdict; cbn; auto | reflexivity]. }
  split; [exact H|]. unfold oneVerdict in H.
  destruct (result (commandLineWebhookData options acc)) as [d| |c|];
    try contradiction.
  - repeat split.
    + intros d' _. exact H.
    + right. exists d. reflexivity.
    + discriminate.
  - destruct H as [-> H]. repeat split.
    + discriminate.
    + left. reflexivity.
    + intros _. exact H.
Qed.

(** X9: on a command line whose URL, type and types are in order, with no
    address from a collection and no [--addresses], the command reports that
    addresses are required and exits with status 1 without submitting
    anything; the webhook type and the status have not been looked at yet.
    This is also what happens when the user declines the collection. *)
Theorem X9_addresses_are_required fuel w u options url type types b :
  opt_interactive options = false ->
  opt_url options = Some url -> JS.truthy url = true ->
  opt_type options = Some type -> JS.truthy type = true ->
  opt_types options = Some types -> JS.truthy types = true ->
  forallb isTransactionType (parseTransactionTypes types) = true ->
  JS.truthy_opt (opt_addresses options) = false ->
  commandLineWebhookData options [] = (addressesRequired, Exit 1)
  /\ (result (ensureConfig w u) = Return b ->
      (opt_collection options = None \/ create_confirm u = false) ->
      forall acc,
        result (collectionStage fuel w u options []) = Return acc ->
        result (createAction fuel w u options) = Exit 1
        /\ submittedDrafts (trace (createAction fuel w u options)) = []
        /\ exists before,
             trace (createAction fuel w u options) = before ++ addressesRequired).
Proof.
  intros Hi Hu Tu Ht Tt Hs Ts Hall Ha.
  assert (Hcl : commandLineWebhookData options [] = (addressesRequired, Exit 1)).
  { unfold commandLineWebhookData, required.
    rewrite Hu, Tu, Ht, Tt, Hs, Ts. cbn [bind ret fst snd app].
    rewrite (validateTransactionTypes_valid _ Hall). cbn [bind ret fst snd app].
    unfold commandLineAddresses, required. cbn [length Nat.eqb].
    destruct (opt_addresses options) as [a|]; cbn [JS.truthy_opt] in Ha;
      [rewrite Ha|]; reflexivity. }
  split; [exact Hcl|].
  intros Hb Hdecl acc Hacc.
  assert (acc = []) as ->.
  { apply collectionStage_result in Hacc as [-> | (Hc & _ & c & Ho & _)];
      [reflexivity|].
    destruct Hdecl as [Hn | Hn]; [rewrite Hn in Ho; discriminate Ho
                                 | rewrite Hn in Hc; discriminate Hc]. }
  assert (Hg : result (gatherWebhookData fuel w u options) = Exit 1).
  { rewrite gatherWebhookData_result, Hb, Hacc, Hi, Hcl. reflexivity. }
  repeat split.
  - rewrite createAction_result, Hg. reflexivity.
  - rewrite createAction_submitted, Hg. reflexivity.
  - unfold createAction. rewrite trace_tryCatch, trace_bind, result_bind, Hg.
    rewrite !app_nil_r. unfold gatherWebhookData.
    rewrite trace_bind, Hb, trace_bind, Hacc, Hi, Hcl. cbn [trace fst].
    eexists. rewrite app_assoc. reflexivity.
Qed.

(** The collection COL declined on a command line without [--addresses]. *)
Lemma X9_addresses_are_required_witness :
  result (createAction 1 sampleWorld (withConfirm sampleUser false true)
            (commandLine (Some "https://example.org/hook") (Some "nonsense")
               (Some "SWAP") None (Some "COL"))) = Exit 1
  /\ submittedDrafts
       (trace (createAction 1 sampleWorld (withConfirm sampleUser false true)
                 (commandLine (Some "https://example.org/hook") (Some "nonsense")
                    (Some "SWAP") None (Some "COL")))) = [].
Proof.
  destruct (X9_addresses_are_required 1 sampleWorld (withConfirm sampleUser false true)
              (commandLine (Some "https://example.org/hook") (Some "nonsense")
                 (Some "SWAP") None (Some "COL"))
              "https://example.org/hook" "nonsense" "SWAP" true
              eq_refl eq_refl eq_refl eq_refl eq_refl eq_refl eq_refl eq_refl eq_refl)
    as [_ H].
  destruct (H eq_refl (or_intror eq_refl) [] eq_refl) as (Hr & Hs & _).
  split; [exact Hr | exact Hs].
Defined.

(** A command line whose token BOGUS is wrong, whose type is wrong and
    which has no address: one error, about the token. *)
Lemma X8_one_error_per_run_witness :
  consoleErrors
    (trace (commandLineWebhookData
              (commandLine (Some "https://example.org/hook") (Some "nonsense")
                 (Some "SWAP,BOGUS") None None) []))
  = ["Error: Invalid transaction type: BOGUS"]
  /\ length (consoleErrors
               (trace (commandLineWebhookData
                         (commandLine (Some "https://example.org/hook") (Some "nonsense")
                            (Some "SWAP,BOGUS") None None) []))) = 1.
Proof.
  split; [reflexivity|].
  exact (proj2 (proj2 (proj2 (X8_one_error_per_run
                                (commandLine (Some "https://example.org/hook")
                                   (Some "nonsense") (Some "SWAP,BOGUS") None None) [])))
           eq_refl).
Defined.

(** ** What the modes of the [create] action read and ask *)

Lemma ensureConfig_configured w u :
  JS.truthy (config_apiKey w) = true -> ensureConfig w u = ret true.
Proof. intros H. unfold ensureConfig. rewrite H. reflexivity. Qed.

(** X10: with [--interactive] the values of [--url], [--type], [--types],
    [--addresses], [--status] and [--auth-header] are not read: two command
    lines that agree on [--collection] run alike. *)
Theorem X10_interactive_ignores_field_options fuel w u o1 o2 :
  opt_interactive o1 = true -> opt_interactive o2 = true ->
  opt_collection o1 = opt_collection o2 ->
  createAction fuel w u o1 = createAction fuel w u o2.
Proof.
  intros H1 H2 Hc. unfold createAction, gatherWebhookData, collectionStage.
  rewrite H1, H2, Hc. reflexivity.
Qed.

(** An interactive run with a URL and a type on the command line is the
    run without them. *)
Lemma X10_interactive_ignores_field_options_witness :
  createAction 1 sampleWorld sampleUser
    {| opt_url := Some "https://elsewhere.example"; opt_type := Some "discord";
       opt_authHeader := Some "secret"; opt_status := Some "failed";
       opt_types := Some "VOTE"; opt_addresses := Some "Z";
       opt_collection := None; opt_interactive := true |}
  = createAction 1 sampleWorld sampleUser (interactiveLine None).
Proof.
  apply X10_interactive_ignores_field_options; reflexivity.
Defined.

(** X11: a command-line creation without [--collection], with the API key
    configured, asks nothing and waits for nothing: it puts no prompt, sends
    no request to the collection service, ends with a return or with status
    1, and runs the same whatever the user would answer and whatever the
    fuel. *)
Theorem X11_command_line_never_asks fuel w u options :
  opt_interactive options = false ->
  JS.truthy (config_apiKey w) = true ->
  JS.truthy_opt (opt_collection options) = false ->
  traceAll notPrompt (createAction fuel w u options)
  /\ requestedPages (trace (createAction fuel w u options)) = []
  /\ (result (createAction fuel w u options) = Return tt
      \/ result (createAction fuel w u options) = Exit 1)
  /\ (forall fuel' u', createAction fuel' w u' options = createAction fuel w u options).
Proof.
  intros Hi Hk Hc.
  assert (Hg : forall fuel u,
             gatherWebhookData fuel w u options = commandLineWebhookData options []).
  { intros fuel0 u0. unfold gatherWebhookData, collectionStage.
    rewrite (ensureConfig_configured w u0 Hk), Hi.
    destruct (opt_collection options) as [c|]; cbn [JS.truthy_opt] in Hc;
      [rewrite Hc|]; cbn [bind ret fst snd app];
      destruct (commandLineWebhookData options []) as [t [d|e|c'|]]; reflexivity. }
  assert (Hsame : forall fuel' u',
             createAction fuel' w u' options = createAction fuel w u options).
  { intros fuel' u'. unfold createAction. rewrite !Hg. reflexivity. }
  destruct (X8_one_error_per_run options []) as (_ & _ & Hverdict & _).
  assert (Hquiet : forall P : event -> bool,
             (forall text, P (ConsoleError text) = true) ->
             (forall text, P (ConsoleLog text) = true) ->
             (forall text, P (SpinnerStart text) = true) ->
             (forall text, P (SpinnerSucceed text) = true) ->
             (forall m url d, P (HttpRequest m url (WebhookBody d)) = true) ->
             traceAll P (createAction fuel w u options)).
  { intros P Perr Plog Pstart Psucceed Phttp. unfold createAction. rewrite Hg.
    apply traceAll_tryCatch;
      [|intros e; apply traceAll_bind;
                    [apply traceAll_emit, Perr | intros _; reflexivity]].
    apply traceAll_bind.
    - unfold commandLineWebhookData, required, commandLineAddresses.
      assert (Hv : forall types, traceAll P (validateTransactionTypes types)).
      { induction types as [|t ts IH]; [reflexivity|].
        cbn [validateTransactionTypes].
        destruct (JS.includes TRANSACTION_TYPES t); cbn [negb]; [exact IH|].
        apply traceAll_bind; [apply traceAll_emit, Perr | intros _].
        apply traceAll_bind; [apply traceAll_emit, Plog | intros _; reflexivity]. }
      repeat first
        [ reflexivity
        | apply Hv
        | progress unfold required
        | apply traceAll_emit; first [apply Perr | apply Plog]
        | apply traceAll_bind; [|intros ?]
        | match goal with
          | |- traceAll _ (if ?c then _ else _) => destruct c
          | |- traceAll _ (match ?x with _ => _ end) => destruct x
          end ].
    - intros d. apply traceAll_bind; [apply traceAll_emit, Pstart | intros _].
      unfold createWebhook, request.
      apply traceAll_bind;
        [apply traceAll_bind; [apply traceAll_emit, Phttp | intros _];
         destruct (createWebhookReply w d); reflexivity | intros webhook].
      apply traceAll_bind; [apply traceAll_emit, Psucceed | intros _].
      apply traceAll_emit, Plog. }
  repeat split.
  - apply Hquiet; intros; reflexivity.
  - assert (Hp : forall t, forallb
                   (fun e => match e with
                             | HttpRequest _ _ (AssetsByGroupBody _ _ _) => false
                             | _ => true
                             end) t = true -> requestedPages t = []).
    { induction t as [|e t IH]; [reflexivity|]. cbn [forallb]. intros H.
      apply andb_true_iff in H as [He Ht].
      destruct e as [| | | | | | | |m url b]; cbn; try exact (IH Ht).
      destruct b; try exact (IH Ht). discriminate He. }
    apply Hp. apply Hquiet; intros; reflexivity.
  - rewrite createAction_result, Hg.
    destruct Hverdict as [-> | [d ->]]; [right; reflexivity|].
    destruct (createWebhookReply w d); [left | right ..]; reflexivity.
  - exact Hsame.
Qed.

(** A complete command line on the sample service: no prompt, return. *)
Lemma X11_command_line_never_asks_witness :
  traceAll notPrompt
    (createAction 0 sampleWorld sampleUser
       (commandLine (Some "https://example.org/hook") (Some "raw")
          (Some "SWAP") (Some "A") None))
  /\ result (createAction 0 sampleWorld sampleUser
               (commandLine (Some "https://example.org/hook") (Some "raw")
                  (Some "SWAP") (Some "A") None)) = Return tt.
Proof.
  destruct (X11_command_line_never_asks 0 sampleWorld sampleUser
              (commandLine (Some "https://example.org/hook") (Some "raw")
                 (Some "SWAP") (Some "A") None) eq_refl eq_refl eq_refl)
    as (Hq & _ & _ & _).
  split; [exact Hq | reflexivity].
Defined.

(** X12: with [--collection] the command-line mode does ask: when the
    lookup finds addresses, the user is asked to confirm their number before
    any of the checks of the command line is made, and a refusal leaves the
    command with the addresses of [--addresses] only. *)
Theorem X12_command_line_asks_for_collection fuel w u options collection nftAddresses b :
  opt_interactive options = false ->
  result (ensureConfig w u) = Return b ->
  opt_collection options = Some collection -> JS.truthy collection = true ->
  result (getNftAddressesFromCollection fuel w collection) = Return nftAddresses ->
  nftAddresses <> [] ->
  In (collectionConfirmation nftAddresses) (trace (createAction fuel w u options))
  /\ collectionStage fuel w u options [] =
       (SpinnerStart ("Fetching NFTs from collection " +++ collection +++ "...")
          :: trace (getNftAddressesFromCollection fuel w collection)
          ++ [ SpinnerSucceed ("Found " +++ JS.ofNat (length nftAddresses) +++
                               " NFTs in collection " +++ collection);
               collectionConfirmation nftAddresses;
               ConsoleLog (if create_confirm u
                           then "Added " +++ JS.ofNat (length nftAddresses) +++
                                " NFT addresses to the webhook."
                           else "NFT addresses not added.") ],
        Return (if create_confirm u then nftAddresses else []))
  /\ (create_confirm u = false ->
      forall d, In d (submittedDrafts (trace (createAction fuel w u options))) ->
                accountAddresses d = explicitAddresses options).
Proof.
  intros Hi Hb Hc Ht Hn Hne.
  assert (Hstage : collectionStage fuel w u options [] =
       (SpinnerStart ("Fetching NFTs from collection " +++ collection +++ "...")
          :: trace (getNftAddressesFromCollection fuel w collection)
          ++ [ SpinnerSucceed ("Found " +++ JS.ofNat (length nftAddresses) +++
                               " NFTs in collection " +++ collection);
               collectionConfirmation nftAddresses;
               ConsoleLog (if create_confirm u
                           then "Added " +++ JS.ofNat (length nftAddresses) +++
                                " NFT addresses to the webhook."
                           else "NFT addresses not added.") ],
        Return (if create_confirm u then nftAddresses else []))).
  { unfold collectionStage, processCollectionOption. rewrite Hc, Ht, bind_emit.
    destruct (getNftAddressesFromCollection fuel w collection) as [t r].
    cbn [result snd trace fst] in Hn |- *. subst r.
    cbn [bind tryCatch fst snd].
    destruct nftAddresses as [|a l]; [contradiction Hne; reflexivity|].
    cbn [length Nat.eqb promptConfirm bind emit fst snd app].
    unfold collectionConfirmation.
    destruct (create_confirm u); cbn [bind emit ret fst snd app length];
      rewrite ?app_nil_r; reflexivity. }
  split; [|split; [exact Hstage|]].
  - unfold createAction. rewrite trace_tryCatch. apply in_or_app. left.
    apply In_trace_bind_l. unfold gatherWebhookData.
    rewrite trace_bind, Hb. apply in_or_app. right.
    apply In_trace_bind_l. rewrite Hstage. cbn [trace fst].
    right. apply in_or_app. right. right. left. reflexivity.
  - intros Hdecl d Hin. apply submitted_gathered in Hin.
    apply (gathered_commandLine _ _ _ _ _ Hi) in Hin as (acc & Hacc & Hd).
    rewrite Hstage, Hdecl in Hacc. cbn [result snd] in Hacc. injection Hacc as <-.
    apply commandLineWebhookData_Return in Hd
      as (url & type & types & _ & _ & _ & _ & _ & _ & _ & _ & _ & _ & ->).
    reflexivity.
Qed.

(** The command line with [--collection COL]: the user is asked about the
    2 addresses. *)
Lemma X12_command_line_asks_for_collection_witness :
  In (PromptAsk "confirm"
        "Do you want to add 2 NFT addresses from this collection to your webhook?")
     (trace (createAction 1 sampleWorld sampleUser
               (commandLine (Some "https://example.org/hook") (Some "raw")
                  (Some "SWAP") (Some "A") (Some "COL")))).
Proof.
  exact (proj1 (X12_command_line_asks_for_collection 1 sampleWorld sampleUser
                  (commandLine (Some "https://example.org/hook") (Some "raw")
                     (Some "SWAP") (Some "A") (Some "COL"))
                  "COL" ["B"; "C"] true
                  eq_refl eq_refl eq_refl eq_refl eq_refl
                  (fun H => eq_ind ["B"; "C"]
                              (fun l => match l with [] => False | _ => True end)
                              I [] H))).
Defined.

(** ** The [delete] action without confirmation *)

Lemma httpRequests_app t1 t2 :
  httpRequests (t1 ++ t2) = httpRequests t1 ++ httpRequests t2.
Proof.
  induction t1 as [|e t1 IH]; [reflexivity|].
  destruct e; cbn; rewrite ?IH; reflexivity.
Qed.

Lemma httpRequests_nil t :
  forallb notHttpRequest t = true -> httpRequests t = [].
Proof.
  induction t as [|e t IH]; [reflexivity|]. cbn [forallb]. intros H.
  apply andb_true_iff in H as [He Ht].
  destruct e; cbn; try exact (IH Ht). discriminate He.
Qed.

Lemma httpRequests_ensureConfig w u : httpRequests (trace (ensureConfig w u)) = [].
Proof.
  apply httpRequests_nil. apply (traceAll_ensureConfig notHttpRequest);
    intros; reflexivity.
Qed.

Lemma consoleLogs_app t1 t2 :
  consoleLogs (t1 ++ t2) = consoleLogs t1 ++ consoleLogs t2.
Proof.
  induction t1 as [|e t1 IH]; [reflexivity|].
  destruct e; cbn; rewrite ?IH; reflexivity.
Qed.

Lemma ensureConfig_asks_for_apiKey w u :
  traceAll (asksOnlyFor "apiKey") (ensureConfig w u).
Proof.
  unfold ensureConfig. destruct (JS.truthy (config_apiKey w)); [reflexivity|].
  cbn [negb length Nat.eqb]. unfold promptValidated.
  apply traceAll_bind; [apply traceAll_emit; reflexivity | intros _].
  apply traceAll_bind; [|intros key].
  - apply traceAll_bind; [apply traceAll_emit; reflexivity | intros _].
    apply traceAll_bind;
      [apply traceAll_submitUntilValid; intros; reflexivity | intros e; reflexivity].
  - apply traceAll_bind; [apply traceAll_emit; reflexivity | intros _].
    apply traceAll_bind; [apply traceAll_emit; reflexivity | intros _; reflexivity].
Qed.

(** X13: without [--force] the [delete] action sends its request only after
    the user has confirmed: a refusal ends the command normally with
    [Deletion cancelled] and no request at all.  With [--force] no
    confirmation is asked and the request is sent whatever the user would
    have answered. *)
Theorem X13_delete_needs_confirmation w u webhookID b :
  result (ensureConfig w u) = Return b ->
  (delete_confirm u = false ->
     deleteAction w u webhookID false =
       (trace (ensureConfig w u)
          ++ deleteConfirmation webhookID false ++ [ConsoleLog "Deletion cancelled"],
        Return tt)
     /\ httpRequests (trace (deleteAction w u webhookID false)) = [])
  /\ httpRequests (trace (deleteAction w u webhookID true)) = [deleteRequest w webhookID]
  /\ (forall message,
         ~ In (PromptAsk "confirm" message) (trace (deleteAction w u webhookID true))).
Proof.
  intros Hb. split; [|split].
  - intros Hno.
    assert (Hrun : deleteAction w u webhookID false =
       (trace (ensureConfig w u)
          ++ deleteConfirmation webhookID false ++ [ConsoleLog "Deletion cancelled"],
        Return tt)).
    { unfold deleteAction, deleteConfirmation.
      destruct (ensureConfig w u) as [t0 r0]. cbn [result trace fst snd] in Hb |- *.
      subst r0. cbn [negb promptConfirm bind emit fst snd app]. rewrite Hno.
      cbn [negb bind tryCatch emit ret fst snd app]. reflexivity. }
    split; [exact Hrun|]. rewrite Hrun. cbn [trace fst].
    rewrite httpRequests_app, httpRequests_ensureConfig. reflexivity.
  - rewrite (deleteAction_run w u webhookID true b Hb (or_introl eq_refl)).
    cbn [trace fst deleteConfirmation negb app].
    rewrite httpRequests_app, httpRequests_ensureConfig. unfold deleteRequest.
    destruct (deleteWebhookReply w webhookID) as [[]| | |]; reflexivity.
  - intros message Hin.
    rewrite (deleteAction_run w u webhookID true b Hb (or_introl eq_refl)) in Hin.
    cbn [trace fst deleteConfirmation negb app] in Hin.
    apply in_app_or in Hin as [Hin | Hin].
    + pose proof (ensureConfig_asks_for_apiKey w u) as Hq.
      unfold traceAll in Hq. rewrite forallb_forall in Hq.
      specialize (Hq _ Hin). discriminate Hq.
    + destruct (deleteWebhookReply w webhookID) as [[]| | |]; cbn [In] in Hin;
        destruct Hin as [Hin | [Hin | [Hin | Hin]]];
        first [discriminate Hin | exact Hin].
Qed.

(** The sample user refusing to delete wh-1. *)
Lemma X13_delete_needs_confirmation_witness :
  deleteAction sampleWorld (withDeleteConfirm sampleUser false) "wh-1" false =
    ([ PromptAsk "confirm" "Are you sure you want to delete webhook wh-1?";
       ConsoleLog "Deletion cancelled" ],
     Return tt)
  /\ httpRequests (trace (deleteAction sampleWorld (withDeleteConfirm sampleUser false)
                            "wh-1" false)) = [].
Proof.
  exact (proj1 (X13_delete_needs_confirmation sampleWorld
                  (withDeleteConfirm sampleUser false) "wh-1" true eq_refl) eq_refl).
Defined.

(** ** [ensureConfig] *)

Lemma trace_submitUntilValid_notConfigSaved {I} name (validate : I -> option string)
    entries key :
  ~ In (ConfigSaved key) (trace (submitUntilValid name validate entries)).
Proof.
  intros Hin.
  pose proof (traceAll_submitUntilValid notConfigSaved (fun _ _ => eq_refl)
                name validate entries) as Hq.
  unfold traceAll in Hq. rewrite forallb_forall in Hq.
  specialize (Hq _ Hin). discriminate Hq.
Qed.

(** X14: with an API key in the configuration [ensureConfig] does nothing
    at all.  Without one it asks for the key until an entry is not blank,
    stays pending if there is none, and saves the first such entry as it was
    typed, surrounding white space included; nothing else is ever saved. *)
Theorem X14_ensureConfig_saves_first_valid_key w u :
  (JS.truthy (config_apiKey w) = true -> ensureConfig w u = ret true)
  /\ (JS.truthy (config_apiKey w) = false ->
      result (ensureConfig w u) =
        match accepted (notBlank "API key cannot be empty") (in_apiKey u) with
        | Some _ => Return true
        | None => Pending
        end
      /\ (forall key,
             In (ConfigSaved key) (trace (ensureConfig w u))
             <-> accepted (notBlank "API key cannot be empty") (in_apiKey u) = Some key)
      /\ (forall key,
             In (ConfigSaved key) (trace (ensureConfig w u)) ->
             In key (in_apiKey u) /\ JS.trim key <> "")).
Proof.
  split; [apply ensureConfig_configured|].
  intros Hk.
  assert (Hsaved : forall key,
             In (ConfigSaved key) (trace (ensureConfig w u))
             <-> accepted (notBlank "API key cannot be empty") (in_apiKey u) = Some key).
  { intros key. unfold ensureConfig, promptValidated. rewrite Hk.
    cbn [negb length Nat.eqb].
    rewrite !trace_bind, !result_bind, !trace_emit, !result_emit.
    rewrite result_submitUntilValid. cbn [app In].
    destruct (accepted _ (in_apiKey u)) as [key'|];
      cbn [result ret snd trace fst app In]; rewrite ?app_nil_r.
    - split.
      + intros [H | [H | H]]; try discriminate H.
        apply in_app_or in H as [H | H];
          [exfalso; exact (trace_submitUntilValid_notConfigSaved _ _ _ _ H)|].
        cbn [In] in H. destruct H as [H | [H | H]]; try discriminate H;
          [injection H as ->; reflexivity | contradiction H].
      + intros H. injection H as ->. right. right. apply in_or_app. right.
        left. reflexivity.
    - split; [|discriminate].
      intros [H | [H | H]]; try discriminate H.
      exfalso. exact (trace_submitUntilValid_notConfigSaved _ _ _ _ H). }
  repeat split.
  - unfold ensureConfig. rewrite Hk. cbn [negb length Nat.eqb].
    autorewrite with io_result.
    destruct (accepted _ (in_apiKey u)); reflexivity.
  - apply Hsaved.
  - apply Hsaved.
  - apply Hsaved in H. apply accepted_In in H as [Hin _]. exact Hin.
  - apply Hsaved in H. apply accepted_In in H as [_ Hv].
    apply notBlank_None in Hv. exact Hv.
Qed.

(** A first run: an empty entry, a blank one, then a key typed with spaces
    around it. *)
Lemma X14_ensureConfig_saves_first_valid_key_witness :
  ensureConfig freshWorld (withApiKey sampleUser [""; "  "; " abc "; "xyz"]) =
    ([ ConsoleLog "Some configuration values are missing. Let's set them up:";
       PromptAsk "apiKey" "Enter your Helius API key:";
       PromptInvalid "apiKey" "API key cannot be empty";
       PromptInvalid "apiKey" "API key cannot be empty";
       ConfigSaved " abc ";
       ConsoleLog "Configuration updated successfully!" ],
     Return true)
  /\ In " abc " [""; "  "; " abc "; "xyz"].
Proof.
  split; [reflexivity|].
  apply (proj2 (proj2 (proj2 (X14_ensureConfig_saves_first_valid_key freshWorld
                   (withApiKey sampleUser [""; "  "; " abc "; "xyz"])) eq_refl))
           " abc ").
  right. right. right. right. left. reflexivity.
Defined.

(** ** The [list] and [get] actions *)

Lemma printWebhooks_run webhooks :
  forall index,
    result (printWebhooks index webhooks) = Return tt
    /\ consoleLogs (trace (printWebhooks index webhooks)) = webhookLines index webhooks
    /\ httpRequests (trace (printWebhooks index webhooks)) = []
    /\ consoleErrors (trace (printWebhooks index webhooks)) = [].
Proof.
  induction webhooks as [|webhook rest IH]; intros index; [repeat split|].
  cbn [printWebhooks]. rewrite !bind_emit. cbn [trace result fst snd].
  destruct (IH (index + 1)) as (Hr & Hl & Hh & He).
  repeat split; try assumption.
  cbn [consoleLogs]. rewrite Hl. unfold webhookLines.
  cbn [length seq combine flat_map fst snd app]. rewrite Nat.add_1_r. reflexivity.
Qed.

Lemma length_webhookLines index webhooks :
  length (webhookLines index webhooks) = 2 * length webhooks.
Proof.
  unfold webhookLines. revert index.
  induction webhooks as [|webhook rest IH]; intros index; [reflexivity|].
  cbn [length seq combine flat_map app]. rewrite IH. lia.
Qed.

Lemma listAction_run w u reply b :
  result (ensureConfig w u) = Return b ->
  listAction w u reply =
  (trace (ensureConfig w u)
     ++ SpinnerStart "Fetching webhooks..."
     :: HttpRequest "GET" (config_baseUrl w +++ "/webhooks") NoBody
     :: match reply with
        | Response webhooks =>
            SpinnerSucceed ("Found " +++ JS.ofNat (length webhooks) +++ " webhooks")
              :: (if length webhooks =? 0 then [ConsoleLog "No webhooks found."]
                  else trace (printWebhooks 0 webhooks))
        | failure =>
            [ConsoleError ("Error fetching webhooks: " +++
                           errorMessage "Error setting up request: " failure)]
        end,
   match reply with Response _ => Return tt | _ => Exit 1 end).
Proof.
  intros Hb. unfold listAction, getAllWebhooks, request.
  destruct (ensureConfig w u) as [t0 r0]. cbn [result trace fst snd] in Hb |- *.
  subst r0. cbn [bind emit fst snd app String.eqb Ascii.eqb Bool.eqb orb].
  destruct reply as [webhooks| | |];
    cbn [bind tryCatch emit ret throw exit fst snd app errorMessage];
    rewrite ?app_nil_r, <- ?app_assoc; try reflexivity.
  destruct (length webhooks =? 0).
  - cbn [emit fst snd bind tryCatch app]. rewrite <- ?app_assoc. reflexivity.
  - destruct (printWebhooks_run webhooks 0) as (Hr & _).
    destruct (printWebhooks 0 webhooks) as [tp rp].
    cbn [result snd trace fst] in Hr |- *. subst rp.
    rewrite <- ?app_assoc. reflexivity.
Qed.

(** X15: the [list] action sends one GET request without a body and prints
    every webhook of the answer exactly once, in the order of the answer:
    for the k-th webhook the heading [--- Webhook k ---], counted from 1,
    and the formatted webhook.  For an empty answer it prints
    [No webhooks found.] instead.  When the request fails it prints nothing
    with [console.log], writes [Error fetching webhooks:] and the error with
    [console.error] and exits with status 1. *)
Theorem X15_list_prints_every_webhook w u reply b :
  result (ensureConfig w u) = Return b ->
  httpRequests (trace (listAction w u reply))
    = [HttpRequest "GET" (config_baseUrl w +++ "/webhooks") NoBody]
  /\ (forall webhooks,
         reply = Response webhooks ->
         result (listAction w u reply) = Return tt
         /\ consoleLogs (trace (listAction w u reply)) =
              consoleLogs (trace (ensureConfig w u))
              ++ (if length webhooks =? 0 then ["No webhooks found."]
                  else webhookLines 0 webhooks)
         /\ length (webhookLines 0 webhooks) = 2 * length webhooks)
  /\ ((forall webhooks, reply <> Response webhooks) ->
      result (listAction w u reply) = Exit 1
      /\ consoleLogs (trace (listAction w u reply)) = consoleLogs (trace (ensureConfig w u))
      /\ exists before,
           trace (listAction w u reply) =
           before ++ [ConsoleError ("Error fetching webhooks: " +++
                                    errorMessage "Error setting up request: " reply)]).
Proof.
  intros Hb. rewrite (listAction_run w u reply b Hb). cbn [trace result fst snd].
  split; [|split].
  - rewrite httpRequests_app, httpRequests_ensureConfig. cbn [app httpRequests].
    destruct reply as [webhooks| | |]; try reflexivity.
    cbn [httpRequests]. destruct (length webhooks =? 0); [reflexivity|].
    destruct (printWebhooks_run webhooks 0) as (_ & _ & -> & _). reflexivity.
  - intros webhooks ->. split; [reflexivity|]. split.
    + rewrite consoleLogs_app. cbn [consoleLogs].
      destruct (length webhooks =? 0); [reflexivity|].
      destruct (printWebhooks_run webhooks 0) as (_ & -> & _). reflexivity.
    + apply length_webhookLines.
  - intros Hfail.
    destruct reply as [webhooks| | |];
      [exfalso; exact (Hfail webhooks eq_refl) | ..];
      (split; [reflexivity|]; split;
       [rewrite consoleLogs_app; cbn [consoleLogs]; rewrite app_nil_r; reflexivity|];
       exists (trace (ensureConfig w u)
               ++ [ SpinnerStart "Fetching webhooks...";
                    HttpRequest "GET" (config_baseUrl w +++ "/webhooks") NoBody ]);
       rewrite <- app_assoc; reflexivity).
Qed.

(** Two webhooks in the answer: four lines, numbered 1 and 2. *)
Lemma X15_list_prints_every_webhook_witness :
  consoleLogs (trace (listAction sampleWorld sampleUser
                        (Response [sampleWebhook "wh-1"; sampleWebhook "wh-2"])))
  = [ webhookHeading 0; formatWebhook (sampleWebhook "wh-1");
      webhookHeading 1; formatWebhook (sampleWebhook "wh-2") ]
  /\ webhookHeading 1 = nl +++ "--- Webhook 2 ---".
Proof.
  split; [|reflexivity].
  destruct (X15_list_prints_every_webhook sampleWorld sampleUser
              (Response [sampleWebhook "wh-1"; sampleWebhook "wh-2"]) true eq_refl)
    as (_ & H & _).
  destruct (H _ eq_refl) as (_ & Hl & _). exact Hl.
Defined.

(** X16: the [get] action sends one GET request for the id, without a
    body.  With an answer it prints the webhook of the answer and returns;
    with a failed request, a missing webhook included, it writes
    [Error fetching webhook:] and the error with its status with
    [console.error] and exits with status 1. *)
Theorem X16_get_reports_api_errors w u webhookID reply b :
  result (ensureConfig w u) = Return b ->
  httpRequests (trace (getAction w u webhookID reply))
    = [HttpRequest "GET" (config_baseUrl w +++ "/webhooks/" +++ webhookID) NoBody]
  /\ (forall webhook,
         reply = Response webhook ->
         result (getAction w u webhookID reply) = Return tt
         /\ consoleLogs (trace (getAction w u webhookID reply)) =
              consoleLogs (trace (ensureConfig w u)) ++ [formatWebhook webhook]
         /\ consoleErrors (trace (getAction w u webhookID reply)) =
              consoleErrors (trace (ensureConfig w u)))
  /\ (forall status data,
         reply = ErrorResponse status data ->
         result (getAction w u webhookID reply) = Exit 1
         /\ consoleLogs (trace (getAction w u webhookID reply)) =
              consoleLogs (trace (ensureConfig w u))
         /\ exists before,
              trace (getAction w u webhookID reply) =
              before ++ [ConsoleError ("Error fetching webhook: API Error: " +++
                                       JS.ofNat status +++ " - " +++ data)]).
Proof.
  intros Hb.
  assert (Hrun : getAction w u webhookID reply =
    (trace (ensureConfig w u)
       ++ SpinnerStart ("Fetching webhook " +++ webhookID +++ "...")
       :: HttpRequest "GET" (config_baseUrl w +++ "/webhooks/" +++ webhookID) NoBody
       :: match reply with
          | Response webhook =>
              [ SpinnerSucceed ("Found webhook " +++ webhookID);
                ConsoleLog (formatWebhook webhook) ]
          | failure =>
              [ConsoleError ("Error fetching webhook: " +++
                             errorMessage "Error setting up request: " failure)]
          end,
     match reply with Response _ => Return tt | _ => Exit 1 end)).
  { unfold getAction, getWebhook, request.
    destruct (ensureConfig w u) as [t0 r0]. cbn [result trace fst snd] in Hb |- *.
    subst r0. cbn [bind emit fst snd app String.eqb Ascii.eqb Bool.eqb orb].
    destruct reply;
      cbn [bind tryCatch emit ret throw exit fst snd app errorMessage];
      rewrite ?app_nil_r, <- ?app_assoc; reflexivity. }
  rewrite Hrun. cbn [trace result fst snd]. split; [|split].
  - rewrite httpRequests_app, httpRequests_ensureConfig.
    destruct reply; reflexivity.
  - intros webhook ->. split; [reflexivity|].
    rewrite consoleLogs_app, consoleErrors_app. cbn [consoleLogs consoleErrors].
    rewrite app_nil_r. split; reflexivity.
  - intros status data ->. split; [reflexivity|]. split.
    + rewrite consoleLogs_app. cbn [consoleLogs]. rewrite app_nil_r. reflexivity.
    + exists (trace (ensureConfig w u)
              ++ [ SpinnerStart ("Fetching webhook " +++ webhookID +++ "...");
                   HttpRequest "GET" (config_baseUrl w +++ "/webhooks/" +++ webhookID)
                     NoBody ]).
      rewrite <- app_assoc. reflexivity.
Qed.

(** A webhook that does not exist: status 404. *)
Lemma X16_get_reports_api_errors_witness :
  getAction sampleWorld sampleUser "nope" (ErrorResponse 404 "{}") =
    ([ SpinnerStart "Fetching webhook nope...";
       HttpRequest "GET" "https://api.helius.xyz/v0/webhooks/nope" NoBody;
       ConsoleError "Error fetching webhook: API Error: 404 - {}" ],
     Exit 1)
  /\ result (getAction sampleWorld sampleUser "nope" (ErrorResponse 404 "{}")) = Exit 1.
Proof.
  split; [reflexivity|].
  destruct (X16_get_reports_api_errors sampleWorld sampleUser "nope"
              (ErrorResponse 404 "{}") true eq_refl) as (_ & _ & H).
  exact (proj1 (H 404 "{}" eq_refl)).
Defined.

(** ** The configuration: memory, file and environment *)

Lemma saveConfig_run config st :
  Config.saveConfig config st =
  match Config.writeError st with
  | None =>
      ([ConfigSaved (Config.apiKey config)],
       Return (Config.withFile st
                 (Config.Parsed (Some (Config.apiKey config))
                                (Some (Config.baseUrl config)))))
  | Some error => ([ConsoleError ("Error saving config: " +++ error)], Return st)
  end.
Proof. unfold Config.saveConfig. destruct (Config.writeError st); reflexivity. Qed.

Lemma loadConfig_saved defaults config :
  Config.loadConfig defaults
    (Config.Parsed (Some (Config.apiKey config)) (Some (Config.baseUrl config)))
  = ret config.
Proof. destruct config. reflexivity. Qed.

(** X17: [setConfig] always returns.  Afterwards [getConfig] gives the new
    value for the key and the old value for the other key, and the defaults
    are untouched.  When the file can be written it holds exactly the new
    configuration; when it cannot, the error is written with
    [console.error], the file is as before, and the configuration in memory
    has changed all the same. *)
Theorem X17_setConfig_then_getConfig key value st :
  exists st',
    result (Config.setConfig key value st) = Return st'
    /\ Config.get key (Config.getConfig st') = value
    /\ (forall other, other <> key ->
          Config.get other (Config.getConfig st')
          = Config.get other (Config.getConfig st))
    /\ Config.defaults st' = Config.defaults st
    /\ (Config.writeError st = None ->
        Config.file st' = Config.Parsed (Some (Config.apiKey (Config.getConfig st')))
                                        (Some (Config.baseUrl (Config.getConfig st')))
        /\ consoleErrors (trace (Config.setConfig key value st)) = [])
    /\ (forall error, Config.writeError st = Some error ->
          Config.file st' = Config.file st
          /\ trace (Config.setConfig key value st)
             = [ConsoleError ("Error saving config: " +++ error)]).
Proof.
  unfold Config.setConfig. rewrite saveConfig_run. cbn [Config.writeError Config.withCurrent].
  destruct (Config.writeError st) as [error|] eqn:E; eexists;
    (split; [reflexivity|]);
    cbn [Config.getConfig Config.currentConfig Config.withFile Config.withCurrent
         Config.defaults Config.file trace fst];
    (split; [destruct key; reflexivity|]);
    (split; [intros other Hother; destruct key, other;
             first [reflexivity | contradiction Hother; reflexivity]|]);
    (split; [reflexivity|]); split.
  - discriminate.
  - intros error' H. injection H as <-. split; reflexivity.
  - intros _. split; reflexivity.
  - discriminate.
Qed.

(** The API key set on a disk that cannot be written. *)
Lemma X17_setConfig_then_getConfig_witness :
  exists st',
    result (Config.setConfig Config.KeyApiKey "abcdefgh" readOnlyState) = Return st'
    /\ Config.apiKey (Config.getConfig st') = "abcdefgh"
    /\ Config.file st' = Config.Missing.
Proof.
  destruct (X17_setConfig_then_getConfig Config.KeyApiKey "abcdefgh" readOnlyState)
    as (st' & Hr & Hg & _ & _ & _ & Hf).
  exists st'. split; [exact Hr|]. split; [exact Hg|].
  exact (proj1 (Hf "EACCES" eq_refl)).
Defined.

Lemma orElse_fallback value fallback :
  fallback <> "" -> Config.orElse value fallback <> "".
Proof.
  intros H. unfold Config.orElse. destruct value as [v|]; [|exact H].
  destruct v as [|c r]; [exact H | discriminate].
Qed.

(** X18: [loadConfig] never fails, and a value in the file wins over the
    environment, which wins over the built-in default.  A key that the file
    holds is taken as it is, the empty string included; a key the file does
    not hold, and every key when the file is missing or cannot be parsed, is
    the environment variable if that is set and not empty, and else the
    empty API key and the base URL https://api.helius.xyz/v0.  An unparsable
    file is reported with [console.error].  The base URL is never empty
    unless the file says so. *)
Theorem X18_loadConfig_precedence env file :
  exists config,
    result (Config.loadConfig (Config.defaultConfig env) file) = Return config
    /\ Config.apiKey config =
         match file with
         | Config.Parsed (Some stored) _ => stored
         | _ => Config.orElse (Config.HELIUS_API_KEY env) ""
         end
    /\ Config.baseUrl config =
         match file with
         | Config.Parsed _ (Some stored) => stored
         | _ => Config.orElse (Config.HELIUS_BASE_URL env) "https://api.helius.xyz/v0"
         end
    /\ ((forall stored, file <> Config.Parsed stored (Some "")) ->
        Config.baseUrl config <> "")
    /\ consoleErrors (trace (Config.loadConfig (Config.defaultConfig env) file)) =
         match file with
         | Config.Unparsable error => ["Error loading config: " +++ error]
         | _ => []
         end.
Proof.
  destruct file as [|error|[k|] [u|]]; eexists; (split; [reflexivity|]);
    cbn [Config.apiKey Config.baseUrl Config.spread Config.defaultConfig];
    repeat split; intros H;
    try (apply orElse_fallback; discriminate).
  - intros ->. exact (H (Some k) eq_refl).
  - intros ->. exact (H None eq_refl).
Qed.

(** X19: once the file has been written, the environment counts for
    nothing: after a [setConfig] or a [resetConfig] whose write succeeded,
    the next start of the program, in whatever environment, has the
    configuration that was in memory.  In particular a reset made without
    an API key in the environment stores the empty API key, and a
    HELIUS_API_KEY set later is not used. *)
Theorem X19_saved_file_shadows_environment st :
  Config.writeError st = None ->
  (forall key value st',
      result (Config.setConfig key value st) = Return st' ->
      forall env' writeError',
        exists st'',
          Config.start env' (Config.file st') writeError' = ([], Return st'')
          /\ Config.getConfig st'' = Config.getConfig st')
  /\ (forall st',
         result (Config.resetConfig st) = Return st' ->
         Config.getConfig st' = Config.defaults st
         /\ forall env' writeError',
              exists st'',
                Config.start env' (Config.file st') writeError' = ([], Return st'')
                /\ Config.getConfig st'' = Config.defaults st).
Proof.
  intros Hw.
  assert (Hstart : forall config env' writeError',
             exists st'',
               Config.start env'
                 (Config.Parsed (Some (Config.apiKey config))
                                (Some (Config.baseUrl config))) writeError'
               = ([], Return st'')
               /\ Config.getConfig st'' = config).
  { intros config env' writeError'. unfold Config.start.
    rewrite loadConfig_saved. eexists. split; reflexivity. }
  split.
  - intros key value st' H. unfold Config.setConfig in H.
    rewrite saveConfig_run in H. cbn [Config.writeError Config.withCurrent] in H.
    rewrite Hw in H. cbn [result snd] in H. injection H as <-.
    intros env' writeError'. cbn [Config.file Config.withFile Config.getConfig
                                   Config.currentConfig Config.withCurrent].
    apply Hstart.
  - intros st' H. unfold Config.resetConfig in H.
    rewrite saveConfig_run in H. cbn [Config.writeError Config.withCurrent] in H.
    rewrite Hw in H. cbn [result snd] in H. injection H as <-.
    split; [reflexivity|].
    intros env' writeError'. cbn [Config.file Config.withFile Config.getConfig
                                   Config.currentConfig Config.withCurrent].
    apply Hstart.
Qed.

(** A reset without a key in the environment, then a start with
    HELIUS_API_KEY set: the API key is empty. *)
Lemma X19_saved_file_shadows_environment_witness :
  exists st' st'',
    result (Config.resetConfig freshState) = Return st'
    /\ Config.start {| Config.HELIUS_API_KEY := Some "from-env";
                       Config.HELIUS_BASE_URL := None |}
         (Config.file st') None = ([], Return st'')
    /\ Config.apiKey (Config.getConfig st'') = "".
Proof.
  destruct (X19_saved_file_shadows_environment freshState eq_refl) as [_ H].
  destruct (H _ eq_refl) as [_ Hstart].
  destruct (Hstart {| Config.HELIUS_API_KEY := Some "from-env";
                      Config.HELIUS_BASE_URL := None |} None) as (st'' & Hs & Hg).
  eexists. exists st''. split; [reflexivity|]. split; [exact Hs|].
  rewrite Hg. reflexivity.
Defined.

(** ** The [config] commands *)

Lemma length_substring_0 n s : String.length (String.substring 0 n s) <= n.
Proof.
  revert s. induction n as [|n IH]; intros s.
  - destruct s; cbn; lia.
  - destruct s as [|c r]; cbn [String.substring String.length]; [lia|].
    specialize (IH r). lia.
Qed.

Lemma substring_0_short n s :
  String.length s <= n -> String.substring 0 n s = s.
Proof.
  revert s. induction n as [|n IH]; intros s H.
  - destruct s; [reflexivity | cbn in H; lia].
  - destruct s as [|c r]; [reflexivity|].
    cbn [String.substring]. rewrite IH; [reflexivity | cbn in H; lia].
Qed.

Lemma substring_0_prefix n s :
  exists rest, s = String.substring 0 n s +++ rest.
Proof.
  revert s. induction n as [|n IH]; intros s.
  - exists s. destruct s; reflexivity.
  - destruct s as [|c r]; [exists ""; reflexivity|].
    destruct (IH r) as [rest Hrest]. exists rest.
    cbn [String.substring String.append]. rewrite <- Hrest. reflexivity.
Qed.

(** X20: [config set] accepts the keys apiKey and baseUrl only; for any
    other key it writes one error and exits with status 1 without touching
    the configuration.  For apiKey it stores the value and shows no more
    than its first five characters, followed by three dots; a key of five
    characters or fewer is therefore shown in full.  For baseUrl it stores
    and shows the value. *)
Theorem X20_config_set_shows_five_characters value st :
  (forall key,
      key <> "apiKey" -> key <> "baseUrl" ->
      Config.setCommand key value st =
        ([ConsoleError "Invalid configuration key. Valid keys are: apiKey, baseUrl"],
         Exit 1))
  /\ (exists st',
         result (Config.setCommand "apiKey" value st) = Return st'
         /\ Config.apiKey (Config.getConfig st') = value
         /\ Config.baseUrl (Config.getConfig st') = Config.baseUrl (Config.getConfig st)
         /\ consoleLogs (trace (Config.setCommand "apiKey" value st)) =
              ["Configuration updated: apiKey = "
               +++ String.substring 0 5 value +++ "..."]
         /\ String.length (String.substring 0 5 value) <= 5
         /\ (exists hidden, value = String.substring 0 5 value +++ hidden)
         /\ (String.length value <= 5 -> String.substring 0 5 value = value))
  /\ (exists st',
         result (Config.setCommand "baseUrl" value st) = Return st'
         /\ Config.baseUrl (Config.getConfig st') = value
         /\ Config.apiKey (Config.getConfig st') = Config.apiKey (Config.getConfig st)
         /\ consoleLogs (trace (Config.setCommand "baseUrl" value st)) =
              ["Configuration updated: baseUrl = " +++ value]).
Proof.
  split; [|split].
  - intros key Hk Hu. unfold Config.setCommand, Config.keyOfName.
    destruct (String.eqb_spec key "apiKey") as [E|_]; [contradiction|].
    destruct (String.eqb_spec key "baseUrl") as [E|_]; [contradiction|].
    reflexivity.
  - unfold Config.setCommand, Config.setConfig. cbn [Config.keyOfName String.eqb
      Ascii.eqb Bool.eqb].
    rewrite saveConfig_run. cbn [Config.writeError Config.withCurrent].
    destruct (Config.writeError st); eexists;
      (split; [reflexivity|]);
      (split; [reflexivity|]); (split; [reflexivity|]);
      (split; [reflexivity|]);
      (split; [apply length_substring_0|]);
      (split; [apply substring_0_prefix | apply substring_0_short]).
  - unfold Config.setCommand, Config.setConfig. cbn [Config.keyOfName String.eqb
      Ascii.eqb Bool.eqb].
    rewrite saveConfig_run. cbn [Config.writeError Config.withCurrent].
    destruct (Config.writeError st); eexists; repeat split; reflexivity.
Qed.

(** A key of eight characters: five are shown; a mistyped key name. *)
Lemma X20_config_set_shows_five_characters_witness :
  consoleLogs (trace (Config.setCommand "apiKey" "abcdefgh" freshState))
    = ["Configuration updated: apiKey = abcde..."]
  /\ Config.setCommand "apikey" "abcdefgh" freshState =
       ([ConsoleError "Invalid configuration key. Valid keys are: apiKey, baseUrl"],
        Exit 1).
Proof.
  split; [reflexivity|].
  apply (proj1 (X20_config_set_shows_five_characters "abcdefgh" freshState));
    discriminate.
Defined.

(** X21: [config reset] asks first.  A refusal leaves the configuration and
    the file as they are and says [Reset cancelled].  After a confirmation
    the configuration in memory is the defaults the program started with,
    and the command says [Configuration reset to defaults], also when the
    file could not be written, in which case the error has been written with
    [console.error] and the file is as before. *)
Theorem X21_config_reset st :
  Config.resetCommand false st =
    ([ PromptAsk "confirm"
         "Are you sure you want to reset all configuration to defaults?";
       ConsoleLog "Reset cancelled" ],
     Return st)
  /\ exists st',
       result (Config.resetCommand true st) = Return st'
       /\ Config.getConfig st' = Config.defaults st
       /\ consoleLogs (trace (Config.resetCommand true st))
          = ["Configuration reset to defaults"]
       /\ (forall error,
              Config.writeError st = Some error ->
              Config.file st' = Config.file st
              /\ consoleErrors (trace (Config.resetCommand true st))
                 = ["Error saving config: " +++ error])
       /\ (Config.writeError st = None ->
           Config.file st' =
             Config.Parsed (Some (Config.apiKey (Config.defaults st)))
                           (Some (Config.baseUrl (Config.defaults st)))).
Proof.
  split; [reflexivity|].
  unfold Config.resetCommand, Config.resetConfig.
  cbn [promptConfirm bind emit fst snd app]. rewrite saveConfig_run.
  cbn [Config.writeError Config.withCurrent].
  destruct (Config.writeError st) as [error|]; eexists;
    (split; [reflexivity|]); (split; [reflexivity|]); (split; [reflexivity|]);
    split.
  - intros error' H. injection H as <-. split; reflexivity.
  - discriminate.
  - discriminate.
  - intros _. reflexivity.
Qed.

(** A reset on a disk that cannot be written still reports success. *)
Lemma X21_config_reset_witness :
  Config.resetCommand true readOnlyState =
    ([ PromptAsk "confirm"
         "Are you sure you want to reset all configuration to defaults?";
       ConsoleError "Error saving config: EACCES";
       ConsoleLog "Configuration reset to defaults" ],
     Return readOnlyState)
  /\ exists st',
       result (Config.resetCommand true readOnlyState) = Return st'
       /\ Config.file st' = Config.file readOnlyState.
Proof.
  split; [reflexivity|].
  destruct (proj2 (X21_config_reset readOnlyState)) as (st' & Hr & _ & _ & Hf & _).
  exists st'. split; [exact Hr|]. exact (proj1 (Hf "EACCES" eq_refl)).
Defined.

(** ** [ensureConfig] and the client *)

Lemma Config_ensureConfig_result entries st b st' :
  result (Config.ensureConfig entries st) = Return (b, st') ->
  b = true
  /\ ((JS.truthy (Config.apiKey (Config.currentConfig st)) = true /\ st' = st)
      \/ (JS.truthy (Config.apiKey (Config.currentConfig st)) = false
          /\ exists key,
               accepted (notBlank "API key cannot be empty") entries = Some key
               /\ Config.currentConfig st' =
                    {| Config.apiKey := key;
                       Config.baseUrl := Config.baseUrl (Config.currentConfig st) |}
               /\ Config.defaults st' = Config.defaults st
               /\ Config.file st' =
                    match Config.writeError st with
                    | None => Config.Parsed (Some key)
                                (Some (Config.baseUrl (Config.currentConfig st)))
                    | Some _ => Config.file st
                    end)).
Proof.
  unfold Config.ensureConfig.
  destruct (JS.truthy (Config.apiKey (Config.currentConfig st))) eqn:Et.
  - cbn [negb length Nat.eqb]. intros H. injection H as <- <-.
    split; [reflexivity|]. left. split; reflexivity.
  - cbn [negb length Nat.eqb]. autorewrite with io_result.
    destruct (accepted _ entries) as [key|] eqn:Ea; [|discriminate].
    rewrite saveConfig_run. cbn [Config.writeError Config.withCurrent].
    destruct (Config.writeError st); cbn [result snd];
      autorewrite with io_result; intros H; injection H as <- <-;
      (split; [reflexivity|]); right; (split; [reflexivity|]);
      exists key; repeat split.
Qed.

(** X22: when [ensureConfig] returns, the API key in memory is not empty
    and the base URL and the defaults are what they were; a key is asked
    for, and saved, only if the key in memory was empty.  With a writable
    file the function shows and returns exactly what the configuration
    check of the webhook commands does. *)
Theorem X22_ensureConfig_leaves_a_key entries st b st' :
  result (Config.ensureConfig entries st) = Return (b, st') ->
  b = true
  /\ JS.truthy (Config.apiKey (Config.getConfig st')) = true
  /\ Config.baseUrl (Config.getConfig st') = Config.baseUrl (Config.getConfig st)
  /\ Config.defaults st' = Config.defaults st
  /\ (JS.truthy (Config.apiKey (Config.getConfig st)) = true -> st' = st)
  /\ (Config.writeError st = None ->
      forall w u,
        trace (Config.ensureConfig entries st)
          = trace (ensureConfig (worldOf st w) (withApiKey u entries))
        /\ result (ensureConfig (worldOf st w) (withApiKey u entries)) = Return b).
Proof.
  intros H.
  apply Config_ensureConfig_result in H
    as [-> [[Ht ->] | (Ht & key & Ha & Hc & Hd & Hf)]].
  - split; [reflexivity|]. split; [exact Ht|]. split; [reflexivity|].
    split; [reflexivity|]. split; [reflexivity|].
    intros _ w u. unfold Config.ensureConfig, ensureConfig, worldOf.
    cbn [config_apiKey]. rewrite Ht. split; reflexivity.
  - unfold Config.getConfig. rewrite Hc. cbn [Config.apiKey Config.baseUrl].
    apply accepted_In in Ha as Hv. destruct Hv as [_ Hv].
    apply notBlank_None in Hv.
    split; [reflexivity|]. split; [apply trim_not_blank; exact Hv|].
    split; [reflexivity|]. split; [exact Hd|].
    split; [rewrite Ht; discriminate|].
    intros Hw w u. split.
    + unfold Config.ensureConfig, ensureConfig, worldOf.
      cbn [config_apiKey in_apiKey withApiKey]. rewrite Ht.
      cbn [negb length Nat.eqb]. rewrite !trace_bind.
      rewrite !result_promptValidated, Ha, saveConfig_run.
      cbn [Config.writeError Config.withCurrent]. rewrite Hw.
      reflexivity.
    + unfold ensureConfig, worldOf. cbn [config_apiKey in_apiKey withApiKey].
      rewrite Ht. cbn [negb length Nat.eqb]. autorewrite with io_result.
      rewrite Ha. reflexivity.
Qed.

(** A first run: the key typed is in memory and in the file. *)
Lemma X22_ensureConfig_leaves_a_key_witness :
  exists st',
    result (Config.ensureConfig [""; "abc"] freshState) = Return (true, st')
    /\ Config.apiKey (Config.getConfig st') = "abc"
    /\ JS.truthy (Config.apiKey (Config.getConfig st')) = true
    /\ Config.file st' = Config.Parsed (Some "abc") (Some "https://api.helius.xyz/v0").
Proof.
  eexists. split; [reflexivity|]. split; [reflexivity|]. split; [|reflexivity].
  exact (proj1 (proj2 (X22_ensureConfig_leaves_a_key [""; "abc"] freshState true _
                         eq_refl))).
Defined.

(** X23: the client copies the configuration when it is constructed and
    when [refreshConfig] is called, and at no other time.  A client
    constructed while the API key is empty therefore keeps sending the empty
    key after [ensureConfig] has obtained and stored one; only a
    [refreshConfig] makes its requests carry the new key.  The base URL of
    its requests is unaffected by [ensureConfig]. *)
Theorem X23_client_keeps_its_key entries st st' method endpoint data :
  JS.truthy (Config.apiKey (Config.getConfig st)) = false ->
  result (Config.ensureConfig entries st) = Return (true, st') ->
  Api.apiKeyParam (Api.requestConfig (Api.construct st) method endpoint data) = ""
  /\ Config.apiKey (Config.getConfig st') <> ""
  /\ Api.apiKeyParam
       (Api.requestConfig (Api.refreshConfig st' (Api.construct st)) method endpoint data)
     = Config.apiKey (Config.getConfig st')
  /\ Api.url (Api.requestConfig (Api.refreshConfig st' (Api.construct st))
                method endpoint data)
     = Api.url (Api.requestConfig (Api.construct st) method endpoint data).
Proof.
  intros Hempty H.
  destruct (X22_ensureConfig_leaves_a_key entries st true st' H)
    as (_ & Hkey & Hurl & _).
  repeat split.
  - cbn [Api.apiKeyParam Api.requestConfig Api.construct Api.apiKey].
    unfold JS.truthy in Hempty. apply negb_false_iff in Hempty.
    apply String.eqb_eq in Hempty. exact Hempty.
  - intros E. rewrite E in Hkey. discriminate Hkey.
  - cbn [Api.url Api.requestConfig Api.refreshConfig Api.construct Api.baseUrl].
    rewrite Hurl. reflexivity.
Qed.

(** A first run: the client constructed at the start sends no key. *)
Lemma X23_client_keeps_its_key_witness :
  exists st',
    result (Config.ensureConfig ["abc"] freshState) = Return (true, st')
    /\ Api.apiKeyParam (Api.requestConfig (Api.construct freshState)
                          "GET" "/webhooks" NoBody) = ""
    /\ Api.apiKeyParam (Api.requestConfig (Api.refreshConfig st' (Api.construct freshState))
                          "GET" "/webhooks" NoBody) = "abc".
Proof.
  eexists. split; [reflexivity|].
  destruct (X23_client_keeps_its_key ["abc"] freshState _ "GET" "/webhooks" NoBody
              eq_refl eq_refl) as (H1 & _ & H2 & _).
  split; [exact H1 | exact H2].
Defined.

(** ** The tokens of comma-separated input *)


Lemma trimStart_startsClean s : startsClean (JS.trimStart s).
Proof.
  induction s as [|c r IH]; [exact I|].
  cbn [JS.trimStart]. destruct (JS.isWhiteSpace c) eqn:E; [exact IH | exact E].
Qed.

Lemma trimStart_fixed s : startsClean s -> JS.trimStart s = s.
Proof.
  destruct s as [|c r]; [reflexivity|]. cbn [startsClean JS.trimStart].
  intros ->. reflexivity.
Qed.

Lemma trimEnd_startsClean s : startsClean s -> startsClean (JS.trimEnd s).
Proof.
  destruct s as [|c r]; [intros _; exact I|]. cbn [startsClean JS.trimEnd].
  intros E. rewrite E. destruct (JS.trimEnd r); exact E.
Qed.

Lemma trimEnd_cons c r :
  JS.trimEnd (String c r) =
  match JS.trimEnd r with
  | EmptyString => if JS.isWhiteSpace c then EmptyString else String c EmptyString
  | String c' r' => String c (String c' r')
  end.
Proof. reflexivity. Qed.

Lemma trimEnd_idempotent s : JS.trimEnd (JS.trimEnd s) = JS.trimEnd s.
Proof.
  induction s as [|c r IH]; [reflexivity|].
  rewrite trimEnd_cons. destruct (JS.trimEnd r) as [|c' r'] eqn:E.
  - destruct (JS.isWhiteSpace c) eqn:Ec; [reflexivity|].
    rewrite trimEnd_cons. cbn [JS.trimEnd]. rewrite Ec. reflexivity.
  - rewrite trimEnd_cons, IH. reflexivity.
Qed.

Lemma trim_idempotent s : JS.trim (JS.trim s) = JS.trim s.
Proof.
  unfold JS.trim.
  rewrite (trimStart_fixed (JS.trimEnd (JS.trimStart s))).
  - apply trimEnd_idempotent.
  - apply trimEnd_startsClean, trimStart_startsClean.
Qed.

Lemma upperChar_idempotent c : JS.upperChar (JS.upperChar c) = JS.upperChar c.
Proof. destruct c as [[] [] [] [] [] [] [] []]; reflexivity. Qed.

Lemma toUpperCase_idempotent s : JS.toUpperCase (JS.toUpperCase s) = JS.toUpperCase s.
Proof.
  induction s as [|c r IH]; [reflexivity|].
  cbn [JS.toUpperCase]. rewrite upperChar_idempotent, IH. reflexivity.
Qed.

(** X24: the addresses taken from [--addresses] and from the address
    prompts carry no white space around them: each one is its own trim, and
    there is one more of them than the entry has commas.  The transaction
    types taken from [--types] are in upper case. *)
Theorem X24_tokens_are_trimmed :
  (forall addresses a, In a (parseAddresses addresses) -> JS.trim a = a)
  /\ (forall addresses,
         length (parseAddresses addresses) = S (JS.countChar JS.comma addresses))
  /\ (forall input a, In a (filterAddresses input) -> JS.trim a = a)
  /\ (forall options a, In a (explicitAddresses options) -> JS.trim a = a)
  /\ (forall types t, In t (parseTransactionTypes types) -> JS.toUpperCase t = t)
  /\ (forall types,
         length (parseTransactionTypes types) = S (JS.countChar JS.comma types)).
Proof.
  assert (Hp : forall addresses a, In a (parseAddresses addresses) -> JS.trim a = a).
  { intros addresses a Hin. unfold parseAddresses in Hin.
    apply in_map_iff in Hin as (tok & <- & _). apply trim_idempotent. }
  split; [exact Hp|]. split; [|split; [|split; [|split]]].
  - intros addresses. unfold parseAddresses. rewrite length_map. apply length_split.
  - intros input a Hin. unfold filterAddresses in Hin.
    destruct (JS.truthy input); [|contradiction Hin].
    exact (Hp input a Hin).
  - intros options a Hin. unfold explicitAddresses in Hin.
    destruct (opt_addresses options) as [s|]; [|contradiction Hin].
    destruct (JS.truthy s); [exact (Hp s a Hin) | contradiction Hin].
  - intros types t Hin. unfold parseTransactionTypes in Hin.
    apply in_map_iff in Hin as (tok & <- & _). apply toUpperCase_idempotent.
  - intros types. unfold parseTransactionTypes. rewrite length_map. apply length_split.
Qed.

(** Addresses typed with spaces after the commas. *)
Lemma X24_tokens_are_trimmed_witness :
  parseAddresses " A, B ,C " = ["A"; "B"; "C"]
  /\ JS.trim "B" = "B".
Proof.
  split; [reflexivity|].
  apply (proj1 X24_tokens_are_trimmed " A, B ,C " "B").
  right. left. reflexivity.
Defined.

(** * The commands on any platform *)

(** ** The first part is the ASCII platform *)

Lemma promptForWebhookDataIn_ValidateTyped fuel w u prefilled :
  promptForWebhookDataIn ValidateTyped fuel w u prefilled
  = promptForWebhookData fuel w u prefilled.
Proof. reflexivity. Qed.

Lemma commandLineWebhookDataWith_ascii options acc :
  commandLineWebhookDataWith (trimUpper asciiPlatform) options acc
  = commandLineWebhookData options acc.
Proof. reflexivity. Qed.

Lemma createActionOn_asciiPlatform fuel w u options :
  createActionOn asciiPlatform fuel w u options = createAction fuel w u options.
Proof. reflexivity. Qed.

(** ** Prompts under either order *)

Lemma result_andThen {A B} (m : IO A) (k : A -> IO B) :
  result (bind m k) = andThen (result m) (fun a => result (k a)).
Proof. rewrite result_bind. destruct (result m); reflexivity. Qed.

Lemma accepted_ext {I} (v1 v2 : I -> option string) entries :
  (forall entry, v1 entry = v2 entry) -> accepted v1 entries = accepted v2 entries.
Proof.
  intros H. unfold accepted.
  induction entries as [|e es IH]; [reflexivity|].
  cbn [find]. rewrite H, IH. reflexivity.
Qed.

Lemma accepted_always {I} (validate : I -> option string) entries :
  (forall entry, validate entry = None) -> accepted validate entries = hd_error entries.
Proof.
  intros H. destruct entries as [|e es]; [reflexivity|].
  apply accepted_first, H.
Qed.

Lemma accepted_never {I} (validate : I -> option string) entries :
  (forall entry, validate entry <> None) -> accepted validate entries = None.
Proof. intros H. apply accepted_none. intros entry _. apply H. Qed.

Lemma result_promptValidatedIn {I A} order name message
    (validate : I -> option string) (validateFiltered : A -> option string)
    (filter : I -> A) entries :
  result (promptValidatedIn order name message validate validateFiltered filter entries) =
  match accepted (match order with
                  | ValidateTyped => validate
                  | FilterFirst => fun entry => validateFiltered (filter entry)
                  end) entries with
  | Some entry => Return (filter entry)
  | None => Pending
  end.
Proof. destruct order; apply result_promptValidated. Qed.

(** The entry the address prompt accepts.  When no address is required
    both orders take the first entry; when one is required, the typed text
    is checked for being blank under the one order, and under the other no
    entry is accepted. *)
Lemma accepted_addresses order required entries :
  accepted (match order with
            | ValidateTyped => validateAddresses required
            | FilterFirst =>
                fun entry => validateFilteredAddresses required (filterAddresses entry)
            end) entries =
  match order, required with
  | _, false => hd_error entries
  | ValidateTyped, true =>
      accepted (notBlank "At least one account address is required") entries
  | FilterFirst, true => None
  end.
Proof.
  destruct order, required.
  - reflexivity.
  - apply accepted_always. reflexivity.
  - apply accepted_never. discriminate.
  - apply accepted_always. reflexivity.
Qed.

Lemma result_askAddressesIn order u prefilled added acc :
  result (askAddressesIn order u prefilled added acc) =
  match (match order, addressRequired prefilled added with
         | _, false => hd_error (in_accountAddresses u)
         | ValidateTyped, true =>
             accepted (notBlank "At least one account address is required")
               (in_accountAddresses u)
         | FilterFirst, true => None
         end) with
  | Some input => Return (acc ++ filterAddresses input)
  | None => Pending
  end.
Proof.
  unfold askAddressesIn.
  rewrite result_bind, result_promptValidatedIn, accepted_addresses.
  match goal with |- context [match ?o with Some _ => _ | None => _ end] =>
    destruct o as [input|] end; [|reflexivity].
  destruct (filterAddresses input) as [|a rest];
    [rewrite app_nil_r; reflexivity | reflexivity].
Qed.

(** What [askAddressesIn] returns is what [askAddresses] accepts; where
    the library filters first, it returns only when no address is
    required. *)
Lemma askAddressesIn_result order u prefilled added acc acc' :
  result (askAddressesIn order u prefilled added acc) = Return acc' ->
  exists input,
    accepted (validateAddresses (addressRequired prefilled added))
      (in_accountAddresses u) = Some input
    /\ acc' = acc ++ filterAddresses input
    /\ (order = FilterFirst -> addressRequired prefilled added = false).
Proof.
  rewrite result_askAddressesIn.
  destruct (addressRequired prefilled added) eqn:Er.
  - destruct order; [|discriminate].
    destruct (accepted _ (in_accountAddresses u)) as [input|] eqn:Ea; [|discriminate].
    intros H. injection H as <-. exists input.
    split; [first [exact Ea | reflexivity] | split; [reflexivity | discriminate]].
  - assert (Hhd : accepted (validateAddresses false) (in_accountAddresses u)
                  = hd_error (in_accountAddresses u))
      by (apply accepted_always; reflexivity).
    rewrite Hhd.
    destruct order;
      (destruct (hd_error (in_accountAddresses u)) as [input|]; [|discriminate];
       intros H; injection H as <-; exists input;
       split; [reflexivity | split; reflexivity]).
Qed.

Lemma requireAddressesIn_not_nil order u accountAddresses :
  accountAddresses <> [] ->
  requireAddressesIn order u accountAddresses = ret accountAddresses.
Proof.
  intros H. unfold requireAddressesIn.
  destruct accountAddresses; [contradiction H; reflexivity | reflexivity].
Qed.

(** ** The collection, exactly *)

Lemma result_askCollection u prefilled :
  result (askCollection u prefilled) =
  if (length prefilled =? 0) && in_useCollection u then
    match accepted (notBlank "Collection address is required")
            (in_collectionAddress u) with
    | Some collectionAddress => Return (true, collectionAddress)
    | None => Pending
    end
  else Return (false, "").
Proof.
  unfold askCollection. destruct (length prefilled =? 0); [|reflexivity].
  cbn [andb]. autorewrite with io_result.
  destruct (in_useCollection u); [|reflexivity].
  autorewrite with io_result.
  destruct (accepted _ (in_collectionAddress u)); reflexivity.
Qed.

Lemma result_addCollectionAddresses fuel w u useCollection collectionAddress acc :
  result (addCollectionAddresses fuel w u useCollection collectionAddress acc) =
  if useCollection && JS.truthy collectionAddress then
    match result (getNftAddressesFromCollection fuel w collectionAddress) with
    | Return nftAddresses =>
        if (length nftAddresses =? 0) || negb (in_confirm u)
        then Return (acc, false)
        else Return (acc ++ nftAddresses, true)
    | Throw _ => Return (acc, false)
    | Exit c => Exit c
    | Pending => Pending
    end
  else Return (acc, false).
Proof.
  unfold addCollectionAddresses.
  destruct (useCollection && JS.truthy collectionAddress); [|reflexivity].
  autorewrite with io_result.
  destruct (result (getNftAddressesFromCollection fuel w collectionAddress))
    as [nfts|e|c|]; autorewrite with io_result; try reflexivity.
  destruct (length nfts =? 0); autorewrite with io_result; [reflexivity|].
  destruct (in_confirm u); autorewrite with io_result; reflexivity.
Qed.

Lemma result_collectionStage fuel w u options acc :
  result (collectionStage fuel w u options acc) =
  match opt_collection options with
  | Some collection =>
      if JS.truthy collection then
        match result (getNftAddressesFromCollection fuel w collection) with
        | Return nftAddresses =>
            if (length nftAddresses =? 0) || negb (create_confirm u)
            then Return acc
            else Return nftAddresses
        | Throw _ => Return acc
        | Exit c => Exit c
        | Pending => Pending
        end
      else Return acc
  | None => Return acc
  end.
Proof.
  unfold collectionStage. destruct (opt_collection options) as [c|]; [|reflexivity].
  destruct (JS.truthy c); [|reflexivity].
  unfold processCollectionOption. autorewrite with io_result.
  destruct (result (getNftAddressesFromCollection fuel w c))
    as [nfts|e|c'|]; autorewrite with io_result; try reflexivity.
  destruct (length nfts =? 0); autorewrite with io_result; [reflexivity|].
  destruct (create_confirm u); autorewrite with io_result; reflexivity.
Qed.

(** What the collection step of the action leaves in [accountAddresses],
    started with none. *)
Lemma collectionStage_contributed fuel w u options acc :
  result (collectionStage fuel w u options []) = Return acc ->
  (JS.truthy_opt (opt_collection options) = false -> acc = [])
  /\ (forall collection,
         opt_collection options = Some collection -> JS.truthy collection = true ->
         contributed (result (getNftAddressesFromCollection fuel w collection))
           (create_confirm u) acc).
Proof.
  rewrite result_collectionStage.
  destruct (opt_collection options) as [c|]; cbn [JS.truthy_opt].
  - destruct (JS.truthy c) eqn:Et.
    + intros H. split; [discriminate|]. intros c' Hc' _. injection Hc' as <-.
      destruct (result (getNftAddressesFromCollection fuel w c))
        as [nfts|e|c'|]; try discriminate; cbn [contributed].
      * destruct (Nat.eqb_spec (length nfts) 0) as [E|E]; cbn [orb] in H.
        -- injection H as <-. apply length_zero_iff_nil in E. subst nfts.
           destruct (create_confirm u); reflexivity.
        -- destruct (create_confirm u); cbn [negb] in H; injection H as <-;
             reflexivity.
      * injection H as <-. reflexivity.
    + intros H. injection H as <-. split; [reflexivity|].
      intros c' Hc' Ht. injection Hc' as <-. rewrite Et in Ht. discriminate Ht.
  - intros H. injection H as <-. split; [reflexivity | discriminate].
Qed.

(** What the collection steps of the prompt add to the prefilled
    addresses. *)
Lemma collection_contributed fuel w u prefilled useCollection collectionAddress
    acc added :
  result (askCollection u prefilled) = Return (useCollection, collectionAddress) ->
  result (addCollectionAddresses fuel w u useCollection collectionAddress prefilled)
    = Return (acc, added) ->
  exists collectionAddresses,
    acc = prefilled ++ collectionAddresses
    /\ addressRequired prefilled added = (length (prefilled ++ collectionAddresses) =? 0)
    /\ (prefilled <> [] \/ in_useCollection u = false -> collectionAddresses = [])
    /\ (prefilled = [] -> in_useCollection u = true ->
        exists collection,
          accepted (notBlank "Collection address is required")
            (in_collectionAddress u) = Some collection
          /\ contributed (result (getNftAddressesFromCollection fuel w collection))
               (in_confirm u) collectionAddresses).
Proof.
  rewrite result_askCollection, result_addCollectionAddresses.
  assert (Hreq : addressRequired prefilled false = (length (prefilled ++ []) =? 0)).
  { rewrite app_nil_r. unfold addressRequired. destruct prefilled; reflexivity. }
  destruct ((length prefilled =? 0) && in_useCollection u) eqn:Eask.
  - apply andb_true_iff in Eask as [Ep Eu].
    apply Nat.eqb_eq, length_zero_iff_nil in Ep. subst prefilled.
    destruct (accepted _ (in_collectionAddress u)) as [c|] eqn:Ec; [|discriminate].
    intros H. injection H as <- <-.
    assert (Ht : JS.truthy c = true).
    { apply accepted_In in Ec as [_ Hv]. apply notBlank_None in Hv.
      apply trim_not_blank. exact Hv. }
    rewrite Ht. cbn [andb app].
    destruct (result (getNftAddressesFromCollection fuel w c))
      as [nfts|e|c'|] eqn:En; try discriminate.
    + destruct (Nat.eqb_spec (length nfts) 0) as [E|E]; cbn [orb].
      * intros H. injection H as <- <-. exists [].
        split; [reflexivity|]. split; [reflexivity|].
        split; [reflexivity|]. intros _ _. exists c. split; [reflexivity|].
        rewrite En. cbn [contributed]. apply length_zero_iff_nil in E. subst nfts.
        destruct (in_confirm u); reflexivity.
      * destruct (in_confirm u) eqn:Econf; cbn [negb]; intros H; injection H as <- <-.
        -- exists nfts. split; [reflexivity|]. split.
           { unfold addressRequired. cbn.
             destruct nfts; [contradiction E; reflexivity | reflexivity]. }
           split.
           { intros [Hp | Hu]; [contradiction Hp; reflexivity|].
             rewrite Hu in Eu. discriminate Eu. }
           intros _ _. exists c. split; [reflexivity|].
           rewrite En. reflexivity.
        -- exists []. split; [reflexivity|]. split; [reflexivity|].
           split; [reflexivity|]. intros _ _. exists c. split; [reflexivity|].
           rewrite En. reflexivity.
    + intros H. injection H as <- <-. exists [].
      split; [reflexivity|]. split; [reflexivity|].
      split; [reflexivity|]. intros _ _. exists c. split; [reflexivity|].
      rewrite En. reflexivity.
  - intros H. injection H as <- <-. cbn [andb].
    intros H. injection H as <- <-. exists [].
    split; [symmetry; apply app_nil_r|]. split; [exact Hreq|].
    split; [reflexivity|]. intros Hp Hu. subst prefilled. rewrite Hu in Eask.
    discriminate Eask.
Qed.

(** ** The interactive prompt under either order *)

Lemma result_promptForWebhookDataIn order fuel w u prefilled :
  result (promptForWebhookDataIn order fuel w u prefilled) =
  andThen (result (askBasicQuestions u)) (fun basic =>
  andThen (result (askCollection u prefilled)) (fun collection =>
  andThen (result (addCollectionAddresses fuel w u (fst collection) (snd collection)
                     prefilled)) (fun added =>
  andThen (result (askAddressesIn order u prefilled (snd added) (fst added)))
    (fun entered =>
  andThen (result (requireAddressesIn order u entered)) (fun accountAddresses =>
  Return {| webhookURL := ans_webhookURL basic;
            webhookType := ans_webhookType basic;
            transactionTypes := ans_transactionTypes basic;
            accountAddresses := accountAddresses;
            authHeader := if JS.truthy (ans_authHeader basic)
                          then Some (ans_authHeader basic) else None;
            txnStatus := Some (ans_txnStatus basic);
            encoding := None;
            encoding_config := None |}))))).
Proof.
  unfold promptForWebhookDataIn. rewrite result_andThen, result_emit. cbn [andThen].
  rewrite result_andThen.
  destruct (result (askBasicQuestions u)) as [basic| | |]; try reflexivity.
  cbn [andThen]. rewrite result_andThen.
  destruct (result (askCollection u prefilled)) as [collection| | |]; try reflexivity.
  cbn [andThen]. rewrite result_andThen.
  destruct (result (addCollectionAddresses _ _ _ _ _ _)) as [added| | |];
    try reflexivity.
  cbn [andThen]. rewrite result_andThen.
  destruct (result (askAddressesIn _ _ _ _ _)) as [entered| | |]; try reflexivity.
  cbn [andThen]. rewrite result_andThen.
  destruct (result (requireAddressesIn _ _ _)) as [accountAddresses| | |];
    reflexivity.
Qed.

(** The addresses of the draft under either order: the prefilled ones,
    then what the collection contributed, then the tokens of the entry
    accepted at the address prompt. *)
Lemma promptForWebhookDataIn_addresses order fuel w u prefilled d :
  result (promptForWebhookDataIn order fuel w u prefilled) = Return d ->
  exists collectionAddresses input,
    accountAddresses d = prefilled ++ collectionAddresses ++ filterAddresses input
    /\ accepted (validateAddresses (length (prefilled ++ collectionAddresses) =? 0))
         (in_accountAddresses u) = Some input
    /\ (order = FilterFirst -> prefilled ++ collectionAddresses <> [])
    /\ (prefilled <> [] \/ in_useCollection u = false -> collectionAddresses = [])
    /\ (prefilled = [] -> in_useCollection u = true ->
        exists collection,
          accepted (notBlank "Collection address is required")
            (in_collectionAddress u) = Some collection
          /\ contributed (result (getNftAddressesFromCollection fuel w collection))
               (in_confirm u) collectionAddresses)
    /\ accountAddresses d <> [].
Proof.
  rewrite result_promptForWebhookDataIn.
  destruct (result (askBasicQuestions u)) as [basic| | |]; try discriminate.
  cbn [andThen].
  destruct (result (askCollection u prefilled)) as [[uc ca]| | |] eqn:Hcoll;
    try discriminate.
  cbn [andThen fst snd].
  destruct (result (addCollectionAddresses fuel w u uc ca prefilled))
    as [[acc1 added]| | |] eqn:Hadd; try discriminate.
  cbn [andThen fst snd].
  destruct (result (askAddressesIn order u prefilled added acc1))
    as [acc2| | |] eqn:Hask; try discriminate.
  cbn [andThen].
  destruct (collection_contributed _ _ _ _ _ _ _ _ Hcoll Hadd)
    as (coll & -> & Hreq & Hnone & Hsome).
  apply askAddressesIn_result in Hask as (input & Hacc & -> & Horder).
  rewrite Hreq in Hacc, Horder.
  assert (Hne : (prefilled ++ coll) ++ filterAddresses input <> []).
  { destruct (prefilled ++ coll) as [|a rest] eqn:E; [|discriminate].
    cbn [app]. apply accepted_In in Hacc as [_ Hv].
    unfold validateAddresses in Hv. cbn in Hv.
    apply notBlank_None in Hv. apply filterAddresses_not_blank. exact Hv. }
  rewrite (requireAddressesIn_not_nil order u _ Hne), result_ret. cbn [andThen].
  intros H. injection H as <-. cbn [accountAddresses].
  exists coll, input. rewrite <- app_assoc.
  split; [reflexivity|]. split; [exact Hacc|]. split.
  { intros Ho E. specialize (Horder Ho). rewrite E in Horder. discriminate Horder. }
  split; [exact Hnone|]. split; [exact Hsome|].
  rewrite app_assoc. exact Hne.
Qed.

(** ** Nothing but [createWebhook] sends a webhook *)

Lemma promptForWebhookDataIn_noWebhook order fuel w u prefilled :
  traceAll notWebhookRequest (promptForWebhookDataIn order fuel w u prefilled).
Proof.
  unfold promptForWebhookDataIn.
  apply traceAll_bind; [apply traceAll_emit; reflexivity | intros _].
  apply traceAll_bind; [unfold askBasicQuestions; trace_all | intros basic].
  apply traceAll_bind; [unfold askCollection; trace_all | intros collection].
  apply traceAll_bind; [| intros added].
  { unfold addCollectionAddresses.
    pose proof (getNftAddressesFromCollection_noWebhook fuel w (snd collection)).
    trace_all. }
  apply traceAll_bind;
    [unfold askAddressesIn, promptValidatedIn; destruct order; trace_all
    | intros addresses].
  apply traceAll_bind;
    [unfold requireAddressesIn, promptValidatedIn; destruct order; trace_all
    | intros addresses'].
  reflexivity.
Qed.

Lemma commandLineWebhookDataWith_noWebhook trimUpper options acc :
  traceAll notWebhookRequest (commandLineWebhookDataWith trimUpper options acc).
Proof.
  unfold commandLineWebhookDataWith.
  apply traceAll_bind; [apply required_noWebhook | intros url].
  apply traceAll_bind; [apply required_noWebhook | intros type].
  apply traceAll_bind; [apply required_noWebhook | intros types].
  apply traceAll_bind; [apply validateTransactionTypes_noWebhook | intros _].
  apply traceAll_bind; [apply commandLineAddresses_noWebhook | intros addresses].
  trace_all.
Qed.

Lemma gatherWebhookDataOn_noWebhook p fuel w u options :
  traceAll notWebhookRequest (gatherWebhookDataOn p fuel w u options).
Proof.
  unfold gatherWebhookDataOn.
  apply traceAll_bind; [apply traceAll_ensureConfig; intros; reflexivity | intros _].
  apply traceAll_bind; [apply collectionStage_noWebhook | intros acc].
  destruct (opt_interactive options);
    [apply promptForWebhookDataIn_noWebhook | apply commandLineWebhookDataWith_noWebhook].
Qed.

(** ** The [create] action on a platform *)

Lemma createActionOn_submitted p fuel w u options :
  submittedDrafts (trace (createActionOn p fuel w u options)) =
  match result (gatherWebhookDataOn p fuel w u options) with
  | Return webhookData => [webhookData]
  | _ => []
  end.
Proof.
  unfold createActionOn.
  pose proof (submittedDrafts_nil _ (gatherWebhookDataOn_noWebhook p fuel w u options))
    as Hg.
  rewrite trace_tryCatch, submittedDrafts_app, trace_bind, submittedDrafts_app, Hg.
  rewrite result_bind.
  destruct (result (gatherWebhookDataOn p fuel w u options)) as [d|e|c|];
    try reflexivity.
  unfold createWebhook, request.
  destruct (createWebhookReply w d); reflexivity.
Qed.

Lemma result_gatherWebhookDataOn p fuel w u options :
  result (gatherWebhookDataOn p fuel w u options) =
  andThen (result (ensureConfig w u)) (fun _ =>
  andThen (result (collectionStage fuel w u options [])) (fun acc =>
  if opt_interactive options
  then result (promptForWebhookDataIn (promptOrder p) fuel w u acc)
  else result (commandLineWebhookDataWith (trimUpper p) options acc))).
Proof.
  unfold gatherWebhookDataOn. rewrite result_andThen.
  destruct (result (ensureConfig w u)); try reflexivity.
  cbn [andThen]. rewrite result_andThen.
  destruct (result (collectionStage fuel w u options [])); try reflexivity.
  cbn [andThen]. destruct (opt_interactive options); reflexivity.
Qed.

Lemma result_createActionOn p fuel w u options :
  result (createActionOn p fuel w u options) =
  match result (gatherWebhookDataOn p fuel w u options) with
  | Return webhookData =>
      match createWebhookReply w webhookData with
      | Response _ => Return tt
      | _ => Exit 1
      end
  | Throw _ => Exit 1
  | Exit c => Exit c
  | Pending => Pending
  end.
Proof.
  unfold createActionOn. rewrite result_tryCatch, result_bind.
  destruct (result (gatherWebhookDataOn p fuel w u options)) as [d|e|c|];
    try reflexivity.
  unfold createWebhook, request.
  destruct (createWebhookReply w d); reflexivity.
Qed.

(** A draft the action submits is the one gathered: past the configuration
    check and the collection step, the one of the prompt or of the command
    line. *)
Lemma submitted_gatheredOn p fuel w u options d :
  In d (submittedDrafts (trace (createActionOn p fuel w u options))) ->
  exists b acc,
    result (ensureConfig w u) = Return b
    /\ result (collectionStage fuel w u options []) = Return acc
    /\ (if opt_interactive options
        then result (promptForWebhookDataIn (promptOrder p) fuel w u acc)
        else result (commandLineWebhookDataWith (trimUpper p) options acc)) = Return d.
Proof.
  rewrite createActionOn_submitted, result_gatherWebhookDataOn.
  destruct (result (ensureConfig w u)) as [b| | |]; cbn [andThen In];
    try contradiction.
  destruct (result (collectionStage fuel w u options [])) as [acc| | |];
    cbn [andThen In]; try contradiction.
  intros H. exists b, acc. split; [reflexivity|]. split; [reflexivity|].
  destruct (opt_interactive options);
    match goal with
    | H : In d match ?r with _ => _ end |- _ =>
        destruct r as [d'| | |]; cbn [In] in H; try contradiction;
        destruct H as [->|[]]; reflexivity
    end.
Qed.

(** ** The command line for any [t.trim().toUpperCase()] *)

Lemma result_commandLineWebhookDataWith trimUpper options acc url type types :
  opt_url options = Some url -> JS.truthy url = true ->
  opt_type options = Some type -> JS.truthy type = true ->
  opt_types options = Some types -> JS.truthy types = true ->
  result (commandLineWebhookDataWith trimUpper options acc) =
  if negb (forallb isTransactionType (parseTransactionTypesWith trimUpper types))
  then Exit 1
  else if (length acc =? 0) && negb (JS.truthy_opt (opt_addresses options)) then Exit 1
  else if negb (JS.includes WEBHOOK_TYPES type) then Exit 1
  else if invalidStatus options then Exit 1
  else Return {| webhookURL := url;
                 webhookType := type;
                 transactionTypes := parseTransactionTypesWith trimUpper types;
                 accountAddresses := acc ++ explicitAddresses options;
                 authHeader := opt_authHeader options;
                 txnStatus := if JS.truthy_opt (opt_status options)
                              then opt_status options else None;
                 encoding := None;
                 encoding_config := None |}.
Proof.
  intros Hu Tu Ht Tt Hs Ts. unfold commandLineWebhookDataWith.
  rewrite result_bind, required_result, Hu, Tu.
  rewrite result_bind, required_result, Ht, Tt.
  rewrite result_bind, required_result, Hs, Ts.
  rewrite result_bind, validateTransactionTypes_result.
  destruct (forallb isTransactionType (parseTransactionTypesWith trimUpper types));
    cbn [negb]; [|reflexivity].
  rewrite result_bind, commandLineAddresses_result.
  destruct ((length acc =? 0) && negb (JS.truthy_opt (opt_addresses options)));
    [reflexivity|].
  rewrite result_bind.
  destruct (JS.includes WEBHOOK_TYPES type); cbn [negb]; [|reflexivity].
  rewrite result_ret, result_bind. unfold invalidStatus.
  destruct (opt_status options) as [status|]; [|reflexivity].
  destruct (JS.truthy status && negb (JS.includes TXN_STATUS_OPTIONS status));
    reflexivity.
Qed.

(** The addresses of a command-line draft, whatever else is checked. *)
Lemma commandLineWebhookDataWith_addresses trimUpper options acc d :
  result (commandLineWebhookDataWith trimUpper options acc) = Return d ->
  accountAddresses d = acc ++ explicitAddresses options.
Proof.
  unfold commandLineWebhookDataWith. intros Hd.
  apply result_bind_Return in Hd as [url [_ Hd]].
  apply result_bind_Return in Hd as [type [_ Hd]].
  apply result_bind_Return in Hd as [types [_ Hd]].
  apply result_bind_Return in Hd as [[] [_ Hd]].
  apply result_bind_Return in Hd as [addresses [Ha Hd]].
  apply result_bind_Return in Hd as [[] [_ Hd]].
  apply result_bind_Return in Hd as [[] [_ Hd]].
  rewrite result_ret in Hd. injection Hd as <-. cbn [accountAddresses].
  rewrite commandLineAddresses_result in Ha.
  destruct ((length acc =? 0) && negb (JS.truthy_opt (opt_addresses options)));
    [discriminate Ha | injection Ha as <-; reflexivity].
Qed.

(** ** Tokens *)

Lemma split_commaFree s : commaFree s = true -> JS.split s = [s].
Proof.
  unfold commaFree. induction s as [|c r IH]; [reflexivity|].
  cbn [JS.allChars JS.split]. intros H. apply andb_true_iff in H as [Hc Hr].
  apply negb_true_iff in Hc. rewrite Hc, (IH Hr). reflexivity.
Qed.

Lemma split_append_comma s rest :
  commaFree s = true -> JS.split (s +++ String JS.comma rest) = s :: JS.split rest.
Proof.
  unfold commaFree. induction s as [|c r IH]; [reflexivity|].
  cbn [JS.allChars String.append JS.split]. intros H.
  apply andb_true_iff in H as [Hc Hr].
  apply negb_true_iff in Hc. rewrite Hc, (IH Hr). reflexivity.
Qed.

(** Splitting at the commas undoes joining with commas. *)
Lemma split_join raws :
  raws <> [] -> forallb commaFree raws = true -> JS.split (JS.join "," raws) = raws.
Proof.
  unfold JS.join. induction raws as [|raw rest IH]; [intros H; contradiction H; reflexivity|].
  intros _ H. cbn [forallb] in H. apply andb_true_iff in H as [Hraw Hrest].
  destruct rest as [|raw' rest].
  - cbn [String.concat]. apply split_commaFree. exact Hraw.
  - change (String.concat "," (raw :: raw' :: rest))
      with (raw +++ String JS.comma (String.concat "," (raw' :: rest))).
    rewrite (split_append_comma raw _ Hraw), IH; [reflexivity | discriminate | exact Hrest].
Qed.

Lemma commaFree_split s : forallb commaFree (JS.split s) = true.
Proof.
  induction s as [|c r IH]; [reflexivity|].
  cbn [JS.split]. destruct (Ascii.eqb c JS.comma) eqn:Ec.
  - cbn [forallb]. rewrite IH. reflexivity.
  - destruct (JS.split r) as [|tok toks]; [cbn; rewrite Ec; reflexivity|].
    cbn [forallb] in *. apply andb_true_iff in IH as [Htok Htoks].
    unfold commaFree at 1. cbn [JS.allChars]. rewrite Ec. cbn [negb andb].
    fold (commaFree tok). rewrite Htok, Htoks. reflexivity.
Qed.

(** Joining with commas undoes splitting at the commas: every string is
    the join of its tokens. *)
Lemma join_split s : JS.join "," (JS.split s) = s.
Proof.
  unfold JS.join. induction s as [|c r IH]; [reflexivity|].
  cbn [JS.split]. destruct (Ascii.eqb_spec c JS.comma) as [->|Ec].
  - destruct (JS.split r) as [|tok toks] eqn:E;
      [exfalso; exact (split_not_nil r E)|].
    change (String.concat "," ("" :: tok :: toks))
      with (String JS.comma (String.concat "," (tok :: toks))).
    rewrite IH. reflexivity.
  - destruct (JS.split r) as [|tok toks] eqn:E;
      [exfalso; exact (split_not_nil r E)|].
    destruct toks as [|tok' toks].
    + cbn [String.concat] in *. rewrite IH. reflexivity.
    + change (String.concat "," (String c tok :: tok' :: toks))
        with (String c (String.concat "," (tok :: tok' :: toks))).
      rewrite IH. reflexivity.
Qed.

Lemma includes_In xs x : JS.includes xs x = true <-> In x xs.
Proof.
  unfold JS.includes. rewrite existsb_exists. split.
  - intros (y & Hy & E). apply String.eqb_eq in E. subst y. exact Hy.
  - intros H. exists x. split; [exact H | apply String.eqb_refl].
Qed.

Lemma forallb_TransactionType (f : string -> string) raws :
  forallb isTransactionType (map f raws) = true
  <-> Forall (fun raw => TransactionType (f raw)) raws.
Proof.
  rewrite forallb_forall, Forall_forall. unfold isTransactionType, TransactionType.
  split.
  - intros H raw Hin. apply includes_In, H, in_map, Hin.
  - intros H token Hin. apply in_map_iff in Hin as (raw & <- & Hin).
    apply includes_In, H, Hin.
Qed.

(** ** Address order *)

(** C4 as stated fails on the command line.  With [--addresses A] and
    [--collection COL], where COL resolves to B and C and the user confirms,
    the explicit address does not come first: the draft carries B, C, A and
    not A, B, C (line 711 appends the explicit addresses to those of the
    collection). *)
Lemma C4_counterexample :
  result (getNftAddressesFromCollection 1 sampleWorld "COL") = Return ["B"; "C"]
  /\ create_confirm sampleUser = true
  /\ explicitAddresses (commandLine (Some "https://example.org/hook") (Some "raw")
                          (Some "SWAP") (Some "A") (Some "COL")) = ["A"]
  /\ exists d,
       submittedDrafts
         (trace (createAction 1 sampleWorld sampleUser
                   (commandLine (Some "https://example.org/hook") (Some "raw")
                      (Some "SWAP") (Some "A") (Some "COL")))) = [d]
       /\ accountAddresses d = ["B"; "C"; "A"]
       /\ accountAddresses d <> ["A"; "B"; "C"].
Proof.
  split; [reflexivity|]. split; [reflexivity|]. split; [reflexivity|].
  eexists. split; [reflexivity|]. split; [reflexivity | discriminate].
Qed.

(** C4 (amended): the addresses of a draft are a concatenation in a fixed
    order, nothing removed, so duplicates stay.

    In the interactive prompt they are the prefilled addresses, then those
    the collection contributed, then the tokens of the entry accepted at the
    address prompt.  The collection contributes nothing when addresses are
    prefilled or the user tracks no collection; otherwise it contributes
    exactly the addresses found for the collection entered when the user
    confirms, and none when the user declines or the lookup fails.  In the
    action the prefilled addresses are what [--collection] contributed, in
    the same sense.

    On the command line the addresses are those [--collection] contributed
    followed by the tokens of [--addresses].

    This holds whichever order the prompt library applies [validate] and
    [filter] in; where it filters first, a draft is only returned when
    addresses were prefilled or contributed by the collection. *)
Theorem C4_address_order :
  (forall order fuel w u prefilled d,
      result (promptForWebhookDataIn order fuel w u prefilled) = Return d ->
      exists collectionAddresses input,
        accountAddresses d = prefilled ++ collectionAddresses ++ filterAddresses input
        /\ accepted
             (validateAddresses (length (prefilled ++ collectionAddresses) =? 0))
             (in_accountAddresses u) = Some input
        /\ (prefilled <> [] \/ in_useCollection u = false -> collectionAddresses = [])
        /\ (prefilled = [] -> in_useCollection u = true ->
            exists collection,
              accepted (notBlank "Collection address is required")
                (in_collectionAddress u) = Some collection
              /\ contributed
                   (result (getNftAddressesFromCollection fuel w collection))
                   (in_confirm u) collectionAddresses)
        /\ (order = FilterFirst -> prefilled ++ collectionAddresses <> []))
  /\ (forall p fuel w u options d,
         opt_interactive options = true ->
         In d (submittedDrafts (trace (createActionOn p fuel w u options))) ->
         exists prefilled,
           result (promptForWebhookDataIn (promptOrder p) fuel w u prefilled) = Return d
           /\ (JS.truthy_opt (opt_collection options) = false -> prefilled = [])
           /\ (forall collection,
                  opt_collection options = Some collection ->
                  JS.truthy collection = true ->
                  contributed
                    (result (getNftAddressesFromCollection fuel w collection))
                    (create_confirm u) prefilled))
  /\ (forall p fuel w u options d,
         opt_interactive options = false ->
         In d (submittedDrafts (trace (createActionOn p fuel w u options))) ->
         exists collectionAddresses,
           accountAddresses d = collectionAddresses ++ explicitAddresses options
           /\ (JS.truthy_opt (opt_collection options) = false ->
               collectionAddresses = [])
           /\ (forall collection,
                  opt_collection options = Some collection ->
                  JS.truthy collection = true ->
                  contributed
                    (result (getNftAddressesFromCollection fuel w collection))
                    (create_confirm u) collectionAddresses)).
Proof.
  split; [|split].
  - intros order fuel w u prefilled d H.
    apply promptForWebhookDataIn_addresses in H
      as (coll & input & Heq & Hacc & Horder & Hnone & Hsome & _).
    exists coll, input.
    split; [exact Heq|]. split; [exact Hacc|]. split; [exact Hnone|].
    split; [exact Hsome | exact Horder].
  - intros p fuel w u options d Hi Hin.
    apply submitted_gatheredOn in Hin as (b & acc & _ & Hstage & Hd).
    rewrite Hi in Hd. exists acc. split; [exact Hd|].
    apply collectionStage_contributed. exact Hstage.
  - intros p fuel w u options d Hi Hin.
    apply submitted_gatheredOn in Hin as (b & acc & _ & Hstage & Hd).
    rewrite Hi in Hd. exists acc.
    split; [apply (commandLineWebhookDataWith_addresses _ _ _ _ Hd)|].
    apply collectionStage_contributed. exact Hstage.
Qed.

(** Nothing prefilled, the collection COL confirmed, D,E typed: B, C, D,
    E, under either order of the prompt library.  On the command line, COL
    confirmed and [--addresses A]: B, C, A. *)
Lemma C4_address_order_witness :
  (exists d,
      result (promptForWebhookData 1 sampleWorld sampleUser []) = Return d
      /\ accountAddresses d = ["B"; "C"; "D"; "E"])
  /\ (exists d,
         result (promptForWebhookDataIn FilterFirst 1 sampleWorld sampleUser [])
           = Return d
         /\ accountAddresses d = ["B"; "C"; "D"; "E"])
  /\ (exists d,
         In d (submittedDrafts
                 (trace (createAction 1 sampleWorld sampleUser
                           (commandLine (Some "https://example.org/hook")
                              (Some "raw") (Some "SWAP") (Some "A") (Some "COL")))))
         /\ accountAddresses d = ["B"; "C"; "A"]).
Proof.
  split; [|split].
  - eexists. split; [reflexivity|].
    destruct (proj1 C4_address_order ValidateTyped 1 sampleWorld sampleUser [] _
                eq_refl)
      as (coll & input & Heq & Hacc & _ & Hsome & _).
    destruct (Hsome eq_refl eq_refl) as (c & Hc & Hcontributed).
    vm_compute in Hc. injection Hc as <-.
    vm_compute in Hcontributed. subst coll.
    vm_compute in Hacc. injection Hacc as <-.
    exact (eq_trans Heq eq_refl).
  - eexists. split; [reflexivity|].
    destruct (proj1 C4_address_order FilterFirst 1 sampleWorld sampleUser [] _
                eq_refl)
      as (coll & input & Heq & Hacc & _ & Hsome & _).
    destruct (Hsome eq_refl eq_refl) as (c & Hc & Hcontributed).
    vm_compute in Hc. injection Hc as <-.
    vm_compute in Hcontributed. subst coll.
    vm_compute in Hacc. injection Hacc as <-.
    exact (eq_trans Heq eq_refl).
  - eexists. split; [left; reflexivity|].
    destruct (proj2 (proj2 C4_address_order) asciiPlatform 1 sampleWorld sampleUser
                (commandLine (Some "https://example.org/hook") (Some "raw")
                   (Some "SWAP") (Some "A") (Some "COL"))
                _ eq_refl (or_introl eq_refl))
      as (coll & Heq & _ & Hcontributed).
    specialize (Hcontributed "COL" eq_refl eq_refl).
    vm_compute in Hcontributed. subst coll.
    exact (eq_trans Heq eq_refl).
Defined.

(** ** The tokens of [--types] *)

(** C5: in command-line mode the value of [--types] is the join, with
    commas, of its tokens: a sequence of strings without commas, which is
    unique.  Each token is trimmed and put in upper case and the result is
    looked up in the enumeration.  With a token outside it nothing is
    submitted and the command ends with status 1; when everything else is in
    order, exactly one draft is submitted, carrying the trimmed, upper-cased
    tokens in their order, if and only if every one of them is in the
    enumeration.  This holds whatever [t.trim().toUpperCase()] returns, on every
    platform: beyond the ASCII range too. *)
Theorem C5_transaction_types p fuel w u options url type types :
  opt_interactive options = false ->
  opt_url options = Some url -> JS.truthy url = true ->
  opt_type options = Some type -> JS.truthy type = true ->
  opt_types options = Some types -> JS.truthy types = true ->
  exists raws,
    JS.join "," raws = types
    /\ raws <> []
    /\ forallb commaFree raws = true
    /\ (forall raws',
           raws' <> [] -> forallb commaFree raws' = true ->
           JS.join "," raws' = types -> raws' = raws)
    /\ (~ Forall (fun raw => TransactionType (trimUpper p raw)) raws ->
        submittedDrafts (trace (createActionOn p fuel w u options)) = []
        /\ result (createActionOn p fuel w u options) <> Return tt
        /\ (forall b acc,
               result (ensureConfig w u) = Return b ->
               result (collectionStage fuel w u options []) = Return acc ->
               result (createActionOn p fuel w u options) = Exit 1))
    /\ (forall b acc,
           result (ensureConfig w u) = Return b ->
           result (collectionStage fuel w u options []) = Return acc ->
           acc <> [] \/ JS.truthy_opt (opt_addresses options) = true ->
           JS.includes WEBHOOK_TYPES type = true ->
           invalidStatus options = false ->
           (Forall (fun raw => TransactionType (trimUpper p raw)) raws
            <-> exists d,
                  submittedDrafts (trace (createActionOn p fuel w u options)) = [d]
                  /\ transactionTypes d = map (trimUpper p) raws)).
Proof.
  intros Hi Hu Tu Ht Tt Hs Ts.
  exists (JS.split types).
  split; [apply join_split|].
  split; [apply split_not_nil|].
  split; [apply commaFree_split|].
  split.
  { intros raws' Hne Hfree <-. symmetry. apply split_join; assumption. }
  pose proof (fun acc => result_commandLineWebhookDataWith (trimUpper p) options acc
                           url type types Hu Tu Ht Tt Hs Ts) as Hcl.
  unfold parseTransactionTypesWith in Hcl.
  pose proof (forallb_TransactionType (trimUpper p) (JS.split types)) as Hvalid.
  split.
  - intros Hbad.
    assert (Hfalse : forallb isTransactionType (map (trimUpper p) (JS.split types))
                     = false).
    { destruct (forallb isTransactionType _); [|reflexivity].
      exfalso. apply Hbad, Hvalid. reflexivity. }
    assert (Hexit : forall acc,
               result (commandLineWebhookDataWith (trimUpper p) options acc) = Exit 1).
    { intros acc. rewrite Hcl, Hfalse. reflexivity. }
    assert (Hg : forall d, result (gatherWebhookDataOn p fuel w u options) <> Return d).
    { intros d. rewrite result_gatherWebhookDataOn, Hi.
      destruct (result (ensureConfig w u)); cbn [andThen]; try discriminate.
      destruct (result (collectionStage fuel w u options [])); cbn [andThen];
        try discriminate.
      rewrite Hexit. discriminate. }
    split; [|split].
    + rewrite createActionOn_submitted.
      destruct (result (gatherWebhookDataOn p fuel w u options)) as [d| | |] eqn:E;
        try reflexivity.
      exfalso. exact (Hg d eq_refl).
    + rewrite result_createActionOn.
      destruct (result (gatherWebhookDataOn p fuel w u options)) as [d| | |] eqn:E;
        try discriminate.
      exfalso. exact (Hg d eq_refl).
    + intros b acc Hb Hacc.
      rewrite result_createActionOn, result_gatherWebhookDataOn, Hb, Hacc.
      cbn [andThen]. rewrite Hi, Hexit. reflexivity.
  - intros b acc Hb Hacc Haddr Hty Hst.
    rewrite createActionOn_submitted, result_gatherWebhookDataOn, Hb, Hacc.
    cbn [andThen]. rewrite Hi, Hcl, Hty, Hst. cbn [negb].
    assert (Ha : (length acc =? 0) && negb (JS.truthy_opt (opt_addresses options))
                 = false).
    { destruct Haddr as [Hne | Hopt].
      - destruct acc; [contradiction Hne; reflexivity | reflexivity].
      - rewrite Hopt. apply andb_false_r. }
    rewrite Ha.
    destruct (forallb isTransactionType (map (trimUpper p) (JS.split types)));
      cbn [negb].
    + split; [intros _ | intros _; apply Hvalid; reflexivity].
      eexists. split; reflexivity.
    + split; [intros HF; apply Hvalid in HF; discriminate HF
             | intros (d & Hd & _); discriminate Hd].
Qed.

(** Two command lines.  [--types "NFT_SALE,BOGUS"]: the tokens are NFT_SALE
    and BOGUS, nothing is submitted, status 1.  [--types " nft_sale, swap"]:
    the tokens are those two words with their blanks, and one draft is
    submitted with NFT_SALE and SWAP. *)
Lemma C5_transaction_types_witness :
  (submittedDrafts
     (trace (createAction 1 sampleWorld sampleUser
               (commandLine (Some "https://example.org/hook") (Some "raw")
                  (Some "NFT_SALE,BOGUS") (Some "x") None))) = []
   /\ result (createAction 1 sampleWorld sampleUser
                (commandLine (Some "https://example.org/hook") (Some "raw")
                   (Some "NFT_SALE,BOGUS") (Some "x") None)) = Exit 1)
  /\ exists d,
       submittedDrafts
         (trace (createAction 1 sampleWorld sampleUser
                   (commandLine (Some "https://example.org/hook") (Some "raw")
                      (Some " nft_sale, swap") (Some "x") None))) = [d]
       /\ transactionTypes d = ["NFT_SALE"; "SWAP"].
Proof.
  split.
  - destruct (C5_transaction_types asciiPlatform 1 sampleWorld sampleUser
                (commandLine (Some "https://example.org/hook") (Some "raw")
                   (Some "NFT_SALE,BOGUS") (Some "x") None)
                "https://example.org/hook" "raw" "NFT_SALE,BOGUS"
                eq_refl eq_refl eq_refl eq_refl eq_refl eq_refl eq_refl)
      as (raws & _ & _ & _ & Hunique & Hbad & _).
    specialize (Hunique ["NFT_SALE"; "BOGUS"]).
    destruct Hunique; [discriminate | reflexivity | reflexivity |].
    destruct Hbad as (Hnone & _ & Hexit).
    + intros HF. apply forallb_TransactionType in HF. vm_compute in HF.
      discriminate HF.
    + split; [exact Hnone | exact (Hexit true [] eq_refl eq_refl)].
  - destruct (C5_transaction_types asciiPlatform 1 sampleWorld sampleUser
                (commandLine (Some "https://example.org/hook") (Some "raw")
                   (Some " nft_sale, swap") (Some "x") None)
                "https://example.org/hook" "raw" " nft_sale, swap"
                eq_refl eq_refl eq_refl eq_refl eq_refl eq_refl eq_refl)
      as (raws & _ & _ & _ & Hunique & _ & Hgood).
    specialize (Hunique [" nft_sale"; " swap"]).
    destruct Hunique; [discriminate | reflexivity | reflexivity |].
    destruct (proj1 (Hgood true [] eq_refl eq_refl (or_intror eq_refl) eq_refl eq_refl))
      as (d & Hd & Htypes).
    + apply forallb_TransactionType. reflexivity.
    + exists d. split; [exact Hd | exact Htypes].
Defined.

(** ** The address prompt under either order *)

(** With no collection to add, the prompt goes from the basic questions
    straight to the addresses. *)
Lemma promptForWebhookDataIn_noCollection order fuel w u prefilled basic :
  result (askBasicQuestions u) = Return basic ->
  prefilled <> [] \/ in_useCollection u = false ->
  result (promptForWebhookDataIn order fuel w u prefilled) =
  andThen (result (askAddressesIn order u prefilled false prefilled)) (fun entered =>
  andThen (result (requireAddressesIn order u entered)) (fun accountAddresses =>
  Return {| webhookURL := ans_webhookURL basic;
            webhookType := ans_webhookType basic;
            transactionTypes := ans_transactionTypes basic;
            accountAddresses := accountAddresses;
            authHeader := if JS.truthy (ans_authHeader basic)
                          then Some (ans_authHeader basic) else None;
            txnStatus := Some (ans_txnStatus basic);
            encoding := None;
            encoding_config := None |})).
Proof.
  intros Hb Hno. rewrite result_promptForWebhookDataIn, Hb. cbn [andThen].
  rewrite result_askCollection.
  assert (E : (length prefilled =? 0) && in_useCollection u = false).
  { destruct Hno as [Hp | Hu].
    - destruct prefilled; [contradiction Hp; reflexivity | reflexivity].
    - rewrite Hu. apply andb_false_r. }
  rewrite E. cbn [andThen fst snd].
  rewrite result_addCollectionAddresses. cbn [andb andThen fst snd]. reflexivity.
Qed.

(** Addresses are optional: the first entry is taken, under either
    order. *)
Lemma promptForWebhookDataIn_optional order fuel w u prefilled basic entry later :
  result (askBasicQuestions u) = Return basic ->
  prefilled <> [] ->
  in_accountAddresses u = entry :: later ->
  exists d,
    result (promptForWebhookDataIn order fuel w u prefilled) = Return d
    /\ accountAddresses d = prefilled ++ filterAddresses entry.
Proof.
  intros Hb Hp Hu.
  rewrite (promptForWebhookDataIn_noCollection order fuel w u prefilled basic Hb
             (or_introl Hp)).
  rewrite result_askAddressesIn, Hu.
  assert (Hreq : addressRequired prefilled false = false).
  { unfold addressRequired. destruct prefilled; [contradiction Hp|]; reflexivity. }
  rewrite Hreq.
  assert (Hne : prefilled ++ filterAddresses entry <> []).
  { destruct prefilled; [contradiction Hp; reflexivity | discriminate]. }
  destruct order; cbn [hd_error andThen];
    rewrite (requireAddressesIn_not_nil _ u _ Hne), result_ret; cbn [andThen];
    eexists; (split; [reflexivity|]); reflexivity.
Qed.

(** An address is required and the library validates the typed text: the
    first entry that is not blank is taken. *)
Lemma promptForWebhookDataIn_required_typed fuel w u basic :
  result (askBasicQuestions u) = Return basic ->
  in_useCollection u = false ->
  match accepted (notBlank "At least one account address is required")
          (in_accountAddresses u) with
  | Some input =>
      exists d,
        result (promptForWebhookDataIn ValidateTyped fuel w u []) = Return d
        /\ accountAddresses d = map JS.trim (JS.split input)
  | None => result (promptForWebhookDataIn ValidateTyped fuel w u []) = Pending
  end.
Proof.
  intros Hb Hu.
  rewrite (promptForWebhookDataIn_noCollection ValidateTyped fuel w u [] basic Hb
             (or_intror Hu)).
  rewrite result_askAddressesIn.
  change (addressRequired [] false) with true. cbv iota.
  destruct (accepted _ (in_accountAddresses u)) as [input|] eqn:Ea; [|reflexivity].
  apply accepted_In in Ea as [_ Hv]. apply notBlank_None in Hv.
  destruct (filterAddresses_not_blank input Hv) as [Hf Hne].
  cbn [andThen app].
  rewrite (requireAddressesIn_not_nil _ u _ Hne), result_ret. cbn [andThen].
  eexists. split; [reflexivity|]. exact Hf.
Qed.

(** An address is required and the library filters first: [validate]
    throws on every entry and the prompt never returns. *)
Lemma promptForWebhookDataIn_required_filterFirst fuel w u basic :
  result (askBasicQuestions u) = Return basic ->
  in_useCollection u = false ->
  result (promptForWebhookDataIn FilterFirst fuel w u []) = Pending.
Proof.
  intros Hb Hu.
  rewrite (promptForWebhookDataIn_noCollection FilterFirst fuel w u [] basic Hb
             (or_intror Hu)).
  rewrite result_askAddressesIn. reflexivity.
Qed.


(** ** Empty addresses *)




(** ** When the address prompt insists *)

(** X25: in the interactive prompt further addresses are optional once
    there are prefilled ones, under either order of the prompt library: the
    first entry is taken whatever it is, and an empty entry leaves exactly
    the prefilled addresses.  With nothing prefilled and no collection
    tracked an address is required: a library that validates the typed text
    refuses blank entries and the addresses are the tokens of the first
    entry that is not blank; under a library that filters first the prompt
    never returns, whatever is typed. *)
Theorem X25_addresses_optional_when_prefilled order fuel w u prefilled basic :
  result (askBasicQuestions u) = Return basic ->
  (prefilled <> [] ->
     forall entry later,
       in_accountAddresses u = entry :: later ->
       exists d,
         result (promptForWebhookDataIn order fuel w u prefilled) = Return d
         /\ accountAddresses d = prefilled ++ filterAddresses entry
         /\ (entry = "" -> accountAddresses d = prefilled))
  /\ (prefilled = [] -> in_useCollection u = false ->
      match order with
      | ValidateTyped =>
          match accepted (notBlank "At least one account address is required")
                  (in_accountAddresses u) with
          | Some input =>
              JS.trim input <> ""
              /\ exists d,
                   result (promptForWebhookDataIn order fuel w u prefilled) = Return d
                   /\ accountAddresses d = map JS.trim (JS.split input)
          | None => result (promptForWebhookDataIn order fuel w u prefilled) = Pending
          end
      | FilterFirst =>
          result (promptForWebhookDataIn order fuel w u prefilled) = Pending
      end).
Proof.
  intros Hb. split.
  - intros Hp entry later Hu.
    destruct (promptForWebhookDataIn_optional order fuel w u prefilled basic
                entry later Hb Hp Hu) as (d & Hd & Ha).
    exists d. split; [exact Hd|]. split; [exact Ha|].
    intros ->. rewrite Ha. apply app_nil_r.
  - intros -> Hno. destruct order.
    + pose proof (promptForWebhookDataIn_required_typed fuel w u basic Hb Hno) as H.
      destruct (accepted _ (in_accountAddresses u)) as [input|] eqn:Ea; [|exact H].
      split; [|exact H].
      apply accepted_In in Ea as [_ Hv]. apply notBlank_None in Hv. exact Hv.
    + apply (promptForWebhookDataIn_required_filterFirst fuel w u basic Hb Hno).
Qed.

(** The addresses B and C prefilled and an empty entry at the prompt,
    under either order; nothing prefilled and a library that filters
    first. *)
Lemma X25_addresses_optional_when_prefilled_witness :
  (exists d,
      result (promptForWebhookDataIn ValidateTyped 1 sampleWorld
                (withAddresses sampleUser [""]) ["B"; "C"]) = Return d
      /\ accountAddresses d = ["B"; "C"])
  /\ (exists d,
         result (promptForWebhookDataIn FilterFirst 1 sampleWorld
                   (withAddresses sampleUser [""]) ["B"; "C"]) = Return d
         /\ accountAddresses d = ["B"; "C"])
  /\ result (promptForWebhookDataIn FilterFirst 1 sampleWorld (typing "D,E") [])
     = Pending.
Proof.
  split; [|split].
  - destruct (proj1 (X25_addresses_optional_when_prefilled ValidateTyped 1 sampleWorld
                       (withAddresses sampleUser [""]) ["B"; "C"] _ eq_refl)
                ltac:(discriminate) "" [] eq_refl) as (d & Hd & _ & Ha).
    exists d. split; [exact Hd | exact (Ha eq_refl)].
  - destruct (proj1 (X25_addresses_optional_when_prefilled FilterFirst 1 sampleWorld
                       (withAddresses sampleUser [""]) ["B"; "C"] _ eq_refl)
                ltac:(discriminate) "" [] eq_refl) as (d & Hd & _ & Ha).
    exists d. split; [exact Hd | exact (Ha eq_refl)].
  - exact (proj2 (X25_addresses_optional_when_prefilled FilterFirst 1 sampleWorld
                    (typing "D,E") [] _ eq_refl) eq_refl eq_refl).
Defined.
